(** * Control-room monitor (SIEMENS IoT2020): sensor acquisition engine

    A shallow embedding of [application/app.c]: the DS18B20 scratchpad
    decode, the GP2Y1010AU dust sampler, the HSM-20G humidity curve, the
    SQLite store and the polling state machine of [main].

    Conventions.
    - C integers are [Z] with the wrap-around of their type written out.
    - C [float] and [double] are IEEE-754 binary32 and binary64 values
      ([spec_float]); every C operation is rounded once, to nearest-even, in
      the type C gives it (operands of mixed type are promoted to [double],
      an assignment to a [float] object rounds to binary32).
    - Calls into mraa, libc and SQLite are answered by an environment
      ([Env]) that sees the whole history of earlier calls; every call is
      appended to that history, which is the observable trace of the program.
    - Diagnostic [printf] output is not part of the model.
    - [store_data_to_db] prints its statement into 64 bytes without a
      check.  The model of the call is the call for a statement that fits
      ([query_fits]); a longer statement is written past the buffer, which
      C leaves undefined, and is outside the model. *)

From Stdlib Require Import Strings.String.
From Stdlib Require Import ZArith List Bool Lia QArith Qabs Qpower Permutation.
From Stdlib Require Import Floats.SpecFloat.
Import ListNotations.
Open Scope Z_scope.

(* ------------------------------------------------------------------ *)
(** ** Fixed-width integers *)

Definition to_uint8 (z : Z) : Z := z mod 256.
Definition to_uint16 (z : Z) : Z := z mod 65536.
Definition to_int16 (z : Z) : Z := (z + 32768) mod 65536 - 32768.

(* ------------------------------------------------------------------ *)
(** ** IEEE-754 arithmetic of the C types [float] and [double] *)

Definition c_float := spec_float.
Definition c_double := spec_float.

Definition f32_of_Z (z : Z) : c_float := binary_normalize 24 128 z 0 false.
Definition f64_of_Z (z : Z) : c_double := binary_normalize 53 1024 z 0 false.

(** Promotion [float -> double] (exact) and conversion [double -> float]
    (one rounding). *)
Definition f64_of_f32 (x : c_float) : c_double :=
  match x with
  | S754_finite s m e => binary_normalize 53 1024 (cond_Zopp s (Zpos m)) e s
  | _ => x
  end.

Definition f32_of_f64 (x : c_double) : c_float :=
  match x with
  | S754_finite s m e => binary_normalize 24 128 (cond_Zopp s (Zpos m)) e s
  | _ => x
  end.

Definition f64_mul : c_double -> c_double -> c_double := SFmul 53 1024.
Definition f64_div : c_double -> c_double -> c_double := SFdiv 53 1024.
Definition f64_add : c_double -> c_double -> c_double := SFadd 53 1024.
Definition f64_sub : c_double -> c_double -> c_double := SFsub 53 1024.
Definition f32_add : c_float -> c_float -> c_float := SFadd 24 128.
Definition f32_div : c_float -> c_float -> c_float := SFdiv 24 128.

(** C comparisons: false as soon as one operand is a NaN. *)
Definition f_le (x y : spec_float) : bool := SFleb x y.
Definition f_lt (x y : spec_float) : bool := SFltb x y.
Definition f_ge (x y : spec_float) : bool := SFleb y x.
Definition f_gt (x y : spec_float) : bool := SFltb y x.

(** A decimal [double] literal [n/d]: the binary64 value nearest to it. *)
Definition dlit (n d : Z) : c_double := f64_div (f64_of_Z n) (f64_of_Z d).

Definition d_0_0    : c_double := S754_zero false.
Definition d_0_0625 : c_double := dlit 625 10000.
Definition d_0_6    : c_double := dlit 6 10.
Definition d_3_5    : c_double := dlit 35 10.
Definition d_5_8    : c_double := dlit 58 10.
Definition d_1023_0 : c_double := f64_of_Z 1023.
Definition d_5_0    : c_double := f64_of_Z 5.
Definition d_1_253  : c_double := dlit 1253 1000.
Definition d_25_931 : c_double := dlit 25931 1000.
Definition d_7_542  : c_double := dlit 7542 1000.

(** The rational denoted by a finite value (0 for the others). *)
Definition SF2Q (x : spec_float) : Q :=
  match x with
  | S754_finite s m e => (inject_Z (cond_Zopp s (Zpos m)) * Qpower 2 e)%Q
  | _ => 0%Q
  end.

Definition is_finite_SF (x : spec_float) : bool :=
  match x with
  | S754_finite _ _ _ | S754_zero _ => true
  | _ => false
  end.

Definition is_nan_SF (x : spec_float) : bool :=
  match x with S754_nan => true | _ => false end.

(* ------------------------------------------------------------------ *)
(** ** Macros and enumerations of app.c *)

Definition SUCCESS : Z := 1.
Definition FAIL : Z := 0.

Definition NEW_SEARCH : Z := 1.
Definition CONTINUE_WITH_PREV_SEARCH : Z := 0.

Definition CMD_READ_SCRATCHPAD : Z := 0xBE.
Definition CMD_START_TEMP_CONV : Z := 0x44.

(** [MRAA_UART_OW_ROMCODE_SIZE] comes from mraa.h; the source comments fix
    it to the 8 bytes of a DS18B20 ROM code. *)
Definition DS18B20_ADDR_LEN : Z := 8.
Definition NUM_OF_SENSORS : Z := 2.

(** [app_states_t]; [state_index] also takes the value [WAIT + 1], which is
    no enumerator, so the enumeration is kept as the integers C gives it. *)
Definition NONE : Z := 0.
Definition START_CONV : Z := 1.
Definition WAIT_TILL_CONV_FINISHED : Z := 2.
Definition READ_TEMP : Z := 3.
Definition READ_DUST_CONCENTRATION : Z := 4.
Definition READ_HUMIDITY : Z := 5.
Definition WAIT : Z := 6.

(** The result codes of mraa.h that the program tells apart; every other
    code of the library is [MRAA_ERROR_OTHER]. *)
Inductive mraa_result_t :=
| MRAA_SUCCESS
| MRAA_ERROR_UART_OW_NO_DEVICES
| MRAA_ERROR_UART_OW_DATA_ERROR
| MRAA_ERROR_OTHER.

Definition mraa_result_eqb (a b : mraa_result_t) : bool :=
  match a, b with
  | MRAA_SUCCESS, MRAA_SUCCESS
  | MRAA_ERROR_UART_OW_NO_DEVICES, MRAA_ERROR_UART_OW_NO_DEVICES
  | MRAA_ERROR_UART_OW_DATA_ERROR, MRAA_ERROR_UART_OW_DATA_ERROR
  | MRAA_ERROR_OTHER, MRAA_ERROR_OTHER => true
  | _, _ => false
  end.

(** SQLite result codes: [SQLITE_OK] against all the others. *)
Inductive sqlite_result_t := SQLITE_OK | SQLITE_ERROR.

Definition sqlite_is_ok (r : sqlite_result_t) : bool :=
  match r with SQLITE_OK => true | SQLITE_ERROR => false end.

(** Pins of the rig ([dust_ir_led_pin], [dust_aio_in], [hsm_aio_in]). *)
Definition dust_ir_led_pin : Z := 4.
Definition dust_aio_in : Z := 0.
Definition hsm_aio_in : Z := 1.
Definition dust_sensor_max_sample : Z := 16.

(* ------------------------------------------------------------------ *)
(** ** External calls, their trace and the environment *)

Inductive Event :=
| Ev_uart_ow_init (dev : Z) (ok : bool)
| Ev_uart_ow_reset (r : mraa_result_t)
| Ev_uart_ow_rom_search (start : Z) (r : mraa_result_t) (rom : list Z)
| Ev_uart_ow_command (cmd : Z) (rom : list Z)
| Ev_uart_ow_read_byte (b : Z)
| Ev_uart_ow_stop
| Ev_gpio_init (pin : Z) (ok : bool)
| Ev_gpio_dir (pin : Z) (r : mraa_result_t)
| Ev_gpio_write (pin level : Z) (r : mraa_result_t)
| Ev_gpio_close (pin : Z)
| Ev_aio_init (pin : Z) (ok : bool)
| Ev_aio_read (pin : Z) (v : Z)
| Ev_aio_close (pin : Z)
| Ev_sleep (secs : Z)
| Ev_usleep (usecs : Z)
| Ev_sqlite3_open (r : sqlite_result_t)
| Ev_malloc (size : Z) (ok : bool)
| Ev_sqlite3_exec (sen_id : Z) (sen_val : c_float) (r : sqlite_result_t)
| Ev_sqlite3_free
| Ev_free
| Ev_sqlite3_close.

Definition Trace := list Event.

(** What the outside world answers, given everything that happened so far.
    [init] calls answer whether the handle is non-NULL. *)
Record Env := {
  env_uart_ow_init : Trace -> bool;
  env_uart_ow_reset : Trace -> mraa_result_t;
  env_uart_ow_rom_search : Trace -> Z -> mraa_result_t * list Z;
  env_uart_ow_read_byte : Trace -> Z;
  env_uart_ow_crc8 : list Z -> Z;
  env_gpio_init : Trace -> Z -> bool;
  env_gpio_dir : Trace -> Z -> mraa_result_t;
  env_gpio_write : Trace -> Z -> Z -> mraa_result_t;
  env_aio_init : Trace -> Z -> bool;
  env_aio_read : Trace -> Z -> Z;
  env_sqlite3_open : Trace -> sqlite_result_t;
  env_malloc : Trace -> Z -> bool;
  env_sqlite3_exec : Trace -> Z -> c_float -> sqlite_result_t
}.

(** Computations that extend the trace. *)
Definition M (A : Type) : Type := Trace -> A * Trace.

Definition ret {A} (a : A) : M A := fun h => (a, h).
Definition bind {A B} (m : M A) (k : A -> M B) : M B :=
  fun h => let (a, h') := m h in k a h'.

Notation "x <- m ;; k" := (bind m (fun x => k))
  (at level 61, m at next level, right associativity).
Notation "m ;; k" := (bind m (fun _ => k))
  (at level 61, right associativity).

Definition emit (e : Event) : M unit := fun h => (tt, h ++ [e]).
Definition ask {A} (f : Trace -> A) (e : A -> Event) : M A :=
  fun h => let a := f h in (a, h ++ [e a]).

(* ------------------------------------------------------------------ *)
(** ** Static variables of [main] *)

Record Vars := {
  mraa_ret_val : mraa_result_t;
  state_index : Z;
  ds18b20_addr : list (list Z);
  temp : c_float;
  sen_count : Z;
  humidity : c_float;
  dust_concentration : c_float;
  acc_dust_concentration : c_float;
  dust_sensor_sample_count : Z;
  dust_data_coll_err : Z
}.

Definition set_mraa_ret_val (v : Vars) (x : mraa_result_t) : Vars :=
  Build_Vars x (state_index v) (ds18b20_addr v) (temp v) (sen_count v)
    (humidity v) (dust_concentration v) (acc_dust_concentration v)
    (dust_sensor_sample_count v) (dust_data_coll_err v).
Definition set_state_index (v : Vars) (x : Z) : Vars :=
  Build_Vars (mraa_ret_val v) x (ds18b20_addr v) (temp v) (sen_count v)
    (humidity v) (dust_concentration v) (acc_dust_concentration v)
    (dust_sensor_sample_count v) (dust_data_coll_err v).
Definition set_ds18b20_addr (v : Vars) (x : list (list Z)) : Vars :=
  Build_Vars (mraa_ret_val v) (state_index v) x (temp v) (sen_count v)
    (humidity v) (dust_concentration v) (acc_dust_concentration v)
    (dust_sensor_sample_count v) (dust_data_coll_err v).
Definition set_temp (v : Vars) (x : c_float) : Vars :=
  Build_Vars (mraa_ret_val v) (state_index v) (ds18b20_addr v) x (sen_count v)
    (humidity v) (dust_concentration v) (acc_dust_concentration v)
    (dust_sensor_sample_count v) (dust_data_coll_err v).
Definition set_sen_count (v : Vars) (x : Z) : Vars :=
  Build_Vars (mraa_ret_val v) (state_index v) (ds18b20_addr v) (temp v) x
    (humidity v) (dust_concentration v) (acc_dust_concentration v)
    (dust_sensor_sample_count v) (dust_data_coll_err v).
Definition set_humidity (v : Vars) (x : c_float) : Vars :=
  Build_Vars (mraa_ret_val v) (state_index v) (ds18b20_addr v) (temp v)
    (sen_count v) x (dust_concentration v) (acc_dust_concentration v)
    (dust_sensor_sample_count v) (dust_data_coll_err v).
Definition set_dust_concentration (v : Vars) (x : c_float) : Vars :=
  Build_Vars (mraa_ret_val v) (state_index v) (ds18b20_addr v) (temp v)
    (sen_count v) (humidity v) x (acc_dust_concentration v)
    (dust_sensor_sample_count v) (dust_data_coll_err v).
Definition set_acc_dust_concentration (v : Vars) (x : c_float) : Vars :=
  Build_Vars (mraa_ret_val v) (state_index v) (ds18b20_addr v) (temp v)
    (sen_count v) (humidity v) (dust_concentration v) x
    (dust_sensor_sample_count v) (dust_data_coll_err v).
Definition set_dust_sensor_sample_count (v : Vars) (x : Z) : Vars :=
  Build_Vars (mraa_ret_val v) (state_index v) (ds18b20_addr v) (temp v)
    (sen_count v) (humidity v) (dust_concentration v)
    (acc_dust_concentration v) x (dust_data_coll_err v).
Definition set_dust_data_coll_err (v : Vars) (x : Z) : Vars :=
  Build_Vars (mraa_ret_val v) (state_index v) (ds18b20_addr v) (temp v)
    (sen_count v) (humidity v) (dust_concentration v)
    (acc_dust_concentration v) (dust_sensor_sample_count v) x.

(** The initialisers of the static variables. *)
Definition initial_vars : Vars := {|
  mraa_ret_val := MRAA_SUCCESS;
  state_index := NONE;
  ds18b20_addr := repeat (repeat 0 (Z.to_nat DS18B20_ADDR_LEN))
                         (Z.to_nat NUM_OF_SENSORS);
  temp := S754_zero false;
  sen_count := 0;
  humidity := S754_zero false;
  dust_concentration := S754_zero false;
  acc_dust_concentration := S754_zero false;
  dust_sensor_sample_count := 0;
  dust_data_coll_err := 0
|}.

(** Row [i] of [ds18b20_addr]; C leaves an index outside the array
    undefined, the model answers the empty ROM code there. *)
Definition addr_row (a : list (list Z)) (i : Z) : list Z :=
  nth (Z.to_nat i) a [].

Fixpoint list_update {A} (l : list A) (i : nat) (x : A) : list A :=
  match l, i with
  | [], _ => []
  | _ :: t, O => x :: t
  | y :: t, S i' => y :: list_update t i' x
  end.

Definition set_addr_row (v : Vars) (i : Z) (rom : list Z) : Vars :=
  set_ds18b20_addr v (list_update (ds18b20_addr v) (Z.to_nat i) rom).

(** Where the program is: in the [for (;;)] loop, in the [while (1);] of
    the default case, or returned from [main]. *)
Inductive Control :=
| Running (v : Vars)
| Spinning (v : Vars)
| Exited (code : Z).

(* ------------------------------------------------------------------ *)
(** ** Pure parts of the sensor functions *)

(** [is_temp_negative] of [ds18b20_read_temp_float]. *)
Definition is_temp_negative (ds18b20_scratchpad : list Z) : Z :=
  if Z.land (nth 1 ds18b20_scratchpad 0) 0x80 =? 0 then 0 else 1.

(** [temp_adc_val] as first accumulated from the two data bytes. *)
Definition temp_adc_raw (ds18b20_scratchpad : list Z) : Z :=
  to_int16 (Z.lor (Z.shiftl (to_int16 (nth 1 ds18b20_scratchpad 0)) 8)
                  (to_int16 (nth 0 ds18b20_scratchpad 0))).

(** The two assignments of the negative branch. *)
Definition negative_branch (temp_adc_val : Z) : Z :=
  let temp_adc_val := to_int16 (to_int16 (Z.lnot temp_adc_val) + 1) in
  to_int16 (- temp_adc_val).

(** [temp_adc_val] as it reaches the scaling. *)
Definition temp_adc_val (ds18b20_scratchpad : list Z) : Z :=
  let raw := temp_adc_raw ds18b20_scratchpad in
  if is_temp_negative ds18b20_scratchpad =? 0 then raw
  else negative_branch raw.

(** [((float)temp_adc_val) * 0.0625] stored into a [float]. *)
Definition temp_scale (temp_adc_val : Z) : c_float :=
  f32_of_f64 (f64_mul (f64_of_f32 (f32_of_Z temp_adc_val)) d_0_0625).

(** [(((float)adc_val / 1023.0) * 5.0)] stored into a [float]; shared by
    the dust and the humidity sensor. *)
Definition adc_voltage (adc_val : Z) : c_float :=
  f32_of_f64 (f64_mul (f64_div (f64_of_f32 (f32_of_Z adc_val)) d_1023_0)
                      d_5_0).

(** The quadratic of [hsm_read_humidity_float] on the stored voltage. *)
Definition hsm_curve (humidity : c_float) : c_float :=
  let h := f64_of_f32 humidity in
  f32_of_f64
    (f64_sub (f64_add (f64_mul (f64_mul d_1_253 h) h) (f64_mul d_25_931 h))
             d_7_542).

(** The three-way mapping of the mean dust voltage in [main]. *)
Definition dust_density (acc_dust_concentration : c_float) : c_float :=
  let a := f64_of_f32 acc_dust_concentration in
  if f_le a d_0_6 then f32_of_f64 d_0_0
  else if f_gt a d_0_6 && f_le a d_3_5
       then f32_of_f64 (f64_div (f64_sub a d_0_6) d_5_8)
       else f32_of_f64 d_0_6.

(** One pass of the body of the 16-sample loop on a sample already taken. *)
Definition dust_accumulate (v : Vars) (sample : c_float) : Vars :=
  let v := set_dust_concentration v sample in
  if f_ge (f64_of_f32 sample) d_0_0
  then set_acc_dust_concentration v (f32_add (acc_dust_concentration v) sample)
  else set_dust_data_coll_err v 1.

(* ------------------------------------------------------------------ *)
(** ** The statement [store_data_to_db] prints into its buffer *)

(** [store_data_to_db] prints its statement with [sprintf] into the buffer
    [malloc(64)] returned.  [sprintf] does not know the size of the buffer:
    a statement of more than 63 characters is written past its end, and C
    gives the rest of the call no meaning.  [store_data_to_db] below is the
    call for a statement that fits; what follows says which do. *)
Definition QUERY_BUFFER_SIZE : Z := 64.

(** The format
    [INSERT INTO sensor_data (sen_id, sen_val) values (%d, %0.2f);]
    around its two conversions. *)
Definition query_before_id : string :=
  "INSERT INTO sensor_data (sen_id, sen_val) values (".
Definition query_before_val : string := ", ".
Definition query_after_val : string := ");".

(** The number of decimal digits of [n >= 0]. *)
Fixpoint decimal_digits_from (fuel : nat) (n : Z) : Z :=
  match fuel with
  | O => 1
  | S fuel' => if n <? 10 then 1 else 1 + decimal_digits_from fuel' (n / 10)
  end.

Definition decimal_digits (n : Z) : Z :=
  decimal_digits_from (Z.to_nat (Z.log2 n)) n.

(** The characters [%d] writes. *)
Definition printf_d_length (n : Z) : Z :=
  (if n <? 0 then 1 else 0) + decimal_digits (Z.abs n).

(** [n / d] rounded to the nearest integer, ties to even, for [0 <= n]. *)
Definition round_half_even (n : Z) (d : positive) : Z :=
  let q := n / Zpos d in
  match 2 * (n mod Zpos d) ?= Zpos d with
  | Lt => q
  | Eq => if Z.even q then q else q + 1
  | Gt => q + 1
  end.

(** The magnitude of a value in hundredths, as [%0.2f] rounds it. *)
Definition hundredths (x : c_float) : Z :=
  let q := SF2Q x in round_half_even (100 * Z.abs (Qnum q)) (Qden q).

(** The characters [%0.2f] writes: a minus for a set sign bit, the integer
    part, the point and two digits; [inf] or [-inf]; for a NaN [nan] or
    [-nan], counted as the longer. *)
Definition printf_f2_length (x : c_float) : Z :=
  match x with
  | S754_nan => 4
  | S754_infinity s => if s then 4 else 3
  | S754_zero s | S754_finite s _ _ =>
      (if s then 1 else 0) + decimal_digits (hundredths x / 100) + 3
  end.

(** The characters of the whole statement, and whether they and the
    terminating 0 fit the buffer. *)
Definition query_length (sen_id : Z) (sen_val : c_float) : Z :=
  Z.of_nat (String.length query_before_id) + printf_d_length sen_id
  + Z.of_nat (String.length query_before_val) + printf_f2_length sen_val
  + Z.of_nat (String.length query_after_val).

Definition query_fits (sen_id : Z) (sen_val : c_float) : bool :=
  query_length sen_id sen_val + 1 <=? QUERY_BUFFER_SIZE.

(* ------------------------------------------------------------------ *)
(** ** The program *)

Section Program.

Variable env : Env.

(** *** Bindings of the external calls *)

Definition mraa_uart_ow_init (dev : Z) : M bool :=
  ask (env_uart_ow_init env) (Ev_uart_ow_init dev).
Definition mraa_uart_ow_reset : M mraa_result_t :=
  ask (env_uart_ow_reset env) Ev_uart_ow_reset.
Definition mraa_uart_ow_rom_search (start : Z) : M (mraa_result_t * list Z) :=
  ask (fun h => env_uart_ow_rom_search env h start)
      (fun a => Ev_uart_ow_rom_search start (fst a) (snd a)).
Definition mraa_uart_ow_command (cmd : Z) (rom : list Z) : M unit :=
  emit (Ev_uart_ow_command cmd rom).
Definition mraa_uart_ow_read_byte : M Z :=
  ask (env_uart_ow_read_byte env) Ev_uart_ow_read_byte.
Definition mraa_uart_ow_crc8 (buffer : list Z) (length : Z) : Z :=
  to_uint8 (env_uart_ow_crc8 env (firstn (Z.to_nat length) buffer)).
Definition mraa_uart_ow_stop : M unit := emit Ev_uart_ow_stop.

Definition mraa_gpio_init (pin : Z) : M bool :=
  ask (fun h => env_gpio_init env h pin) (Ev_gpio_init pin).
Definition mraa_gpio_dir (pin : Z) : M mraa_result_t :=
  ask (fun h => env_gpio_dir env h pin) (Ev_gpio_dir pin).
Definition mraa_gpio_write (pin level : Z) : M mraa_result_t :=
  ask (fun h => env_gpio_write env h pin level) (Ev_gpio_write pin level).
Definition mraa_gpio_close (pin : Z) : M unit := emit (Ev_gpio_close pin).

Definition mraa_aio_init (pin : Z) : M bool :=
  ask (fun h => env_aio_init env h pin) (Ev_aio_init pin).
Definition mraa_aio_read (pin : Z) : M Z :=
  ask (fun h => env_aio_read env h pin) (Ev_aio_read pin).
Definition mraa_aio_close (pin : Z) : M unit := emit (Ev_aio_close pin).

Definition sleep (secs : Z) : M unit := emit (Ev_sleep secs).
Definition usleep (usecs : Z) : M unit := emit (Ev_usleep usecs).

Definition sqlite3_open : M sqlite_result_t :=
  ask (env_sqlite3_open env) Ev_sqlite3_open.
Definition malloc (size : Z) : M bool :=
  ask (fun h => env_malloc env h size) (Ev_malloc size).
Definition sqlite3_exec (sen_id : Z) (sen_val : c_float) : M sqlite_result_t :=
  ask (fun h => env_sqlite3_exec env h sen_id sen_val)
      (Ev_sqlite3_exec sen_id sen_val).
Definition sqlite3_free : M unit := emit Ev_sqlite3_free.
Definition free : M unit := emit Ev_free.
Definition sqlite3_close : M unit := emit Ev_sqlite3_close.

(** *** ds18b20_read_temp_float *)

Definition ds18b20_scratchpad_len : Z := 9.

(** The [for] loop that fills the scratchpad, one bus byte per pass. *)
Fixpoint read_scratchpad (n : nat) : M (list Z) :=
  match n with
  | O => ret []
  | S n' =>
      b <- mraa_uart_ow_read_byte ;;
      rest <- read_scratchpad n' ;;
      ret (to_uint8 b :: rest)
  end.

(** From the CRC check to the [return]: the status and the content of
    [*p_temp] afterwards, [p_temp] being its content before. *)
Definition ds18b20_decode (ds18b20_scratchpad : list Z) (p_temp : c_float)
  : Z * c_float :=
  let crc := mraa_uart_ow_crc8 ds18b20_scratchpad DS18B20_ADDR_LEN in
  if negb (crc =? nth 8 ds18b20_scratchpad 0) then (FAIL, p_temp)
  else (SUCCESS, temp_scale (temp_adc_val ds18b20_scratchpad)).

Definition ds18b20_read_temp_float (sen_addr : list Z) (p_temp : c_float)
  : M (Z * c_float) :=
  mraa_uart_ow_command CMD_READ_SCRATCHPAD sen_addr ;;
  ds18b20_scratchpad <- read_scratchpad (Z.to_nat ds18b20_scratchpad_len) ;;
  ret (ds18b20_decode ds18b20_scratchpad p_temp).

(** *** ds18b20_update *)

Definition ds18b20_update (sen_addr : list Z) : M unit :=
  mraa_uart_ow_command CMD_START_TEMP_CONV sen_addr.

(** *** gp2y_read_dust_output_voltage_float *)

Definition gp2y_read_dust_output_voltage_float : M c_float :=
  r <- mraa_gpio_write dust_ir_led_pin 1 ;;
  if negb (mraa_result_eqb MRAA_SUCCESS r) then ret (f32_of_f64 d_0_0)
  else
    usleep 280 ;;
    raw <- mraa_aio_read dust_aio_in ;;
    let dust_adc_val := to_uint16 raw in
    usleep 40 ;;
    r <- mraa_gpio_write dust_ir_led_pin 0 ;;
    if negb (mraa_result_eqb MRAA_SUCCESS r) then ret (f32_of_f64 d_0_0)
    else
      usleep 9680 ;;
      ret (adc_voltage dust_adc_val).

(** *** hsm_read_humidity_float *)

Definition hsm_read_humidity_float : M c_float :=
  raw <- mraa_aio_read hsm_aio_in ;;
  let hum_adc_val := to_uint16 raw in
  let humidity := adc_voltage hum_adc_val in
  ret (hsm_curve humidity).

(** *** store_data_to_db *)

(** The call for a statement that fits the buffer ([query_fits sen_id
    sen_val]): [sqlite3_exec] stands for the [sprintf] of the statement and
    its execution. *)

Definition store_data_to_db (sen_id : Z) (sen_val : c_float) : M Z :=
  db_ret_val <- sqlite3_open ;;
  if negb (sqlite_is_ok db_ret_val) then sqlite3_close ;; ret FAIL
  else
    p_db_query <- malloc 64 ;;
    if negb p_db_query then sqlite3_close ;; ret FAIL
    else
      db_ret_val <- sqlite3_exec sen_id sen_val ;;
      if negb (sqlite_is_ok db_ret_val)
      then sqlite3_free ;; sqlite3_close ;; ret FAIL
      else free ;; sqlite3_close ;; ret SUCCESS.

(** *** main: start-up *)

(** The [do ... while] that searches the remaining probes; [None] is the
    [return 1] inside it.  [fuel] bounds the passes. *)
Fixpoint search_other_sensors (fuel : nat) (v : Vars) : M (option Vars) :=
  match fuel with
  | O => ret (Some v)
  | S fuel' =>
      a <- mraa_uart_ow_rom_search CONTINUE_WITH_PREV_SEARCH ;;
      let v := set_addr_row (set_mraa_ret_val v (fst a)) (sen_count v) (snd a) in
      if mraa_result_eqb MRAA_ERROR_UART_OW_NO_DEVICES (mraa_ret_val v)
      then mraa_uart_ow_stop ;; ret None
      else
        let v := set_sen_count v (to_uint8 (sen_count v + 1)) in
        if negb (NUM_OF_SENSORS =? sen_count v)
        then search_other_sensors fuel' v
        else ret (Some v)
  end.

(** From the GPIO set-up to the entry of the [for (;;)] loop. *)
Definition main_open_pins (v : Vars) : M Control :=
  dust_gpio_path <- mraa_gpio_init dust_ir_led_pin ;;
  if negb dust_gpio_path then mraa_uart_ow_stop ;; ret (Exited 1)
  else
    r <- mraa_gpio_dir dust_ir_led_pin ;;
    let v := set_mraa_ret_val v r in
    if negb (mraa_result_eqb MRAA_SUCCESS r)
    then mraa_gpio_close dust_ir_led_pin ;; mraa_uart_ow_stop ;;
         ret (Exited 1)
    else
      dust_aio_path <- mraa_aio_init dust_aio_in ;;
      if negb dust_aio_path
      then mraa_gpio_close dust_ir_led_pin ;; mraa_uart_ow_stop ;;
           ret (Exited 1)
      else
        hsm_aio_path <- mraa_aio_init hsm_aio_in ;;
        if negb hsm_aio_path
        then mraa_gpio_close dust_ir_led_pin ;; mraa_aio_close dust_aio_in ;;
             mraa_uart_ow_stop ;; ret (Exited 1)
        else ret (Running (set_sen_count v 0)).

(** After the search loop: the data-error test, then the pins. *)
Definition main_after_search (v : Vars) : M Control :=
  if mraa_result_eqb MRAA_ERROR_UART_OW_DATA_ERROR (mraa_ret_val v)
  then mraa_uart_ow_stop ;; ret (Exited 1)
  else main_open_pins v.

Definition main_startup : M Control :=
  let v := initial_vars in
  uart_path <- mraa_uart_ow_init 0 ;;
  if negb uart_path then ret (Exited 1)
  else
    r <- mraa_uart_ow_reset ;;
    let v := set_mraa_ret_val v r in
    if negb (mraa_result_eqb MRAA_SUCCESS r)
    then mraa_uart_ow_stop ;; ret (Exited 1)
    else
      a <- mraa_uart_ow_rom_search NEW_SEARCH ;;
      let v := set_addr_row (set_mraa_ret_val v (fst a)) (sen_count v) (snd a) in
      let v := set_sen_count v (to_uint8 (sen_count v + 1)) in
      if mraa_result_eqb MRAA_ERROR_UART_OW_NO_DEVICES (mraa_ret_val v)
      then mraa_uart_ow_stop ;; ret (Exited 1)
      else
        if NUM_OF_SENSORS >? 1
        then
          o <- search_other_sensors 256 v ;;
          match o with
          | None => ret (Exited 1)
          | Some v => main_after_search v
          end
        else main_after_search v.

(** *** main: the polling loop *)

(** The [for] loop of 16 dust samples, [n] passes left. *)
Fixpoint dust_sample_loop (n : nat) (v : Vars) : M Vars :=
  match n with
  | O => ret v
  | S n' =>
      sample <- gp2y_read_dust_output_voltage_float ;;
      let v := dust_accumulate v sample in
      let v := set_dust_sensor_sample_count v
                 (to_uint8 (dust_sensor_sample_count v + 1)) in
      dust_sample_loop n' v
  end.

Definition case_START_CONV (v : Vars) : M Control :=
  ds18b20_update (addr_row (ds18b20_addr v) (sen_count v)) ;;
  ret (Running (set_state_index v WAIT_TILL_CONV_FINISHED)).

Definition case_WAIT_TILL_CONV_FINISHED (v : Vars) : M Control :=
  sleep 1 ;;
  ret (Running (set_state_index v READ_TEMP)).

Definition case_READ_TEMP (v : Vars) : M Control :=
  let sen_addr := addr_row (ds18b20_addr v) (sen_count v) in
  let v := set_sen_count v (to_uint8 (sen_count v + 1)) in
  r <- ds18b20_read_temp_float sen_addr (temp v) ;;
  let v := set_temp v (snd r) in
  if SUCCESS =? fst r then
    s <- store_data_to_db (sen_count v) (temp v) ;;
    if SUCCESS =? s then
      if sen_count v >=? NUM_OF_SENSORS
      then ret (Running (set_state_index (set_sen_count v 0)
                                         READ_DUST_CONCENTRATION))
      else ret (Running (set_state_index v START_CONV))
    else ret (Running (set_state_index v (WAIT + 1)))
  else ret (Running (set_state_index v (WAIT + 1))).

(** [READ_DUST_CONCENTRATION] after the sample loop: the test of the error
    flag, the mean, the density and the store. *)
Definition dust_batch_finish (v : Vars) : M Control :=
  if negb (dust_data_coll_err v =? 0)
  then ret (Running (set_state_index v (WAIT + 1)))
  else
    let v := set_acc_dust_concentration v
               (f32_div (acc_dust_concentration v)
                        (f32_of_Z dust_sensor_max_sample)) in
    let v := set_acc_dust_concentration v
               (dust_density (acc_dust_concentration v)) in
    s <- store_data_to_db (NUM_OF_SENSORS + 1) (acc_dust_concentration v) ;;
    if SUCCESS =? s
    then ret (Running (set_state_index v READ_HUMIDITY))
    else ret (Running (set_state_index v (WAIT + 1))).

Definition case_READ_DUST_CONCENTRATION (v : Vars) : M Control :=
  let v := set_dust_data_coll_err v 0 in
  let v := set_acc_dust_concentration v (f32_of_f64 d_0_0) in
  let v := set_dust_sensor_sample_count v 0 in
  v <- dust_sample_loop (Z.to_nat dust_sensor_max_sample) v ;;
  dust_batch_finish v.

Definition case_READ_HUMIDITY (v : Vars) : M Control :=
  h <- hsm_read_humidity_float ;;
  let v := set_humidity v h in
  s <- store_data_to_db (NUM_OF_SENSORS + 2) (humidity v) ;;
  if SUCCESS =? s
  then ret (Running (set_state_index v WAIT))
  else ret (Running (set_state_index v (WAIT + 1))).

Definition case_WAIT (v : Vars) : M Control :=
  sleep 60 ;;
  ret (Running (set_state_index v START_CONV)).

(** The [default:] case, up to the [while (1);] it never leaves. *)
Definition case_default (v : Vars) : M Control :=
  mraa_gpio_close dust_ir_led_pin ;;
  mraa_aio_close dust_aio_in ;;
  mraa_aio_close hsm_aio_in ;;
  mraa_uart_ow_stop ;;
  ret (Spinning v).

(** One pass of [for (;;) switch (state_index)]. *)
Definition main_loop_body (v : Vars) : M Control :=
  let s := state_index v in
  if s =? NONE then ret (Running (set_state_index v START_CONV))
  else if s =? START_CONV then case_START_CONV v
  else if s =? WAIT_TILL_CONV_FINISHED then case_WAIT_TILL_CONV_FINISHED v
  else if s =? READ_TEMP then case_READ_TEMP v
  else if s =? READ_DUST_CONCENTRATION then case_READ_DUST_CONCENTRATION v
  else if s =? READ_HUMIDITY then case_READ_HUMIDITY v
  else if s =? WAIT then case_WAIT v
  else case_default v.

(** One step of the program: a pass of the loop, a turn of [while (1);],
    or nothing once [main] has returned. *)
Definition main_step (c : Control) : M Control :=
  match c with
  | Running v => main_loop_body v
  | Spinning v => ret (Spinning v)
  | Exited code => ret (Exited code)
  end.

Fixpoint main_steps (n : nat) (c : Control) : M Control :=
  match n with
  | O => ret c
  | S n' => c' <- main_step c ;; main_steps n' c'
  end.

(** [main], observed for [n] steps after the start-up. *)
Definition main (n : nat) : M Control :=
  c <- main_startup ;; main_steps n c.

End Program.

(* ------------------------------------------------------------------ *)
(** ** Projections of a trace *)

(** The INSERT statements handed to SQLite, oldest first. *)
Fixpoint db_inserts (h : Trace) : list (Z * c_float) :=
  match h with
  | [] => []
  | Ev_sqlite3_exec sen_id sen_val _ :: t => (sen_id, sen_val) :: db_inserts t
  | _ :: t => db_inserts t
  end.

(** Any call of the persistence layer. *)
Definition is_db_event (e : Event) : bool :=
  match e with
  | Ev_sqlite3_open _ | Ev_malloc _ _ | Ev_sqlite3_exec _ _ _
  | Ev_sqlite3_free | Ev_free | Ev_sqlite3_close => true
  | _ => false
  end.

(** The calls that give a hardware handle back. *)
Definition is_release_event (e : Event) : bool :=
  match e with
  | Ev_gpio_close _ | Ev_aio_close _ | Ev_uart_ow_stop => true
  | _ => false
  end.

(** The bus commands together with the inserts, in program order: which
    probe was addressed before which sensor id was written. *)
Inductive Milestone :=
| Ms_command (cmd : Z) (rom : list Z)
| Ms_insert (sen_id : Z).

Fixpoint milestones (h : Trace) : list Milestone :=
  match h with
  | [] => []
  | Ev_uart_ow_command cmd rom :: t => Ms_command cmd rom :: milestones t
  | Ev_sqlite3_exec sen_id _ _ :: t => Ms_insert sen_id :: milestones t
  | _ :: t => milestones t
  end.

(** A pin write of the trace that did not report success. *)
Definition is_failed_pin_write (e : Event) : bool :=
  match e with
  | Ev_gpio_write _ _ r => negb (mraa_result_eqb MRAA_SUCCESS r)
  | _ => false
  end.

(* ------------------------------------------------------------------ *)
(** ** A concrete rig, to run the program on *)

(** The Dallas/Maxim CRC-8 (x^8 + x^5 + x^4 + 1, reflected) of one-wire
    devices, as a bus driver computes it. *)
Fixpoint crc8_bits (n : nat) (crc inbyte : Z) : Z :=
  match n with
  | O => crc
  | S n' =>
      let mix := Z.land (Z.lxor crc inbyte) 1 in
      let crc := Z.shiftr crc 1 in
      let crc := if mix =? 0 then crc else Z.lxor crc 0x8C in
      crc8_bits n' crc (Z.shiftr inbyte 1)
  end.

Definition dallas_crc8 (buffer : list Z) : Z :=
  fold_left (fun crc b => crc8_bits 8 crc b) buffer 0.

(** A scratchpad with the given two data bytes and a valid CRC. *)
Definition scratchpad_of (lsb msb : Z) : list Z :=
  let body := [lsb; msb; 0x4B; 0x46; 0x7F; 0xFF; 0x0C; 0x10] in
  body ++ [dallas_crc8 body].

(** The ROM code commanded last and the bytes read since, from the
    history newest first. *)
Fixpoint bus_cursor (rh : Trace) : list Z * nat :=
  match rh with
  | [] => ([], O)
  | Ev_uart_ow_command _ rom :: _ => (rom, O)
  | Ev_uart_ow_read_byte _ :: t => let (rom, k) := bus_cursor t in (rom, S k)
  | _ :: t => bus_cursor t
  end.

Record Rig := {
  rig_reset : mraa_result_t;
  rig_search_new : mraa_result_t * list Z;
  rig_search_next : mraa_result_t * list Z;
  rig_scratchpad : list Z -> list Z;
  rig_gpio_write : Trace -> Z -> mraa_result_t;
  rig_dust_adc : Z;
  rig_hsm_adc : Z;
  rig_db : Trace -> sqlite_result_t
}.

Definition env_of_rig (r : Rig) : Env := {|
  env_uart_ow_init := fun _ => true;
  env_uart_ow_reset := fun _ => rig_reset r;
  env_uart_ow_rom_search := fun _ start =>
    if start =? NEW_SEARCH then rig_search_new r else rig_search_next r;
  env_uart_ow_read_byte := fun h =>
    let (rom, k) := bus_cursor (rev h) in nth k (rig_scratchpad r rom) 0xFF;
  env_uart_ow_crc8 := dallas_crc8;
  env_gpio_init := fun _ _ => true;
  env_gpio_dir := fun _ _ => MRAA_SUCCESS;
  env_gpio_write := fun h _ level => rig_gpio_write r h level;
  env_aio_init := fun _ _ => true;
  env_aio_read := fun _ pin =>
    if pin =? dust_aio_in then rig_dust_adc r else rig_hsm_adc r;
  env_sqlite3_open := fun _ => SQLITE_OK;
  env_malloc := fun _ _ => true;
  env_sqlite3_exec := fun h _ _ => rig_db r h
|}.

Definition rom_A : list Z := [0x28; 0x11; 0x22; 0x33; 0x44; 0x55; 0x66; 0x77].
Definition rom_B : list Z := [0x28; 0x88; 0x99; 0xAA; 0xBB; 0xCC; 0xDD; 0xEE].

(** Two probes at 25.0 and -55.0 degrees, everything answers. *)
Definition rig_ok : Rig := {|
  rig_reset := MRAA_SUCCESS;
  rig_search_new := (MRAA_SUCCESS, rom_A);
  rig_search_next := (MRAA_SUCCESS, rom_B);
  rig_scratchpad := fun rom =>
    if Z.eqb (nth 1 rom 0) 0x11 then scratchpad_of 0x90 0x01
    else scratchpad_of 0x90 0xFC;
  rig_gpio_write := fun _ _ => MRAA_SUCCESS;
  rig_dust_adc := 300;
  rig_hsm_adc := 409;
  rig_db := fun _ => SQLITE_OK
|}.

(** The same rig with a bit of probe A's scratchpad flipped on the bus. *)
Definition corrupt (sp : list Z) : list Z :=
  match sp with
  | [] => []
  | b :: t => Z.lxor b 1 :: t
  end.

Definition rig_crc_bad : Rig := {|
  rig_reset := MRAA_SUCCESS;
  rig_search_new := (MRAA_SUCCESS, rom_A);
  rig_search_next := (MRAA_SUCCESS, rom_B);
  rig_scratchpad := fun rom =>
    if Z.eqb (nth 1 rom 0) 0x11 then corrupt (scratchpad_of 0x90 0x01)
    else scratchpad_of 0x90 0xFC;
  rig_gpio_write := fun _ _ => MRAA_SUCCESS;
  rig_dust_adc := 300;
  rig_hsm_adc := 409;
  rig_db := fun _ => SQLITE_OK
|}.

(** The same rig where one pin write fails: the LED-on write of the fifth
    dust sample (the ninth write to the pin). *)
Fixpoint count_pin_writes (h : Trace) : nat :=
  match h with
  | [] => O
  | Ev_gpio_write _ _ _ :: t => S (count_pin_writes t)
  | _ :: t => count_pin_writes t
  end.

Definition rig_pin_fail : Rig := {|
  rig_reset := MRAA_SUCCESS;
  rig_search_new := (MRAA_SUCCESS, rom_A);
  rig_search_next := (MRAA_SUCCESS, rom_B);
  rig_scratchpad := fun rom =>
    if Z.eqb (nth 1 rom 0) 0x11 then scratchpad_of 0x90 0x01
    else scratchpad_of 0x90 0xFC;
  rig_gpio_write := fun h _ =>
    if Nat.eqb (count_pin_writes h) 8 then MRAA_ERROR_OTHER else MRAA_SUCCESS;
  rig_dust_adc := 300;
  rig_hsm_adc := 409;
  rig_db := fun _ => SQLITE_OK
|}.

(** The same rig where the first ROM search reports a data error and the
    search that continues it succeeds. *)
Definition rig_data_error : Rig := {|
  rig_reset := MRAA_SUCCESS;
  rig_search_new := (MRAA_ERROR_UART_OW_DATA_ERROR, repeat 0xFF 8);
  rig_search_next := (MRAA_SUCCESS, rom_B);
  rig_scratchpad := fun _ => scratchpad_of 0x90 0xFC;
  rig_gpio_write := fun _ _ => MRAA_SUCCESS;
  rig_dust_adc := 300;
  rig_hsm_adc := 409;
  rig_db := fun _ => SQLITE_OK
|}.

(** The variables of a control state (the initial ones once [main] has
    returned). *)
Definition vars_of (c : Control) : Vars :=
  match c with
  | Running v | Spinning v => v
  | Exited _ => initial_vars
  end.

Definition is_byte (b : Z) : bool := (0 <=? b) && (b <? 256).

(* ------------------------------------------------------------------ *)
(** ** Reference notions the properties are stated against *)

(** A 16-bit field read directly as a signed two's-complement integer. *)
Definition twos_complement16 (field : Z) : Z :=
  if field <? 32768 then field else field - 65536.

(** The humidity response as the data sheet writes it, over the rationals:
    [1.253*v^2 + 25.931*v - 7.542] at [v = raw/1023.0*5.0]. *)
Definition humidity_formula (v : Q) : Q :=
  ((1253 # 1000) * v * v + (25931 # 1000) * v - (7542 # 1000))%Q.
Definition voltage_formula (raw : Z) : Q := (inject_Z raw / 1023 * 5)%Q.

(** [P] on the [n] integers from [z] on. *)
Fixpoint range_all (P : Z -> bool) (n : nat) (z : Z) : bool :=
  match n with
  | O => true
  | S n' => P z && range_all P n' (z + 1)
  end.

(** The integer half of the temperature decode on one pair of data bytes. *)
Definition decode_bytes_check (lsb msb : Z) : bool :=
  let sp := [lsb; msb] in
  (temp_adc_raw sp =? twos_complement16 (lsb + 256 * msb))
  && Bool.eqb (is_temp_negative sp =? 1) (Z.testbit msb 7)
  && (negative_branch (temp_adc_raw sp) =? temp_adc_raw sp)
  && (temp_adc_val sp =? twos_complement16 (lsb + 256 * msb)).

(** The scaling of one [int16_t] value is exact. *)
Definition temp_scale_check (x : Z) : bool :=
  is_finite_SF (temp_scale x)
  && Qeq_bool (SF2Q (temp_scale x)) (inject_Z x * (625 # 10000)).

(** The humidity of one ADC count against the rational formula. *)
Definition humidity_check (raw : Z) : bool :=
  let r := hsm_curve (adc_voltage raw) in
  is_finite_SF r
  && Qle_bool (SF2Q r - humidity_formula (voltage_formula raw)) (1 # 50000)
  && Qle_bool (humidity_formula (voltage_formula raw) - SF2Q r) (1 # 50000).

(** The calls one dust sample makes. *)
Definition is_sampling_event (e : Event) : bool :=
  match e with
  | Ev_gpio_write _ _ _ | Ev_aio_read _ _ | Ev_usleep _ => true
  | _ => false
  end.

Definition is_read_byte_event (e : Event) : bool :=
  match e with Ev_uart_ow_read_byte _ => true | _ => false end.

(** The possible traces of one [store_data_to_db] call. *)
Definition store_trace_ok (sen_id : Z) (sen_val : c_float) : Trace :=
  [Ev_sqlite3_open SQLITE_OK; Ev_malloc 64 true;
   Ev_sqlite3_exec sen_id sen_val SQLITE_OK; Ev_free; Ev_sqlite3_close].
Definition store_trace_open_failed : Trace :=
  [Ev_sqlite3_open SQLITE_ERROR; Ev_sqlite3_close].
Definition store_trace_malloc_failed : Trace :=
  [Ev_sqlite3_open SQLITE_OK; Ev_malloc 64 false; Ev_sqlite3_close].
Definition store_trace_exec_failed (sen_id : Z) (sen_val : c_float) : Trace :=
  [Ev_sqlite3_open SQLITE_OK; Ev_malloc 64 true;
   Ev_sqlite3_exec sen_id sen_val SQLITE_ERROR; Ev_sqlite3_free;
   Ev_sqlite3_close].

(** What the default case emits before it spins. *)
Definition fault_trace : Trace :=
  [Ev_gpio_close dust_ir_led_pin; Ev_aio_close dust_aio_in;
   Ev_aio_close hsm_aio_in; Ev_uart_ow_stop].

Definition store_failure_trace (sen_id : Z) (sen_val : c_float) (d : Trace)
  : Prop :=
  d = store_trace_open_failed \/ d = store_trace_malloc_failed \/
  d = store_trace_exec_failed sen_id sen_val.

(** The variables a dust batch leaves alone. *)
Definition batch_frame (v v' : Vars) : Prop :=
  state_index v' = state_index v /\ sen_count v' = sen_count v /\
  ds18b20_addr v' = ds18b20_addr v /\ temp v' = temp v /\
  humidity v' = humidity v /\ dust_data_coll_err v' = dust_data_coll_err v.

(** The variables as [READ_TEMP] leaves them after a successful read of
    [t] and a successful store. *)
Definition after_read_temp (v : Vars) (t : c_float) : Vars :=
  let v := set_temp (set_sen_count v (to_uint8 (sen_count v + 1))) t in
  if sen_count v >=? NUM_OF_SENSORS
  then set_state_index (set_sen_count v 0) READ_DUST_CONCENTRATION
  else set_state_index v START_CONV.

(** The variables at the top of the dust batch, and after its mean and
    density have been computed from the accumulated [vl]. *)
Definition dust_batch_start (v : Vars) : Vars :=
  set_dust_sensor_sample_count
    (set_acc_dust_concentration (set_dust_data_coll_err v 0)
                                (f32_of_f64 d_0_0)) 0.

Definition dust_mean (vl : Vars) : c_float :=
  f32_div (acc_dust_concentration vl) (f32_of_Z dust_sensor_max_sample).

Definition after_dust_batch (vl : Vars) : Vars :=
  set_acc_dust_concentration
    (set_acc_dust_concentration vl (dust_mean vl))
    (dust_density (dust_mean vl)).

(** The milestones of one full cycle over the probe table [a]. *)
Definition cycle_milestones (a : list (list Z)) : list Milestone :=
  [Ms_command CMD_START_TEMP_CONV (addr_row a 0);
   Ms_command CMD_READ_SCRATCHPAD (addr_row a 0); Ms_insert 1;
   Ms_command CMD_START_TEMP_CONV (addr_row a 1);
   Ms_command CMD_READ_SCRATCHPAD (addr_row a 1); Ms_insert 2;
   Ms_insert (NUM_OF_SENSORS + 1); Ms_insert (NUM_OF_SENSORS + 2)].

(** The loop passes of one cycle: three per probe, then dust, humidity
    and the idle wait. *)
Definition cycle_steps : nat := 9.

(** A pass that hit a failure leaves the machine set for the default
    case. *)
Definition faulted (c : Control) : Prop :=
  exists v, c = Running v /\ state_index v = WAIT + 1.

(** Values of sign bit 0 that are no NaN: the ones C finds [>= 0.0] without
    looking at the magnitude. *)
Definition is_nonneg_SF (x : spec_float) : bool :=
  match x with
  | S754_zero false | S754_finite false _ _ | S754_infinity false => true
  | _ => false
  end.

(* ------------------------------------------------------------------ *)
(** ** Further notions: counts, handles, invariants *)

(** Counting the calls of one kind in a trace. *)
Definition count (p : Event -> bool) (h : Trace) : nat :=
  length (filter p h).

Definition is_open_event (e : Event) : bool :=
  match e with Ev_sqlite3_open _ => true | _ => false end.
Definition is_close_event (e : Event) : bool :=
  match e with Ev_sqlite3_close => true | _ => false end.
Definition is_exec_event (e : Event) : bool :=
  match e with Ev_sqlite3_exec _ _ _ => true | _ => false end.
Definition is_free_event (e : Event) : bool :=
  match e with Ev_free => true | _ => false end.
Definition is_malloc_ok_event (e : Event) : bool :=
  match e with Ev_malloc _ true => true | _ => false end.

(** A call of the persistence layer that reported a failure. *)
Definition is_failed_db_event (e : Event) : bool :=
  match e with
  | Ev_sqlite3_open SQLITE_ERROR | Ev_malloc _ false
  | Ev_sqlite3_exec _ _ SQLITE_ERROR => true
  | _ => false
  end.

(** The writes that switch the IR LED on, and those of them that
    succeeded; the reads of the dust ADC. *)
Definition is_led_on_event (e : Event) : bool :=
  match e with
  | Ev_gpio_write pin level _ => (pin =? dust_ir_led_pin) && (level =? 1)
  | _ => false
  end.
Definition is_led_on_ok_event (e : Event) : bool :=
  match e with
  | Ev_gpio_write pin level r =>
      (pin =? dust_ir_led_pin) && (level =? 1)
      && mraa_result_eqb MRAA_SUCCESS r
  | _ => false
  end.
Definition is_dust_read_event (e : Event) : bool :=
  match e with
  | Ev_aio_read pin _ => pin =? dust_aio_in
  | _ => false
  end.

(** Hardware handles: the one-wire UART, a GPIO pin, an analog input. *)
Inductive Handle :=
| H_uart
| H_gpio (pin : Z)
| H_aio (pin : Z).

(** The handles a trace has obtained (an [init] that answered non-NULL)
    and the handles it has given back, each in the order of the calls. *)
Fixpoint opened (h : Trace) : list Handle :=
  match h with
  | [] => []
  | Ev_uart_ow_init _ true :: t => H_uart :: opened t
  | Ev_gpio_init pin true :: t => H_gpio pin :: opened t
  | Ev_aio_init pin true :: t => H_aio pin :: opened t
  | _ :: t => opened t
  end.

Fixpoint released (h : Trace) : list Handle :=
  match h with
  | [] => []
  | Ev_uart_ow_stop :: t => H_uart :: released t
  | Ev_gpio_close pin :: t => H_gpio pin :: released t
  | Ev_aio_close pin :: t => H_aio pin :: released t
  | _ :: t => released t
  end.

(** The ROM searches of a trace, oldest first. *)
Fixpoint rom_searches (h : Trace) : list (Z * mraa_result_t * list Z) :=
  match h with
  | [] => []
  | Ev_uart_ow_rom_search start r rom :: t => (start, r, rom) :: rom_searches t
  | _ :: t => rom_searches t
  end.

(** The rig of [rig_ok] on a board whose humidity input cannot be opened. *)
Definition env_hsm_missing : Env := {|
  env_uart_ow_init := env_uart_ow_init (env_of_rig rig_ok);
  env_uart_ow_reset := env_uart_ow_reset (env_of_rig rig_ok);
  env_uart_ow_rom_search := env_uart_ow_rom_search (env_of_rig rig_ok);
  env_uart_ow_read_byte := env_uart_ow_read_byte (env_of_rig rig_ok);
  env_uart_ow_crc8 := env_uart_ow_crc8 (env_of_rig rig_ok);
  env_gpio_init := env_gpio_init (env_of_rig rig_ok);
  env_gpio_dir := env_gpio_dir (env_of_rig rig_ok);
  env_gpio_write := env_gpio_write (env_of_rig rig_ok);
  env_aio_init := fun _ pin => pin =? dust_aio_in;
  env_aio_read := env_aio_read (env_of_rig rig_ok);
  env_sqlite3_open := env_sqlite3_open (env_of_rig rig_ok);
  env_malloc := env_malloc (env_of_rig rig_ok);
  env_sqlite3_exec := env_sqlite3_exec (env_of_rig rig_ok)
|}.

(** The probe index fits the probe table: in every state of the
    enumeration it is below [NUM_OF_SENSORS], and it is 0 from
    [READ_DUST_CONCENTRATION] to [WAIT]. *)
Definition probe_index_ok (v : Vars) : Prop :=
  length (ds18b20_addr v) = Z.to_nat NUM_OF_SENSORS /\
  (NONE <= state_index v <= WAIT -> 0 <= sen_count v < NUM_OF_SENSORS) /\
  (READ_DUST_CONCENTRATION <= state_index v <= WAIT -> sen_count v = 0).

Definition control_ok (c : Control) : Prop :=
  match c with
  | Running v => probe_index_ok v
  | _ => True
  end.

(** The probe table of a control state ([None] once [main] returned). *)
Definition table_of (c : Control) : option (list (list Z)) :=
  match c with
  | Running v | Spinning v => Some (ds18b20_addr v)
  | Exited _ => None
  end.

(** What every stretch of trace of the loop satisfies: the ids it inserts
    are sensor ids, and it closes the database as often as it opens it. *)
Definition trace_ok (d : Trace) : Prop :=
  Forall (fun p => 1 <= fst p <= NUM_OF_SENSORS + 2) (db_inserts d) /\
  count is_open_event d = count is_close_event d.

(** The rig of [rig_ok] with a database that rejects every INSERT. *)
Definition rig_db_fail : Rig := {|
  rig_reset := MRAA_SUCCESS;
  rig_search_new := (MRAA_SUCCESS, rom_A);
  rig_search_next := (MRAA_SUCCESS, rom_B);
  rig_scratchpad := fun rom =>
    if Z.eqb (nth 1 rom 0) 0x11 then scratchpad_of 0x90 0x01
    else scratchpad_of 0x90 0xFC;
  rig_gpio_write := fun _ _ => MRAA_SUCCESS;
  rig_dust_adc := 300;
  rig_hsm_adc := 409;
  rig_db := fun _ => SQLITE_ERROR
|}.

(** The humidity of an ADC count: below that of the next count, negative
    up to count 58 and no further, above 100 from count 725 on and not
    before. *)
Definition humidity_of_count (raw : Z) : c_float :=
  hsm_curve (adc_voltage raw).

Definition humidity_sign_check (raw : Z) (x : c_float) : bool :=
  Bool.eqb (f_lt (f64_of_f32 x) d_0_0) (raw <=? 58)
  && Bool.eqb (f_gt (f64_of_f32 x) (f64_of_Z 100)) (725 <=? raw).

(** The check on [n] counts after [raw], whose humidity is [x]. *)
Fixpoint humidity_shape_from (n : nat) (raw : Z) (x : c_float) : bool :=
  humidity_sign_check raw x
  && match n with
     | O => true
     | S n' =>
         let y := humidity_of_count (raw + 1) in
         f_lt x y && humidity_shape_from n' (raw + 1) y
     end.

(** The four handles of a running program, in the order it opens them,
    and in the order the default case gives them back. *)
Definition handles_opened : list Handle :=
  [H_uart; H_gpio dust_ir_led_pin; H_aio dust_aio_in; H_aio hsm_aio_in].
Definition handles_released : list Handle :=
  [H_gpio dust_ir_led_pin; H_aio dust_aio_in; H_aio hsm_aio_in; H_uart].

(** Events that neither obtain nor give back a handle. *)
Definition is_handle_event (e : Event) : bool :=
  match e with
  | Ev_uart_ow_init _ _ | Ev_gpio_init _ _ | Ev_aio_init _ _
  | Ev_uart_ow_stop | Ev_gpio_close _ | Ev_aio_close _ => true
  | _ => false
  end.

(** The voltage of an ADC count against that of the next count and
    against 5.0. *)
Definition adc_voltage_check (raw : Z) : bool :=
  f_le (f64_of_f32 (adc_voltage raw)) d_5_0
  && (if raw <? 1023 then f_lt (adc_voltage raw) (adc_voltage (raw + 1))
      else true).

(* ------------------------------------------------------------------ *)
(** ** Statements along a trace *)

(** Every statement of a stretch of trace fitted its buffer. *)
Definition queries_fit (d : Trace) : Prop :=
  Forall (fun p => query_fits (fst p) (snd p) = true) (db_inserts d).

(** The humidity statement of one ADC count. *)
Definition humidity_query_check (raw : Z) : bool :=
  query_fits (NUM_OF_SENSORS + 2) (hsm_curve (adc_voltage raw)).

(** Values below 8 in magnitude, and the values that are no numbers. *)
Definition small_SF (x : spec_float) : Prop :=
  match x with
  | S754_finite _ m e => Zpos (digits2_pos m) + e <= 3
  | _ => True
  end.

(* ------------------------------------------------------------------ *)
(** ** What a cycle reads, and the trace it leaves *)

(** One dust sample as the sensor function can go through it: the LED-on
    write fails; the ADC is read and the LED-off write fails; or the ADC is
    read and both writes succeed. *)
Inductive Sample :=
| Smp_on_failed (r : mraa_result_t)
| Smp_off_failed (raw : Z) (r : mraa_result_t)
| Smp_read (raw : Z).

Definition sample_trace (s : Sample) : Trace :=
  match s with
  | Smp_on_failed r => [Ev_gpio_write dust_ir_led_pin 1 r]
  | Smp_off_failed raw r =>
      [Ev_gpio_write dust_ir_led_pin 1 MRAA_SUCCESS; Ev_usleep 280;
       Ev_aio_read dust_aio_in raw; Ev_usleep 40;
       Ev_gpio_write dust_ir_led_pin 0 r]
  | Smp_read raw =>
      [Ev_gpio_write dust_ir_led_pin 1 MRAA_SUCCESS; Ev_usleep 280;
       Ev_aio_read dust_aio_in raw; Ev_usleep 40;
       Ev_gpio_write dust_ir_led_pin 0 MRAA_SUCCESS; Ev_usleep 9680]
  end.

(** The value the sample has for the batch. *)
Definition sample_value (s : Sample) : c_float :=
  match s with
  | Smp_read raw => adc_voltage (to_uint16 raw)
  | _ => f32_of_f64 d_0_0
  end.

Definition sample_ok (s : Sample) : bool :=
  match s with
  | Smp_on_failed r | Smp_off_failed _ r =>
      negb (mraa_result_eqb MRAA_SUCCESS r)
  | Smp_read _ => true
  end.

(** The samples added one after the other to [acc], and the mean of a
    batch that starts from 0.0. *)
Definition batch_sum (acc : c_float) (ss : list Sample) : c_float :=
  fold_left (fun a s => f32_add a (sample_value s)) ss acc.

Definition batch_mean (ss : list Sample) : c_float :=
  f32_div (batch_sum (f32_of_f64 d_0_0) ss) (f32_of_Z dust_sensor_max_sample).

Definition batch_trace (ss : list Sample) : Trace :=
  concat (map sample_trace ss).

(** What the outside world answered in one cycle: the nine bus bytes of
    each probe, the sixteen dust samples, the humidity count. *)
Record Cycle := {
  cy_probe1 : list Z;
  cy_probe2 : list Z;
  cy_dust : list Sample;
  cy_humidity : Z
}.

(** The value each sensor id is stored with, from what was read. *)
Definition probe_value (bs : list Z) : c_float :=
  temp_scale (temp_adc_val (map to_uint8 bs)).
Definition dust_value (ss : list Sample) : c_float :=
  dust_density (batch_mean ss).
Definition humidity_value (raw : Z) : c_float :=
  hsm_curve (adc_voltage (to_uint16 raw)).

Definition cycle_inserts (c : Cycle) : list (Z * c_float) :=
  [(1, probe_value (cy_probe1 c)); (2, probe_value (cy_probe2 c));
   (NUM_OF_SENSORS + 1, dust_value (cy_dust c));
   (NUM_OF_SENSORS + 2, humidity_value (cy_humidity c))].

(** The trace of the three passes spent on a probe that is read and
    stored. *)
Definition probe_trace (rom : list Z) (sen_id : Z) (bs : list Z) : Trace :=
  [Ev_uart_ow_command CMD_START_TEMP_CONV rom; Ev_sleep 1;
   Ev_uart_ow_command CMD_READ_SCRATCHPAD rom]
  ++ map Ev_uart_ow_read_byte bs
  ++ store_trace_ok sen_id (probe_value bs).

(** The trace of a complete cycle over the probe table [a]. *)
Definition cycle_trace (a : list (list Z)) (c : Cycle) : Trace :=
  probe_trace (addr_row a 0) 1 (cy_probe1 c)
  ++ probe_trace (addr_row a 1) 2 (cy_probe2 c)
  ++ batch_trace (cy_dust c)
  ++ store_trace_ok (NUM_OF_SENSORS + 1) (dust_value (cy_dust c))
  ++ Ev_aio_read hsm_aio_in (cy_humidity c)
     :: store_trace_ok (NUM_OF_SENSORS + 2) (humidity_value (cy_humidity c))
  ++ [Ev_sleep 60].

(** A scratchpad is accepted when the CRC of its first eight bytes is its
    ninth byte. *)
Definition crc_matches (env : Env) (bs : list Z) : Prop :=
  length bs = 9%nat /\
  mraa_uart_ow_crc8 env (map to_uint8 bs) DS18B20_ADDR_LEN
  = nth 8 (map to_uint8 bs) 0.

Definition cycle_complete (env : Env) (c : Cycle) : Prop :=
  crc_matches env (cy_probe1 c) /\ crc_matches env (cy_probe2 c) /\
  length (cy_dust c) = 16%nat /\ forallb sample_ok (cy_dust c) = true.

(* ================================================================== *)
(** * Properties *)

(** ** Bounded checks *)

Lemma range_all_spec (P : Z -> bool) (n : nat) :
  forall z0, range_all P n z0 = true ->
  forall z, z0 <= z < z0 + Z.of_nat n -> P z = true.
Proof.
  induction n as [|n IH]; intros z0 Hall z Hz.
  - simpl in Hz. lia.
  - cbn [range_all] in Hall. apply andb_prop in Hall as [Hz0 Hrest].
    destruct (Z.eq_dec z z0) as [->|Hne]; [exact Hz0|].
    apply (IH (z0 + 1) Hrest). lia.
Qed.

(** ** DS18B20 scratchpad decode *)

Lemma decode_bytes_all :
  range_all (fun msb => range_all (fun lsb => decode_bytes_check lsb msb) 256 0)
            256 0 = true.
Proof. vm_cast_no_check (eq_refl true). Qed.

Lemma temp_scale_all :
  range_all temp_scale_check (Z.to_nat 65536) (-32768) = true.
Proof. vm_cast_no_check (eq_refl true). Qed.

Lemma decode_bytes_ok (lsb msb : Z) :
  0 <= lsb < 256 -> 0 <= msb < 256 -> decode_bytes_check lsb msb = true.
Proof.
  intros Hl Hm.
  pose proof (range_all_spec _ _ _ decode_bytes_all msb) as H.
  cbv beta in H.
  apply (range_all_spec _ _ _ (H ltac:(lia)) lsb). lia.
Qed.

Lemma temp_scale_exact (x : Z) :
  -32768 <= x < 32768 ->
  is_finite_SF (temp_scale x) = true /\
  (SF2Q (temp_scale x) == inject_Z x * (625 # 10000))%Q.
Proof.
  intros Hx.
  pose proof (range_all_spec _ _ _ temp_scale_all x) as H.
  rewrite Z2Nat.id in H by lia. specialize (H ltac:(lia)).
  unfold temp_scale_check in H. apply andb_prop in H as [Hf Hq].
  split; [exact Hf|]. now apply Qeq_bool_iff.
Qed.

Lemma twos_complement16_range (field : Z) :
  0 <= field < 65536 -> -32768 <= twos_complement16 field < 32768.
Proof.
  intros H. unfold twos_complement16.
  destruct (field <? 32768) eqn:E;
    [apply Z.ltb_lt in E | apply Z.ltb_ge in E]; lia.
Qed.

Lemma nth_byte_range (sp : list Z) (i : nat) :
  Forall (fun b => 0 <= b < 256) sp -> 0 <= nth i sp 0 < 256.
Proof.
  intros H. revert i. induction H as [|b sp Hb _ IH]; intros [|i]; simpl;
    try lia; auto.
Qed.

(** The negation pair of the negative branch gives back its argument on
    every [int16_t] value, -32768 included. *)
Lemma negative_branch_identity (x : Z) :
  -32768 <= x < 32768 -> negative_branch x = x.
Proof.
  intros Hx. unfold negative_branch, to_int16, Z.lnot.
  destruct (Z.eq_dec x (-32768)) as [->|Hne]; [reflexivity|].
  replace (Z.pred (- x) + 32768) with (32767 - x) by lia.
  rewrite (Z.mod_small (32767 - x)) by lia.
  replace (32767 - x - 32768 + 1 + 32768) with (32768 - x) by lia.
  rewrite (Z.mod_small (32768 - x)) by lia.
  replace (- (32768 - x - 32768) + 32768) with (x + 32768) by lia.
  rewrite Z.mod_small by lia. lia.
Qed.

Lemma temp_adc_val_two_bytes (sp : list Z) :
  temp_adc_raw sp = temp_adc_raw [nth 0 sp 0; nth 1 sp 0] /\
  is_temp_negative sp = is_temp_negative [nth 0 sp 0; nth 1 sp 0] /\
  temp_adc_val sp = temp_adc_val [nth 0 sp 0; nth 1 sp 0].
Proof. repeat split. Qed.

(** C1 (as amended): on every 9-byte scratchpad whose CRC check passes, the
    decode rebuilds the 16-bit little-endian field from byte 0 (LSB) and
    byte 1 (MSB), takes the negative branch exactly when bit 7 of byte 1 is
    set, that branch is the identity, and the result is the field read as a
    signed two's-complement integer times 0.0625, exactly.  Raw 0x0190 gives
    25.0, raw 0xFC90 gives -55.0, and lsb 0xFF with msb 0xFE gives -16.0625
    (it is lsb 0xFF with msb 0xFF that gives -0.0625). *)
Theorem ds18b20_decode_valid_frame
  (env : Env) (sp : list Z) (p_temp : c_float) :
  length sp = 9%nat ->
  Forall (fun b => 0 <= b < 256) sp ->
  mraa_uart_ow_crc8 env sp DS18B20_ADDR_LEN = nth 8 sp 0 ->
  let lsb := nth 0 sp 0 in
  let msb := nth 1 sp 0 in
  let field := lsb + 256 * msb in
  temp_adc_raw sp = twos_complement16 field /\
  (is_temp_negative sp = 1 <-> Z.testbit msb 7 = true) /\
  (is_temp_negative sp = 0 \/ is_temp_negative sp = 1) /\
  negative_branch (temp_adc_raw sp) = temp_adc_raw sp /\
  temp_adc_val sp = twos_complement16 field /\
  (exists t,
     ds18b20_decode env sp p_temp = (SUCCESS, t) /\
     is_finite_SF t = true /\
     (SF2Q t == inject_Z (twos_complement16 field) * (625 # 10000))%Q) /\
  (SF2Q (temp_scale (temp_adc_val [0x90; 0x01]%Z)) == 25)%Q /\
  (SF2Q (temp_scale (temp_adc_val [0x90; 0xFC]%Z)) == -55)%Q /\
  (SF2Q (temp_scale (temp_adc_val [0xFF; 0xFE]%Z)) == - (160625 # 10000))%Q /\
  (SF2Q (temp_scale (temp_adc_val [0xFF; 0xFF]%Z)) == - (625 # 10000))%Q.
Proof.
  intros Hlen Hbytes Hcrc lsb msb field.
  assert (Hl : 0 <= lsb < 256) by (apply nth_byte_range; exact Hbytes).
  assert (Hm : 0 <= msb < 256) by (apply nth_byte_range; exact Hbytes).
  pose proof (decode_bytes_ok lsb msb Hl Hm) as Hchk.
  unfold decode_bytes_check in Hchk.
  apply andb_prop in Hchk as [Hchk Hval].
  apply andb_prop in Hchk as [Hchk Hneg].
  apply andb_prop in Hchk as [Hraw Hbit].
  apply Z.eqb_eq in Hraw, Hneg, Hval. apply Bool.eqb_prop in Hbit.
  destruct (temp_adc_val_two_bytes sp) as (Er & En & Ev).
  fold lsb msb in Er, En, Ev.
  rewrite Er, En, Ev.
  assert (Hfield : 0 <= field < 65536) by (unfold field; lia).
  pose proof (twos_complement16_range field Hfield) as Hrange.
  split; [exact Hraw|].
  split.
  { rewrite <- Hbit. symmetry. apply Z.eqb_eq. }
  split.
  { unfold is_temp_negative. destruct (Z.land _ _ =? 0); auto. }
  split; [exact Hneg|].
  split; [exact Hval|].
  split.
  { exists (temp_scale (twos_complement16 field)).
    destruct (temp_scale_exact _ Hrange) as [Hfin Hq].
    unfold ds18b20_decode. rewrite Hcrc, Z.eqb_refl. cbn [negb].
    rewrite Ev, Hval. auto. }
  repeat split; apply Qeq_bool_iff; vm_compute; reflexivity.
Qed.

(** C4: a 9-byte scratchpad whose CRC-8 over bytes 0..7 differs from byte 8
    makes the read fail with [FAIL]; the caller's temperature is left as it
    was and no decoded value is produced, whatever the data bytes hold. *)
Theorem ds18b20_crc_mismatch
  (env : Env) (sp : list Z) (p_temp : c_float) :
  length sp = 9%nat ->
  mraa_uart_ow_crc8 env sp DS18B20_ADDR_LEN <> nth 8 sp 0 ->
  ds18b20_decode env sp p_temp = (FAIL, p_temp) /\
  forall (sen_addr : list Z) (h : Trace),
    fst (read_scratchpad env (Z.to_nat ds18b20_scratchpad_len)
           (h ++ [Ev_uart_ow_command CMD_READ_SCRATCHPAD sen_addr])) = sp ->
    fst (ds18b20_read_temp_float env sen_addr p_temp h) = (FAIL, p_temp).
Proof.
  intros _ Hcrc.
  assert (H : ds18b20_decode env sp p_temp = (FAIL, p_temp)).
  { unfold ds18b20_decode.
    destruct (Z.eqb_spec (mraa_uart_ow_crc8 env sp DS18B20_ADDR_LEN)
                         (nth 8 sp 0)); [contradiction|reflexivity]. }
  split; [exact H|].
  intros sen_addr h Hread.
  unfold ds18b20_read_temp_float, bind, mraa_uart_ow_command, emit, ret.
  destruct (read_scratchpad env (Z.to_nat ds18b20_scratchpad_len)
              (h ++ [Ev_uart_ow_command CMD_READ_SCRATCHPAD sen_addr]))
    as [sp' h'].
  cbn [fst] in *. subst sp'. exact H.
Qed.

(** ** Signs of rounded results *)

Lemma iter_pos_invariant {A} (P : A -> Prop) (f : A -> A) :
  (forall x, P x -> P (f x)) ->
  forall p x, P x -> P (iter_pos f p x).
Proof.
  intros Hf. induction p as [p IH|p IH|]; intros x Hx; cbn [iter_pos]; auto.
Qed.

Lemma shr_1_nonneg (mrs : shr_record) : 0 <= shr_m mrs -> 0 <= shr_m (shr_1 mrs).
Proof.
  destruct mrs as [m r s]. cbn [shr_m].
  destruct m as [|p|p]; [| destruct p | ]; cbn; lia.
Qed.

Lemma shr_fexp_nonneg (prec emax m e : Z) (l : location) :
  0 <= m -> 0 <= shr_m (fst (shr_fexp prec emax m e l)).
Proof.
  intros Hm. unfold shr_fexp, shr.
  assert (H0 : 0 <= shr_m (shr_record_of_loc m l))
    by (destruct l as [|[]]; exact Hm).
  destruct (fexp prec emax (Zdigits2 m + e) - e) as [|p|p]; cbn [fst]; auto.
  apply (iter_pos_invariant (fun mrs => 0 <= shr_m mrs)); auto.
  apply shr_1_nonneg.
Qed.

Lemma round_nearest_even_nonneg (m : Z) (l : location) :
  0 <= m -> 0 <= round_nearest_even m l.
Proof.
  intros Hm. unfold round_nearest_even.
  destruct l as [|[]]; try destruct (Z.even m); lia.
Qed.

Lemma binary_round_aux_nonneg (prec emax m e : Z) (l : location) :
  0 <= m -> is_nonneg_SF (binary_round_aux prec emax false m e l) = true.
Proof.
  intros Hm. unfold binary_round_aux.
  pose proof (shr_fexp_nonneg prec emax m e l Hm) as H1.
  destruct (shr_fexp prec emax m e l) as [mrs' e']. cbn [fst] in H1.
  pose proof (shr_fexp_nonneg prec emax _ e' loc_Exact
                (round_nearest_even_nonneg _ (loc_of_shr_record mrs') H1)) as H2.
  destruct (shr_fexp prec emax
              (round_nearest_even (shr_m mrs') (loc_of_shr_record mrs')) e'
              loc_Exact) as [mrs'' e''].
  cbn [fst] in H2.
  destruct (shr_m mrs'') as [|p|p]; [reflexivity| |lia].
  destruct (e'' <=? emax - prec); reflexivity.
Qed.

Lemma binary_normalize_nonneg (prec emax m e : Z) :
  0 <= m -> is_nonneg_SF (binary_normalize prec emax m e false) = true.
Proof.
  intros Hm. destruct m as [|p|p]; [reflexivity| |lia].
  unfold binary_normalize, binary_round.
  destruct (shl_align p e _) as [mz ez].
  apply binary_round_aux_nonneg. lia.
Qed.

Lemma f32_of_Z_nonneg (z : Z) : 0 <= z -> is_nonneg_SF (f32_of_Z z) = true.
Proof. apply binary_normalize_nonneg. Qed.

Lemma f64_of_f32_nonneg (x : c_float) :
  is_nonneg_SF x = true -> is_nonneg_SF (f64_of_f32 x) = true.
Proof.
  destruct x as [[]|[]| |[] m e]; cbn [is_nonneg_SF f64_of_f32]; try easy.
  intros _. apply binary_normalize_nonneg. cbn. lia.
Qed.

Lemma f32_of_f64_nonneg (x : c_double) :
  is_nonneg_SF x = true -> is_nonneg_SF (f32_of_f64 x) = true.
Proof.
  destruct x as [[]|[]| |[] m e]; cbn [is_nonneg_SF f32_of_f64]; try easy.
  intros _. apply binary_normalize_nonneg. cbn. lia.
Qed.

Lemma f64_div_nonneg (x : c_double) (my : positive) (ey : Z) :
  is_nonneg_SF x = true ->
  is_nonneg_SF (f64_div x (S754_finite false my ey)) = true.
Proof.
  destruct x as [[]|[]| |[] mx ex]; cbn [is_nonneg_SF]; try easy.
  intros _. unfold f64_div, SFdiv, SFdiv_core_binary.
  set (m' := match _ - _ - _ with Z0 => Z.pos mx | Zpos _ => _ | Zneg _ => 0 end).
  assert (Hm' : 0 <= m').
  { subst m'. destruct (_ - _ - _); try lia. apply Z.shiftl_nonneg. lia. }
  pose proof (Z.div_pos m' (Z.pos my) Hm' ltac:(lia)) as Hq.
  unfold Z.div in Hq.
  destruct (Z.div_eucl m' (Z.pos my)) as [q r].
  cbn [xorb]. apply binary_round_aux_nonneg. exact Hq.
Qed.

Lemma f64_mul_nonneg (x : c_double) (my : positive) (ey : Z) :
  is_nonneg_SF x = true ->
  is_nonneg_SF (f64_mul x (S754_finite false my ey)) = true.
Proof.
  destruct x as [[]|[]| |[] mx ex]; cbn [is_nonneg_SF]; try easy.
  intros _. unfold f64_mul, SFmul. cbn [xorb].
  apply binary_round_aux_nonneg. lia.
Qed.

Lemma is_nonneg_ge_zero (x : spec_float) :
  is_nonneg_SF x = true -> f_ge x d_0_0 = true.
Proof. destruct x as [[]|[]| |[] m e]; cbn; easy. Qed.

Lemma d_1023_0_eq : d_1023_0 = S754_finite false 8998403161718784 (-43).
Proof. vm_compute. reflexivity. Qed.

Lemma d_5_0_eq : d_5_0 = S754_finite false 5629499534213120 (-50).
Proof. vm_compute. reflexivity. Qed.

(** The voltage of a non-negative ADC count has sign bit 0 and is no NaN. *)
Lemma adc_voltage_nonneg (adc_val : Z) :
  0 <= adc_val -> is_nonneg_SF (adc_voltage adc_val) = true.
Proof.
  intros H. unfold adc_voltage. rewrite d_1023_0_eq, d_5_0_eq.
  apply f32_of_f64_nonneg, f64_mul_nonneg, f64_div_nonneg, f64_of_f32_nonneg,
    f32_of_Z_nonneg, H.
Qed.

Lemma to_uint16_range (z : Z) : 0 <= to_uint16 z < 65536.
Proof. unfold to_uint16. apply Z.mod_pos_bound. lia. Qed.

Lemma to_uint8_range (z : Z) : 0 <= to_uint8 z < 256.
Proof. unfold to_uint8. apply Z.mod_pos_bound. lia. Qed.

(** ** Traces of the building blocks *)

Lemma milestones_app (a b : Trace) :
  milestones (a ++ b) = milestones a ++ milestones b.
Proof.
  induction a as [|e a IH]; [reflexivity|].
  destruct e; cbn [app milestones]; rewrite ?IH; reflexivity.
Qed.

Lemma db_inserts_app (a b : Trace) :
  db_inserts (a ++ b) = db_inserts a ++ db_inserts b.
Proof.
  induction a as [|e a IH]; [reflexivity|].
  destruct e; cbn [app db_inserts]; rewrite ?IH; reflexivity.
Qed.

Lemma read_bytes_milestones (d : Trace) :
  forallb is_read_byte_event d = true ->
  milestones d = [] /\ filter is_db_event d = [].
Proof.
  induction d as [|e d IH]; [split; reflexivity|].
  cbn [forallb]. intros H. apply andb_prop in H as [He Hd].
  destruct e; try discriminate He; cbn [milestones filter is_db_event]; auto.
Qed.

Section Blocks.

Variable env : Env.

Lemma read_scratchpad_spec (n : nat) :
  forall h, exists sp d,
    read_scratchpad env n h = (sp, h ++ d) /\
    length sp = n /\
    Forall (fun b => 0 <= b < 256) sp /\
    forallb is_read_byte_event d = true.
Proof.
  induction n as [|n IH]; intros h.
  - exists [], []. cbn. rewrite app_nil_r. auto.
  - cbn [read_scratchpad].
    unfold bind, mraa_uart_ow_read_byte, ask, ret.
    destruct (IH (h ++ [Ev_uart_ow_read_byte (env_uart_ow_read_byte env h)]))
      as (sp & d & E & Hlen & Hb & Hd).
    rewrite E.
    exists (to_uint8 (env_uart_ow_read_byte env h) :: sp),
           (Ev_uart_ow_read_byte (env_uart_ow_read_byte env h) :: d).
    rewrite <- app_assoc. cbn [app length forallb is_read_byte_event andb].
    repeat split; auto.
    constructor; [apply to_uint8_range | exact Hb].
Qed.

Lemma ds18b20_read_temp_float_spec (sen_addr : list Z) (p_temp : c_float)
  (h : Trace) :
  exists sp d,
    read_scratchpad env (Z.to_nat ds18b20_scratchpad_len)
      (h ++ [Ev_uart_ow_command CMD_READ_SCRATCHPAD sen_addr])
    = (sp, (h ++ [Ev_uart_ow_command CMD_READ_SCRATCHPAD sen_addr]) ++ d) /\
    ds18b20_read_temp_float env sen_addr p_temp h =
      (ds18b20_decode env sp p_temp,
       h ++ Ev_uart_ow_command CMD_READ_SCRATCHPAD sen_addr :: d) /\
    length sp = 9%nat /\
    Forall (fun b => 0 <= b < 256) sp /\
    forallb is_read_byte_event d = true.
Proof.
  unfold ds18b20_read_temp_float, bind, mraa_uart_ow_command, emit, ret.
  destruct (read_scratchpad_spec (Z.to_nat ds18b20_scratchpad_len)
              (h ++ [Ev_uart_ow_command CMD_READ_SCRATCHPAD sen_addr]))
    as (sp & d & E & Hlen & Hb & Hd).
  rewrite E. exists sp, d. rewrite <- app_assoc. cbn [app].
  repeat split; auto.
Qed.

Lemma store_data_to_db_spec (sen_id : Z) (sen_val : c_float) (h : Trace) :
  store_data_to_db env sen_id sen_val h =
    (SUCCESS, h ++ store_trace_ok sen_id sen_val) \/
  exists d,
    store_data_to_db env sen_id sen_val h = (FAIL, h ++ d) /\
    (d = store_trace_open_failed \/ d = store_trace_malloc_failed \/
     d = store_trace_exec_failed sen_id sen_val).
Proof.
  unfold store_data_to_db, bind, sqlite3_open, malloc, sqlite3_exec,
    sqlite3_free, free, sqlite3_close, ask, emit, ret.
  destruct (env_sqlite3_open env h) eqn:Eo; cbn [sqlite_is_ok negb].
  2:{ right. exists store_trace_open_failed.
      rewrite <- app_assoc. cbn [app]. auto. }
  destruct (env_malloc env _ 64) eqn:Em; cbn [negb].
  2:{ right. exists store_trace_malloc_failed.
      rewrite <- !app_assoc. cbn [app]. auto. }
  destruct (env_sqlite3_exec env _ sen_id sen_val) eqn:Ee;
    cbn [sqlite_is_ok negb].
  - left. rewrite <- !app_assoc. reflexivity.
  - right. exists (store_trace_exec_failed sen_id sen_val).
    rewrite <- !app_assoc. cbn [app]. auto.
Qed.

(** One dust sample: the three ways through the function. *)
Lemma gp2y_spec (h : Trace) :
  exists x d,
    gp2y_read_dust_output_voltage_float env h = (x, h ++ d) /\
    forallb is_sampling_event d = true /\
    is_nonneg_SF x = true /\
    (existsb is_failed_pin_write d = true -> x = S754_zero false) /\
    (existsb is_failed_pin_write d = false ->
     exists raw, In (Ev_aio_read dust_aio_in raw) d /\
                 x = adc_voltage (to_uint16 raw)).
Proof.
  unfold gp2y_read_dust_output_voltage_float, bind, mraa_gpio_write,
    mraa_aio_read, usleep, ask, emit, ret.
  set (r1 := env_gpio_write env h dust_ir_led_pin 1).
  destruct (mraa_result_eqb MRAA_SUCCESS r1) eqn:E1; cbn [negb].
  2:{ exists (S754_zero false), [Ev_gpio_write dust_ir_led_pin 1 r1].
      cbn [forallb existsb is_sampling_event is_failed_pin_write andb orb].
      rewrite E1. cbn. repeat split; auto. discriminate. }
  set (h2 := (h ++ [Ev_gpio_write dust_ir_led_pin 1 r1]) ++ [Ev_usleep 280]).
  set (raw := env_aio_read env h2 dust_aio_in).
  set (h4 := (h2 ++ [Ev_aio_read dust_aio_in raw]) ++ [Ev_usleep 40]).
  set (r2 := env_gpio_write env h4 dust_ir_led_pin 0).
  destruct (mraa_result_eqb MRAA_SUCCESS r2) eqn:E2; cbn [negb].
  2:{ exists (S754_zero false),
        [Ev_gpio_write dust_ir_led_pin 1 r1; Ev_usleep 280;
         Ev_aio_read dust_aio_in raw; Ev_usleep 40;
         Ev_gpio_write dust_ir_led_pin 0 r2].
      subst h4 h2. rewrite <- !app_assoc.
      cbn [app forallb existsb is_sampling_event is_failed_pin_write andb orb].
      rewrite E1, E2. cbn. repeat split; auto. discriminate. }
  exists (adc_voltage (to_uint16 raw)),
    [Ev_gpio_write dust_ir_led_pin 1 r1; Ev_usleep 280;
     Ev_aio_read dust_aio_in raw; Ev_usleep 40;
     Ev_gpio_write dust_ir_led_pin 0 r2; Ev_usleep 9680].
  subst h4 h2. rewrite <- !app_assoc.
  cbn [app forallb existsb is_sampling_event is_failed_pin_write andb orb].
  rewrite E1, E2. cbn [negb orb].
  repeat split; auto.
  - apply adc_voltage_nonneg, to_uint16_range.
  - discriminate.
  - intros _. exists raw. split; [|reflexivity]. cbn. auto.
Qed.

End Blocks.

(** ** The cases of the state machine *)

Section Cases.

Variable env : Env.

Lemma batch_frame_refl (v : Vars) : batch_frame v v.
Proof. repeat split. Qed.

Lemma dust_accumulate_frame (v : Vars) (x : c_float) :
  is_nonneg_SF x = true ->
  batch_frame v (dust_accumulate v x) /\
  acc_dust_concentration (dust_accumulate v x)
  = f32_add (acc_dust_concentration v) x.
Proof.
  intros Hx. unfold dust_accumulate.
  rewrite (is_nonneg_ge_zero _ (f64_of_f32_nonneg _ Hx)).
  repeat split.
Qed.

Lemma dust_sample_loop_spec (n : nat) :
  forall v h, exists vl d,
    dust_sample_loop env n v h = (vl, h ++ d) /\
    forallb is_sampling_event d = true /\
    batch_frame v vl.
Proof.
  induction n as [|n IH]; intros v h.
  - exists v, []. cbn. rewrite app_nil_r. repeat split.
  - cbn [dust_sample_loop]. unfold bind.
    destruct (gp2y_spec env h) as (x & d1 & E1 & Hd1 & Hx & _).
    rewrite E1.
    destruct (dust_accumulate_frame v x Hx) as [Hfr _].
    set (v1 := set_dust_sensor_sample_count (dust_accumulate v x) _).
    destruct (IH v1 (h ++ d1)) as (vl & d2 & E2 & Hd2 & Hfr2).
    rewrite E2. exists vl, (d1 ++ d2). rewrite app_assoc.
    split; [reflexivity|]. split.
    + rewrite forallb_app, Hd1, Hd2. reflexivity.
    + unfold batch_frame in *. subst v1. cbn in Hfr2.
      destruct Hfr as (?&?&?&?&?&?), Hfr2 as (?&?&?&?&?&?).
      repeat split; congruence.
Qed.

Lemma main_loop_body_START_CONV (v : Vars) :
  state_index v = START_CONV -> main_loop_body env v = case_START_CONV v.
Proof. unfold main_loop_body. intros ->. reflexivity. Qed.

Lemma main_loop_body_WAIT_TILL_CONV_FINISHED (v : Vars) :
  state_index v = WAIT_TILL_CONV_FINISHED ->
  main_loop_body env v = case_WAIT_TILL_CONV_FINISHED v.
Proof. unfold main_loop_body. intros ->. reflexivity. Qed.

Lemma main_loop_body_READ_TEMP (v : Vars) :
  state_index v = READ_TEMP -> main_loop_body env v = case_READ_TEMP env v.
Proof. unfold main_loop_body. intros ->. reflexivity. Qed.

Lemma main_loop_body_READ_DUST_CONCENTRATION (v : Vars) :
  state_index v = READ_DUST_CONCENTRATION ->
  main_loop_body env v = case_READ_DUST_CONCENTRATION env v.
Proof. unfold main_loop_body. intros ->. reflexivity. Qed.

Lemma main_loop_body_READ_HUMIDITY (v : Vars) :
  state_index v = READ_HUMIDITY ->
  main_loop_body env v = case_READ_HUMIDITY env v.
Proof. unfold main_loop_body. intros ->. reflexivity. Qed.

Lemma main_loop_body_WAIT (v : Vars) :
  state_index v = WAIT -> main_loop_body env v = case_WAIT v.
Proof. unfold main_loop_body. intros ->. reflexivity. Qed.

Lemma main_loop_body_default (v : Vars) :
  state_index v < NONE \/ WAIT < state_index v ->
  main_loop_body env v = case_default v.
Proof.
  intros H. unfold main_loop_body, NONE, START_CONV, WAIT_TILL_CONV_FINISHED,
    READ_TEMP, READ_DUST_CONCENTRATION, READ_HUMIDITY, WAIT in *.
  repeat match goal with
         | |- context [?a =? ?b] =>
             destruct (Z.eqb_spec a b); [exfalso; lia|]
         end.
  reflexivity.
Qed.

(** [READ_TEMP]: a CRC mismatch, a failed store, or both succeed. *)
Lemma case_READ_TEMP_spec (v : Vars) (h : Trace) :
  let sen_addr := addr_row (ds18b20_addr v) (sen_count v) in
  let n := to_uint8 (sen_count v + 1) in
  let v1 := set_sen_count v n in
  exists sp d,
    read_scratchpad env (Z.to_nat ds18b20_scratchpad_len)
      (h ++ [Ev_uart_ow_command CMD_READ_SCRATCHPAD sen_addr])
    = (sp, (h ++ [Ev_uart_ow_command CMD_READ_SCRATCHPAD sen_addr]) ++ d) /\
    length sp = 9%nat /\ Forall (fun b => 0 <= b < 256) sp /\
    forallb is_read_byte_event d = true /\
    let h1 := h ++ Ev_uart_ow_command CMD_READ_SCRATCHPAD sen_addr :: d in
    let t := temp_scale (temp_adc_val sp) in
    (mraa_uart_ow_crc8 env sp DS18B20_ADDR_LEN <> nth 8 sp 0 /\
     case_READ_TEMP env v h
     = (Running (set_state_index (set_temp v1 (temp v)) (WAIT + 1)), h1))
    \/
    (mraa_uart_ow_crc8 env sp DS18B20_ADDR_LEN = nth 8 sp 0 /\
     exists df, store_failure_trace n t df /\
       case_READ_TEMP env v h
       = (Running (set_state_index (set_temp v1 t) (WAIT + 1)), h1 ++ df))
    \/
    (mraa_uart_ow_crc8 env sp DS18B20_ADDR_LEN = nth 8 sp 0 /\
     case_READ_TEMP env v h
     = (Running (after_read_temp v t), h1 ++ store_trace_ok n t)).
Proof.
  intros sen_addr n v1.
  destruct (ds18b20_read_temp_float_spec env sen_addr (temp v) h)
    as (sp & d & Er & E & Hlen & Hb & Hd).
  exists sp, d. repeat (split; [assumption|]).
  intros h1 t.
  unfold case_READ_TEMP, bind, ret. fold sen_addr n v1.
  change (temp v1) with (temp v). rewrite E. fold h1.
  unfold ds18b20_decode.
  destruct (Z.eqb_spec (mraa_uart_ow_crc8 env sp DS18B20_ADDR_LEN)
                       (nth 8 sp 0)) as [Hcrc|Hcrc]; cbn [negb fst snd].
  2:{ left. split; [exact Hcrc|]. reflexivity. }
  right. fold t. change (SUCCESS =? SUCCESS) with true. cbv iota.
  change (sen_count (set_temp v1 t)) with n.
  change (temp (set_temp v1 t)) with t.
  destruct (store_data_to_db_spec env n t h1) as [Es|(df & Es & Hdf)];
    rewrite Es.
  - right. split; [exact Hcrc|]. change (SUCCESS =? SUCCESS) with true.
    cbv iota. unfold after_read_temp. fold n v1.
    change (sen_count (set_temp v1 t)) with n.
    destruct (n >=? NUM_OF_SENSORS); reflexivity.
  - left. split; [exact Hcrc|]. exists df. split; [exact Hdf|]. reflexivity.
Qed.

(** [READ_DUST_CONCENTRATION]: the batch never raises its error flag, so
    the case always computes a density and calls the store. *)
Lemma case_READ_DUST_CONCENTRATION_spec (v : Vars) (h : Trace) :
  exists vl d,
    dust_sample_loop env (Z.to_nat dust_sensor_max_sample)
                     (dust_batch_start v) h = (vl, h ++ d) /\
    forallb is_sampling_event d = true /\
    batch_frame (dust_batch_start v) vl /\
    let density := dust_density (dust_mean vl) in
    (case_READ_DUST_CONCENTRATION env v h
     = (Running (set_state_index (after_dust_batch vl) READ_HUMIDITY),
        (h ++ d) ++ store_trace_ok (NUM_OF_SENSORS + 1) density)
     \/
     exists df, store_failure_trace (NUM_OF_SENSORS + 1) density df /\
       case_READ_DUST_CONCENTRATION env v h
       = (Running (set_state_index (after_dust_batch vl) (WAIT + 1)),
          (h ++ d) ++ df)).
Proof.
  destruct (dust_sample_loop_spec (Z.to_nat dust_sensor_max_sample)
              (dust_batch_start v) h) as (vl & d & E & Hd & Hfr).
  exists vl, d. repeat (split; [assumption|]).
  intros density.
  unfold case_READ_DUST_CONCENTRATION, bind.
  fold (dust_batch_start v). rewrite E.
  unfold dust_batch_finish, bind, ret.
  assert (Herr : dust_data_coll_err vl = 0).
  { destruct Hfr as (_&_&_&_&_&->). reflexivity. }
  rewrite Herr. change (negb (0 =? 0)) with false. cbv iota.
  fold (dust_mean vl).
  change (acc_dust_concentration
            (set_acc_dust_concentration vl (dust_mean vl)))
    with (dust_mean vl).
  fold (after_dust_batch vl).
  change (acc_dust_concentration (after_dust_batch vl)) with density.
  cbv beta.
  destruct (store_data_to_db_spec env (NUM_OF_SENSORS + 1) density (h ++ d))
    as [Es|(df & Es & Hdf)]; rewrite Es.
  - left. reflexivity.
  - right. exists df. split; [exact Hdf|]. reflexivity.
Qed.

Lemma case_READ_HUMIDITY_spec (v : Vars) (h : Trace) :
  let raw := env_aio_read env h hsm_aio_in in
  let hum := hsm_curve (adc_voltage (to_uint16 raw)) in
  let h1 := h ++ [Ev_aio_read hsm_aio_in raw] in
  case_READ_HUMIDITY env v h
  = (Running (set_state_index (set_humidity v hum) WAIT),
     h1 ++ store_trace_ok (NUM_OF_SENSORS + 2) hum)
  \/
  exists df, store_failure_trace (NUM_OF_SENSORS + 2) hum df /\
    case_READ_HUMIDITY env v h
    = (Running (set_state_index (set_humidity v hum) (WAIT + 1)), h1 ++ df).
Proof.
  intros raw hum h1.
  unfold case_READ_HUMIDITY, bind, ret, hsm_read_humidity_float, bind, ret,
    mraa_aio_read, ask.
  fold raw hum h1. change (humidity (set_humidity v hum)) with hum.
  destruct (store_data_to_db_spec env (NUM_OF_SENSORS + 2) hum h1)
    as [Es|(df & Es & Hdf)]; rewrite Es.
  - left. reflexivity.
  - right. exists df. split; [exact Hdf|]. reflexivity.
Qed.

End Cases.

(** ** Runs of the state machine *)

Section Runs.

Variable env : Env.

Lemma main_steps_S (n : nat) (c : Control) (h : Trace) :
  main_steps env (S n) c h
  = let (c', h') := main_step env c h in main_steps env n c' h'.
Proof. reflexivity. Qed.

Lemma main_steps_add (n m : nat) :
  forall c h,
    main_steps env (n + m) c h
    = let (c', h') := main_steps env n c h in main_steps env m c' h'.
Proof.
  induction n as [|n IH]; intros c h; [reflexivity|].
  cbn [Nat.add]. rewrite !main_steps_S.
  destruct (main_step env c h) as [c1 h1]. apply IH.
Qed.

(** Once in [while (1);], or returned, nothing happens any more. *)
Lemma main_steps_stuck (n : nat) (c : Control) (h : Trace) :
  (forall v, c <> Running v) -> main_steps env n c h = (c, h).
Proof.
  intros Hc. induction n as [|n IH]; [reflexivity|].
  rewrite main_steps_S.
  destruct c as [v|v|code]; [destruct (Hc v eq_refl)| |]; exact IH.
Qed.

Lemma main_step_default (v : Vars) (h : Trace) :
  state_index v < NONE \/ WAIT < state_index v ->
  main_step env (Running v) h = (Spinning v, h ++ fault_trace).
Proof.
  intros H. cbn [main_step]. rewrite (main_loop_body_default env v H).
  unfold case_default, bind, mraa_gpio_close, mraa_aio_close,
    mraa_uart_ow_stop, emit, ret.
  rewrite <- !app_assoc. reflexivity.
Qed.

Lemma main_steps_default (n : nat) (v : Vars) (h : Trace) :
  state_index v < NONE \/ WAIT < state_index v ->
  main_steps env (S n) (Running v) h = (Spinning v, h ++ fault_trace).
Proof.
  intros H. rewrite main_steps_S, (main_step_default v h H).
  apply main_steps_stuck. discriminate.
Qed.

Lemma main_step_START_CONV (v : Vars) (h : Trace) :
  state_index v = START_CONV ->
  main_step env (Running v) h
  = (Running (set_state_index v WAIT_TILL_CONV_FINISHED),
     h ++ [Ev_uart_ow_command CMD_START_TEMP_CONV
             (addr_row (ds18b20_addr v) (sen_count v))]).
Proof.
  intros H. cbn [main_step]. rewrite (main_loop_body_START_CONV env v H).
  reflexivity.
Qed.

Lemma main_step_WAIT_TILL_CONV_FINISHED (v : Vars) (h : Trace) :
  state_index v = WAIT_TILL_CONV_FINISHED ->
  main_step env (Running v) h
  = (Running (set_state_index v READ_TEMP), h ++ [Ev_sleep 1]).
Proof.
  intros H. cbn [main_step].
  rewrite (main_loop_body_WAIT_TILL_CONV_FINISHED env v H). reflexivity.
Qed.

Lemma main_step_WAIT (v : Vars) (h : Trace) :
  state_index v = WAIT ->
  main_step env (Running v) h
  = (Running (set_state_index v START_CONV), h ++ [Ev_sleep 60]).
Proof.
  intros H. cbn [main_step]. rewrite (main_loop_body_WAIT env v H).
  reflexivity.
Qed.

Lemma faulted_spins (n : nat) (c : Control) (h : Trace) :
  faulted c -> exists v h', main_steps env (S n) c h = (Spinning v, h').
Proof.
  intros (v & -> & Hs). exists v, (h ++ fault_trace).
  apply main_steps_default. right. rewrite Hs. unfold WAIT. lia.
Qed.

Lemma after_read_temp_first (v : Vars) (t : c_float) :
  sen_count v = 0 ->
  state_index (after_read_temp v t) = START_CONV /\
  sen_count (after_read_temp v t) = 1 /\
  ds18b20_addr (after_read_temp v t) = ds18b20_addr v.
Proof.
  intros H. unfold after_read_temp.
  cbn [sen_count set_temp set_sen_count]. rewrite H. repeat split.
Qed.

Lemma after_read_temp_second (v : Vars) (t : c_float) :
  sen_count v = 1 ->
  state_index (after_read_temp v t) = READ_DUST_CONCENTRATION /\
  sen_count (after_read_temp v t) = 0 /\
  ds18b20_addr (after_read_temp v t) = ds18b20_addr v.
Proof.
  intros H. unfold after_read_temp.
  cbn [sen_count set_temp set_sen_count]. rewrite H. repeat split.
Qed.

End Runs.

(** ** The default case *)

(** C8 (as amended): the default case of the state machine is terminal:
    once [state_index] holds no enumerator, the next pass closes the dust
    GPIO, both AIO handles and stops the one-wire UART, then spins in
    [while (1);] for ever; no later step changes the control state or the
    trace, so no acquisition state is entered again. *)
Theorem fault_is_terminal (env : Env) (v : Vars) (h : Trace) :
  state_index v < NONE \/ WAIT < state_index v ->
  main_step env (Running v) h
  = (Spinning v,
     h ++ [Ev_gpio_close dust_ir_led_pin; Ev_aio_close dust_aio_in;
           Ev_aio_close hsm_aio_in; Ev_uart_ow_stop]) /\
  forall n,
    main_steps env (S n) (Running v) h = (Spinning v, h ++ fault_trace).
Proof.
  intros H. split.
  - apply main_step_default, H.
  - intros n. apply main_steps_default, H.
Qed.

Lemma fault_is_terminal_witness :
  let v := set_state_index initial_vars (WAIT + 1) in
  (state_index v < NONE \/ WAIT < state_index v) /\
  main_steps (env_of_rig rig_ok) 1000 (Running v) []
  = (Spinning v, fault_trace).
Proof.
  intros v.
  assert (H : state_index v < NONE \/ WAIT < state_index v)
    by (right; vm_compute; reflexivity).
  split; [exact H|].
  exact (proj2 (fault_is_terminal (env_of_rig rig_ok) v [] H) 999%nat).
Defined.

(** C8 as stated fails: on the rig whose first scratchpad is corrupted the
    program reaches the default case, and the pass that enters the spin
    releases the handles instead of keeping them. *)
Lemma fault_keeps_handles_counterexample :
  let r := main (env_of_rig rig_crc_bad) 5 [] in
  (exists v, fst r = Spinning v /\ state_index v = WAIT + 1) /\
  ~ (filter is_release_event (snd r) = []) /\
  filter is_release_event (snd r)
  = [Ev_gpio_close dust_ir_led_pin; Ev_aio_close dust_aio_in;
     Ev_aio_close hsm_aio_in; Ev_uart_ow_stop].
Proof.
  intros r. split; [|split].
  - exists (vars_of (fst r)). split; vm_compute; reflexivity.
  - vm_compute. discriminate.
  - vm_compute. reflexivity.
Qed.

(** ** Decode errors and the cycle *)

(** C7 (as amended): a decode-level error is not local to one reading.
    When the scratchpad read in [READ_TEMP] fails its CRC, the pass makes
    no call to the store and leaves [temp] as it was (no value is
    fabricated), but it sets the machine for the default case: the next
    pass releases the handles and the program spins for ever, so no later
    reading and no later cycle takes place.  The dust batch is treated the
    same way once its error flag is set: no mean, no store, default case. *)
Theorem decode_error_halts (env : Env) (v : Vars) (h : Trace) :
  (state_index v = READ_TEMP ->
   let cmd := Ev_uart_ow_command CMD_READ_SCRATCHPAD
                (addr_row (ds18b20_addr v) (sen_count v)) in
   let sp := fst (read_scratchpad env (Z.to_nat ds18b20_scratchpad_len)
                    (h ++ [cmd])) in
   mraa_uart_ow_crc8 env sp DS18B20_ADDR_LEN <> nth 8 sp 0 ->
   exists v' d,
     main_step env (Running v) h = (Running v', h ++ d) /\
     state_index v' = WAIT + 1 /\
     temp v' = temp v /\
     filter is_db_event d = [] /\
     forall n,
       main_steps env (S (S n)) (Running v) h
       = (Spinning v', (h ++ d) ++ fault_trace)) /\
  (dust_data_coll_err v <> 0 ->
   dust_batch_finish env v h = (Running (set_state_index v (WAIT + 1)), h) /\
   forall n,
     main_steps env (S n) (Running (set_state_index v (WAIT + 1))) h
     = (Spinning (set_state_index v (WAIT + 1)), h ++ fault_trace)).
Proof.
  split.
  - intros Hs cmd sp Hcrc.
    destruct (case_READ_TEMP_spec env v h)
      as (sp' & d & Er & _ & _ & Hd & Hcases).
    fold cmd in Er, Hcases. cbv zeta in Hcases.
    assert (Esp : sp = sp') by (unfold sp; rewrite Er; reflexivity).
    rewrite <- Esp in Hcases.
    destruct Hcases as [[_ E]|[(Hok & _)|(Hok & _)]];
      try (exfalso; exact (Hcrc Hok)).
    eexists. exists (cmd :: d).
    assert (Estep : main_step env (Running v) h = case_READ_TEMP env v h).
    { cbn [main_step]. rewrite (main_loop_body_READ_TEMP env v Hs).
      reflexivity. }
    rewrite Estep, E.
    split; [reflexivity|]. split; [reflexivity|]. split; [reflexivity|].
    split.
    + cbn [filter is_db_event].
      apply (proj2 (read_bytes_milestones d Hd)).
    + intros n. rewrite main_steps_S, Estep, E.
      apply main_steps_default. right. reflexivity.
  - intros Herr. split.
    + unfold dust_batch_finish.
      destruct (Z.eqb_spec (dust_data_coll_err v) 0); [contradiction|].
      reflexivity.
    + intros n. apply main_steps_default. right. reflexivity.
Qed.

Lemma decode_error_halts_witness :
  let env := env_of_rig rig_crc_bad in
  let start := main env 3 [] in
  let v := vars_of (fst start) in
  let h := snd start in
  let vd := set_dust_data_coll_err v 1 in
  state_index v = READ_TEMP /\
  dust_data_coll_err vd <> 0 /\
  (exists v', fst (main_steps env 100 (Running v) h) = Spinning v') /\
  fst (dust_batch_finish env vd h) = Running (set_state_index vd (WAIT + 1)).
Proof.
  intros env start v h vd.
  assert (Hs : state_index v = READ_TEMP) by (vm_compute; reflexivity).
  assert (He : dust_data_coll_err vd <> 0) by (vm_compute; discriminate).
  split; [exact Hs|]. split; [exact He|].
  split.
  - destruct (proj1 (decode_error_halts env v h) Hs) as (v' & d & _ & _ & _ & _ & Hn).
    { vm_compute. discriminate. }
    exists v'. rewrite (Hn 98%nat). reflexivity.
  - rewrite (proj1 (proj2 (decode_error_halts env vd h) He)). reflexivity.
Defined.

Lemma main_add (env : Env) (n m : nat) (h : Trace) :
  main env (n + m) h
  = let (c, h') := main env n h in main_steps env m c h'.
Proof.
  unfold main, bind. destruct (main_startup env h) as [c0 h0].
  apply main_steps_add.
Qed.

(** A program that spins after [n] steps is found the same at every later
    step. *)
Lemma main_spins_for_ever (env : Env) (n : nat) (h h' : Trace) (v : Vars) :
  main env n h = (Spinning v, h') ->
  forall m, (n <= m)%nat -> main env m h = (Spinning v, h').
Proof.
  intros E m Hm. replace m with (n + (m - n))%nat by lia.
  rewrite main_add, E. apply main_steps_stuck. discriminate.
Qed.

(** C7 as stated fails: on the rig whose first scratchpad is corrupted, the
    program is never again in an acquisition state after the failed read
    (the fourth pass), and nothing is ever stored: the second probe, the
    dust sensor and the humidity sensor are not read. *)
Lemma decode_error_is_local_counterexample :
  ~ (exists n v, (4 <= n)%nat /\
                 fst (main (env_of_rig rig_crc_bad) n []) = Running v /\
                 NONE <= state_index v <= WAIT) /\
  ~ (exists n, db_inserts (snd (main (env_of_rig rig_crc_bad) n [])) <> []).
Proof.
  pose (r5 := main (env_of_rig rig_crc_bad) 5 []).
  assert (E5 : main (env_of_rig rig_crc_bad) 5 []
               = (Spinning (vars_of (fst r5)), snd r5))
    by (vm_compute; reflexivity).
  pose proof (main_spins_for_ever _ _ _ _ _ E5) as Hlater.
  split.
  - intros (n & v & Hn & E & Hs).
    destruct (Nat.eq_dec n 4) as [->|Hne].
    + vm_compute in E. injection E as <-. vm_compute in Hs.
      destruct Hs as [_ Hs]. apply Hs. reflexivity.
    + rewrite (Hlater n) in E by lia. discriminate E.
  - intros (n & Hn). apply Hn.
    destruct (Nat.le_gt_cases 5 n) as [Hge|Hlt].
    + rewrite (Hlater n Hge). vm_compute. reflexivity.
    + do 5 (destruct n as [|n]; [vm_compute; reflexivity|]). lia.
Qed.

(** ** The dust sampler *)

(** C9: [gp2y_read_dust_output_voltage_float] never returns a value the
    controller finds negative: a failed pin write gives 0.0, a value a
    genuine zero sample also gives, and otherwise it gives
    [(raw/1023.0)*5.0] of an unsigned count.  So the controller's test
    [dust_concentration >= 0.0] always holds, its error branch is never
    taken, and [dust_data_coll_err] is never set during the batch. *)
Theorem gp2y_never_negative (env : Env) (h : Trace) :
  (exists x d,
     gp2y_read_dust_output_voltage_float env h = (x, h ++ d) /\
     f_ge (f64_of_f32 x) d_0_0 = true /\
     (existsb is_failed_pin_write d = true -> x = f32_of_f64 d_0_0) /\
     (existsb is_failed_pin_write d = false ->
      exists raw, In (Ev_aio_read dust_aio_in raw) d /\
                  x = adc_voltage (to_uint16 raw))) /\
  adc_voltage 0 = f32_of_f64 d_0_0 /\
  (forall v,
     dust_data_coll_err
       (dust_accumulate v (fst (gp2y_read_dust_output_voltage_float env h)))
     = dust_data_coll_err v) /\
  (forall n v,
     dust_data_coll_err (fst (dust_sample_loop env n v h))
     = dust_data_coll_err v) /\
  (forall v, exists v',
     fst (case_READ_DUST_CONCENTRATION env v h) = Running v' /\
     dust_data_coll_err v' = 0).
Proof.
  destruct (gp2y_spec env h) as (x & d & E & _ & Hx & Hfail & Hok).
  split.
  { exists x, d. split; [exact E|]. split.
    - apply is_nonneg_ge_zero, f64_of_f32_nonneg, Hx.
    - split; assumption. }
  split; [vm_compute; reflexivity|].
  split.
  { intros v. rewrite E. cbn [fst].
    destruct (dust_accumulate_frame v x Hx) as [(_&_&_&_&_&He) _]. exact He. }
  split.
  { intros n v.
    destruct (dust_sample_loop_spec env n v h) as (vl & dl & El & _ & Hfr).
    rewrite El. cbn [fst]. destruct Hfr as (_&_&_&_&_&He). exact He. }
  intros v.
  destruct (case_READ_DUST_CONCENTRATION_spec env v h)
    as (vl & dl & _ & _ & Hfr & Hcases).
  cbv zeta in Hcases.
  assert (He : dust_data_coll_err vl = 0).
  { destruct Hfr as (_&_&_&_&_&He). exact He. }
  destruct Hcases as [Ec|(df & _ & Ec)]; rewrite Ec; eexists;
    (split; [reflexivity|exact He]).
Qed.

(** C3 fails on the code: on the rig where the LED-on write of the fifth
    dust sample fails, the batch is not marked failed; it is averaged with a
    0.0 in place of the sample (mean 1.3746 V instead of 1.4663 V), the
    density is stored under id 3 and the machine goes on to
    [READ_HUMIDITY]. *)
Theorem failed_sample_is_persisted :
  let r := main (env_of_rig rig_pin_fail) 8 [] in
  existsb is_failed_pin_write (snd r) = true /\
  (exists v, fst r = Running v /\ state_index v = READ_HUMIDITY /\
             dust_data_coll_err v = 0) /\
  map fst (db_inserts (snd r)) = [1; 2; NUM_OF_SENSORS + 1] /\
  (forall x, In (NUM_OF_SENSORS + 1, x) (db_inserts (snd r)) ->
             (SF2Q x < 14 # 100)%Q) /\
  (forall x,
     In (NUM_OF_SENSORS + 1, x)
        (db_inserts (snd (main (env_of_rig rig_ok) 8 []))) ->
     (14 # 100 < SF2Q x)%Q).
Proof.
  intros r. split; [vm_compute; reflexivity|]. split.
  { exists (vars_of (fst r)).
    split; [vm_compute; reflexivity|].
    split; vm_compute; reflexivity. }
  split; [vm_compute; reflexivity|]. split.
  - intros x Hin.
    assert (E : db_inserts (snd r)
                = [(1, S754_finite false 13107200 (-19));
                   (2, S754_finite true 14417920 (-18));
                   (3, S754_finite false 8962894 (-26))])
      by (vm_compute; reflexivity).
    rewrite E in Hin. cbn [In] in Hin.
    destruct Hin as [H|[H|[H|[]]]]; try discriminate H.
    injection H as <-. vm_compute. reflexivity.
  - intros x Hin.
    assert (E : db_inserts (snd (main (env_of_rig rig_ok) 8 []))
                = [(1, S754_finite false 13107200 (-19));
                   (2, S754_finite true 14417920 (-18));
                   (3, S754_finite false 10023240 (-26))])
      by (vm_compute; reflexivity).
    rewrite E in Hin. cbn [In] in Hin.
    destruct Hin as [H|[H|[H|[]]]]; try discriminate H.
    injection H as <-. vm_compute. reflexivity.
Qed.

(** C10 fails on the code: a data error reported by the first ROM search is
    overwritten by the result of the search that continues it; when that
    one succeeds, the start-up stops nothing, returns nothing, and the
    program enters the acquisition loop with the unread ROM code as its
    first probe. *)
Theorem data_error_of_first_search_is_lost :
  let r := main_startup (env_of_rig rig_data_error) [] in
  In (Ev_uart_ow_rom_search NEW_SEARCH MRAA_ERROR_UART_OW_DATA_ERROR
        (repeat 0xFF 8)) (snd r) /\
  ~ In Ev_uart_ow_stop (snd r) /\
  (exists v, fst r = Running v /\ state_index v = NONE /\
             addr_row (ds18b20_addr v) 0 = repeat 0xFF 8) /\
  (exists v, fst (main (env_of_rig rig_data_error) 2 []) = Running v /\
             state_index v = WAIT_TILL_CONV_FINISHED).
Proof.
  intros r.
  assert (E : snd r
    = [Ev_uart_ow_init 0 true; Ev_uart_ow_reset MRAA_SUCCESS;
       Ev_uart_ow_rom_search 1 MRAA_ERROR_UART_OW_DATA_ERROR (repeat 0xFF 8);
       Ev_uart_ow_rom_search 0 MRAA_SUCCESS rom_B;
       Ev_gpio_init 4 true; Ev_gpio_dir 4 MRAA_SUCCESS;
       Ev_aio_init 0 true; Ev_aio_init 1 true])
    by (vm_compute; reflexivity).
  rewrite E. split; [cbn; auto|]. split.
  - cbn [In]. intros H.
    repeat (destruct H as [H|H]; [discriminate H|]). exact H.
  - split.
    + exists (vars_of (fst r)).
      split; [vm_compute; reflexivity|].
      split; vm_compute; reflexivity.
    + exists (vars_of (fst (main (env_of_rig rig_data_error) 2 []))).
      split; vm_compute; reflexivity.
Qed.

(** ** The dust response curve *)

Lemma SFcompare_swap (x y : spec_float) :
  SFcompare y x = match SFcompare x y with
                  | Some c => Some (CompOpp c)
                  | None => None
                  end.
Proof.
  destruct x as [[]|[]| |[] mx ex], y as [[]|[]| |[] my ey];
    cbv beta iota delta [SFcompare]; try reflexivity;
    rewrite (Z.compare_antisym ex ey);
    pose proof (Pos.compare_cont_antisym mx my Eq) as H;
    change (CompOpp Eq) with Eq in H; rewrite <- H;
    destruct (ex ?= ey); destruct (Pos.compare_cont Eq mx my); reflexivity.
Qed.

Lemma f_gt_compare (x y : spec_float) :
  f_gt x y = true <-> SFcompare x y = Some Gt.
Proof.
  unfold f_gt, SFltb. rewrite (SFcompare_swap x y).
  destruct (SFcompare x y) as [[]|]; cbn [CompOpp]; split; congruence.
Qed.

Lemma f_le_compare (x y : spec_float) :
  f_le x y = true <-> SFcompare x y = Some Lt \/ SFcompare x y = Some Eq.
Proof.
  unfold f_le, SFleb.
  destruct (SFcompare x y) as [[]|]; split; intros H; auto;
    try discriminate H; destruct H as [H|H]; discriminate H.
Qed.

Lemma d_0_6_eq : d_0_6 = S754_finite false 5404319552844595 (-53).
Proof. vm_compute. reflexivity. Qed.

Lemma d_3_5_eq : d_3_5 = S754_finite false 7881299347898368 (-51).
Proof. vm_compute. reflexivity. Qed.

(** Above 3.5 is above 0.6, for every value a [double] can hold. *)
Lemma above_3_5_above_0_6 (a : c_double) :
  SFcompare a d_3_5 = Some Gt -> SFcompare a d_0_6 = Some Gt.
Proof.
  rewrite d_3_5_eq, d_0_6_eq.
  destruct a as [[]|[]| |[] m e]; cbv beta iota delta [SFcompare];
    try discriminate; try reflexivity.
  destruct (Z.compare_spec e (-51)) as [->|Hlt|Hgt]; try discriminate.
  - intros _. reflexivity.
  - intros _. destruct (Z.compare_spec e (-53)); try lia. reflexivity.
Qed.

Lemma compare_with_finite_total (a : c_double) (s : bool) (m : positive)
  (e : Z) :
  is_nan_SF a = false -> exists c, SFcompare a (S754_finite s m e) = Some c.
Proof.
  destruct a as [[]|[]| |[] ma ea]; cbn [is_nan_SF SFcompare];
    try discriminate; intros _; eexists; reflexivity.
Qed.

(** ** The humidity response curve *)

Lemma humidity_all : range_all humidity_check (Z.to_nat 1024) 0 = true.
Proof. vm_cast_no_check (eq_refl true). Qed.

(** C6: for every ADC count in 0..1023, [hsm_read_humidity_float] returns
    [1.253*v^2 + 25.931*v - 7.542] at [v = raw/1023.0*5.0], computed in
    floating point: a finite value within 0.00002 of the exact rational
    formula.  At voltage 2.0 the curve gives the [float] nearest to
    49.332, the exact value of the formula there.  The function has no
    failure path: in every environment it reads the pin once and returns
    the curve of what it read, and does nothing else. *)
Theorem hsm_read_humidity_formula (env : Env) (h : Trace) (raw : Z) :
  to_uint16 (env_aio_read env h hsm_aio_in) = raw ->
  0 <= raw <= 1023 ->
  exists x,
    hsm_read_humidity_float env h
    = (x, h ++ [Ev_aio_read hsm_aio_in (env_aio_read env h hsm_aio_in)]) /\
    x = hsm_curve (adc_voltage raw) /\
    is_finite_SF x = true /\
    (SF2Q x - humidity_formula (voltage_formula raw) <= 1 # 50000)%Q /\
    (humidity_formula (voltage_formula raw) - SF2Q x <= 1 # 50000)%Q /\
    hsm_curve (f32_of_Z 2) = f32_of_f64 (dlit 49332 1000) /\
    (humidity_formula 2 == 49332 # 1000)%Q.
Proof.
  intros Hraw Hrange.
  exists (hsm_curve (adc_voltage raw)).
  split.
  { unfold hsm_read_humidity_float, bind, mraa_aio_read, ask, ret.
    rewrite Hraw. reflexivity. }
  split; [reflexivity|].
  pose proof (range_all_spec _ _ _ humidity_all raw) as H.
  rewrite Z2Nat.id in H by lia. specialize (H ltac:(lia)).
  unfold humidity_check in H.
  apply andb_prop in H as [H Hlo]. apply andb_prop in H as [Hfin Hhi].
  apply Qle_bool_iff in Hlo, Hhi.
  split; [exact Hfin|]. split; [exact Hhi|]. split; [exact Hlo|].
  split; [vm_compute; reflexivity|].
  apply Qeq_bool_iff. vm_compute. reflexivity.
Qed.

Lemma hsm_read_humidity_formula_witness :
  let env := env_of_rig rig_ok in
  to_uint16 (env_aio_read env [] hsm_aio_in) = 409 /\
  0 <= 409 <= 1023 /\
  exists x, fst (hsm_read_humidity_float env []) = x /\
            (SF2Q x - humidity_formula (voltage_formula 409) <= 1 # 50000)%Q.
Proof.
  intros env.
  assert (H1 : to_uint16 (env_aio_read env [] hsm_aio_in) = 409)
    by (vm_compute; reflexivity).
  assert (H2 : 0 <= 409 <= 1023) by lia.
  split; [exact H1|]. split; [exact H2|].
  destruct (hsm_read_humidity_formula env [] 409 H1 H2)
    as (x & E & _ & _ & Hq & _).
  exists x. split; [rewrite E; reflexivity|exact Hq].
Defined.

(** ** Witnesses of the scratchpad decode *)

Lemma is_byte_Forall (sp : list Z) :
  forallb is_byte sp = true -> Forall (fun b => 0 <= b < 256) sp.
Proof.
  induction sp as [|b sp IH]; [constructor|].
  cbn [forallb]. intros H. apply andb_prop in H as [Hb Hsp].
  constructor; [|exact (IH Hsp)].
  unfold is_byte in Hb. apply andb_prop in Hb as [H0 H1].
  apply Z.leb_le in H0. apply Z.ltb_lt in H1. lia.
Qed.

Lemma ds18b20_decode_valid_frame_witness :
  let env := env_of_rig rig_ok in
  let sp := scratchpad_of 0x90 0x01 in
  length sp = 9%nat /\
  Forall (fun b => 0 <= b < 256) sp /\
  mraa_uart_ow_crc8 env sp DS18B20_ADDR_LEN = nth 8 sp 0 /\
  temp_adc_val sp = twos_complement16 (nth 0 sp 0 + 256 * nth 1 sp 0) /\
  exists t, ds18b20_decode env sp (S754_zero false) = (SUCCESS, t) /\
            (SF2Q t == inject_Z (twos_complement16 0x0190) * (625 # 10000))%Q.
Proof.
  intros env sp.
  assert (H1 : length sp = 9%nat) by (vm_compute; reflexivity).
  assert (H2 : Forall (fun b => 0 <= b < 256) sp)
    by (apply is_byte_Forall; vm_compute; reflexivity).
  assert (H3 : mraa_uart_ow_crc8 env sp DS18B20_ADDR_LEN = nth 8 sp 0)
    by (vm_compute; reflexivity).
  split; [exact H1|]. split; [exact H2|]. split; [exact H3|].
  destruct (ds18b20_decode_valid_frame env sp (S754_zero false) H1 H2 H3)
    as (_ & _ & _ & _ & Hv & (t & Et & _ & Hq) & _).
  split; [exact Hv|].
  exists t. split; [exact Et|]. exact Hq.
Defined.

(** C1 as stated fails on its last example: a valid scratchpad with lsb
    0xFF and msb 0xFE decodes, successfully, to a value that is not
    -0.0625; it is -16.0625. *)
Lemma ds18b20_decode_example_counterexample :
  let r := ds18b20_decode (env_of_rig rig_ok) (scratchpad_of 0xFF 0xFE)
             (S754_zero false) in
  fst r = SUCCESS /\
  ~ (SF2Q (snd r) == - (625 # 10000))%Q /\
  (SF2Q (snd r) == - (160625 # 10000))%Q.
Proof.
  intros r. split; [vm_compute; reflexivity|]. split.
  - intros H. apply Qeq_bool_iff in H. vm_compute in H. discriminate H.
  - apply Qeq_bool_iff. vm_compute. reflexivity.
Qed.

Lemma ds18b20_crc_mismatch_witness :
  let env := env_of_rig rig_crc_bad in
  let sp := corrupt (scratchpad_of 0x90 0x01) in
  length sp = 9%nat /\
  mraa_uart_ow_crc8 env sp DS18B20_ADDR_LEN <> nth 8 sp 0 /\
  ds18b20_decode env sp (f32_of_Z 7) = (FAIL, f32_of_Z 7).
Proof.
  intros env sp.
  assert (H1 : length sp = 9%nat) by (vm_compute; reflexivity).
  assert (H2 : mraa_uart_ow_crc8 env sp DS18B20_ADDR_LEN <> nth 8 sp 0)
    by (vm_compute; discriminate).
  split; [exact H1|]. split; [exact H2|].
  exact (proj1 (ds18b20_crc_mismatch env sp (f32_of_Z 7) H1 H2)).
Defined.

(* ================================================================== *)
(** * Further properties of the code *)

(** ** The store *)

Lemma count_app (p : Event -> bool) (a b : Trace) :
  count p (a ++ b) = (count p a + count p b)%nat.
Proof. unfold count. rewrite filter_app, length_app. reflexivity. Qed.

(** X2: the query buffer is freed exactly when the call succeeds.  When
    [sqlite3_exec] fails, the buffer [malloc] returned is not freed on the
    way out; when the open or the [malloc] itself fails there is nothing
    to free. *)
Theorem store_data_to_db_buffer
  (env : Env) (sen_id : Z) (sen_val : c_float) (h : Trace) :
  exists r d,
    store_data_to_db env sen_id sen_val h = (r, h ++ d) /\
    (r = SUCCESS ->
     count is_malloc_ok_event d = 1%nat /\ count is_free_event d = 1%nat) /\
    (r = FAIL -> count is_free_event d = 0%nat) /\
    (In (Ev_sqlite3_exec sen_id sen_val SQLITE_ERROR) d ->
     r = FAIL /\ count is_malloc_ok_event d = 1%nat /\
     count is_free_event d = 0%nat) /\
    (r = FAIL -> count is_exec_event d = 0%nat ->
     count is_malloc_ok_event d = 0%nat).
Proof.
  destruct (store_data_to_db_spec env sen_id sen_val h)
    as [E|(d & E & [-> | [-> | ->]])]; rewrite E; do 2 eexists;
    (split; [reflexivity|]); cbn [count filter length store_trace_ok
      store_trace_open_failed store_trace_malloc_failed
      store_trace_exec_failed is_malloc_ok_event is_free_event
      is_exec_event In].
  - split; [auto|]. split; [discriminate|]. split; [|discriminate].
    intros [H|[H|[H|[H|[H|[]]]]]]; discriminate H.
  - split; [discriminate|]. split; [auto|]. split; [|auto].
    intros [H|[H|[]]]; discriminate H.
  - split; [discriminate|]. split; [auto|]. split; [|auto].
    intros [H|[H|[H|[]]]]; discriminate H.
  - split; [discriminate|]. split; [auto|]. split; [auto|].
    intros _ H. discriminate H.
Qed.

(** ** The dust batch *)

(** The three traces one dust sample can leave. *)
Lemma gp2y_shapes (env : Env) (h : Trace) :
  exists r1 raw r2,
    (mraa_result_eqb MRAA_SUCCESS r1 = false /\
     gp2y_read_dust_output_voltage_float env h
     = (f32_of_f64 d_0_0, h ++ [Ev_gpio_write dust_ir_led_pin 1 r1])) \/
    (mraa_result_eqb MRAA_SUCCESS r2 = false /\
     gp2y_read_dust_output_voltage_float env h
     = (f32_of_f64 d_0_0,
        h ++ [Ev_gpio_write dust_ir_led_pin 1 MRAA_SUCCESS; Ev_usleep 280;
              Ev_aio_read dust_aio_in raw; Ev_usleep 40;
              Ev_gpio_write dust_ir_led_pin 0 r2])) \/
    gp2y_read_dust_output_voltage_float env h
    = (adc_voltage (to_uint16 raw),
       h ++ [Ev_gpio_write dust_ir_led_pin 1 MRAA_SUCCESS; Ev_usleep 280;
             Ev_aio_read dust_aio_in raw; Ev_usleep 40;
             Ev_gpio_write dust_ir_led_pin 0 MRAA_SUCCESS; Ev_usleep 9680]).
Proof.
  unfold gp2y_read_dust_output_voltage_float, bind, mraa_gpio_write,
    mraa_aio_read, usleep, ask, emit, ret.
  set (r1 := env_gpio_write env h dust_ir_led_pin 1).
  exists r1.
  destruct (mraa_result_eqb MRAA_SUCCESS r1) eqn:E1; cbn [negb].
  2:{ exists 0, MRAA_SUCCESS. left. auto. }
  assert (R1 : r1 = MRAA_SUCCESS) by (destruct r1; try discriminate E1; reflexivity).
  rewrite R1.
  set (h2 := (h ++ [Ev_gpio_write dust_ir_led_pin 1 MRAA_SUCCESS])
             ++ [Ev_usleep 280]).
  set (raw := env_aio_read env h2 dust_aio_in).
  set (h4 := (h2 ++ [Ev_aio_read dust_aio_in raw]) ++ [Ev_usleep 40]).
  set (r2 := env_gpio_write env h4 dust_ir_led_pin 0).
  exists raw, r2.
  destruct (mraa_result_eqb MRAA_SUCCESS r2) eqn:E2; cbn [negb].
  - assert (R2 : r2 = MRAA_SUCCESS)
      by (destruct r2; try discriminate E2; reflexivity).
    right. right. rewrite R2. subst h4 h2. rewrite <- !app_assoc. reflexivity.
  - right. left. split; [reflexivity|].
    subst h4 h2. rewrite <- !app_assoc. reflexivity.
Qed.

Lemma to_uint8_succ (c : Z) : to_uint8 (to_uint8 c + 1) = to_uint8 (c + 1).
Proof. unfold to_uint8. rewrite Zplus_mod_idemp_l. reflexivity. Qed.

Lemma count_le (p q : Event -> bool) (d : Trace) :
  (forall e, p e = true -> q e = true) -> (count p d <= count q d)%nat.
Proof.
  intros Hpq. unfold count. induction d as [|e d IH]; [constructor|].
  cbn [filter]. destruct (p e) eqn:Ep.
  - rewrite (Hpq e Ep). cbn [length]. lia.
  - destruct (q e); cbn [length]; lia.
Qed.

Lemma dust_sample_loop_counts (env : Env) (n : nat) :
  forall v h,
    0 <= dust_sensor_sample_count v < 256 ->
    exists vl d,
      dust_sample_loop env n v h = (vl, h ++ d) /\
      count is_led_on_event d = n /\
      count is_dust_read_event d = count is_led_on_ok_event d /\
      dust_sensor_sample_count vl
      = to_uint8 (dust_sensor_sample_count v + Z.of_nat n).
Proof.
  induction n as [|n IH]; intros v h Hrange.
  - exists v, []. cbn [dust_sample_loop]. unfold ret. rewrite app_nil_r.
    rewrite Z.add_0_r. unfold to_uint8. rewrite Z.mod_small by lia. auto.
  - cbn [dust_sample_loop]. unfold bind.
    set (next := fun x =>
           set_dust_sensor_sample_count (dust_accumulate v x)
             (to_uint8 (dust_sensor_sample_count (dust_accumulate v x) + 1))).
    assert (Hc : forall x, dust_sensor_sample_count (next x)
                           = to_uint8 (dust_sensor_sample_count v + 1)).
    { intros x. unfold next, dust_accumulate.
      destruct (f_ge (f64_of_f32 x) d_0_0); reflexivity. }
    destruct (gp2y_shapes env h) as (r1 & raw & r2 & Hs).
    assert (Hd1 : exists x d1,
               gp2y_read_dust_output_voltage_float env h = (x, h ++ d1) /\
               count is_led_on_event d1 = 1%nat /\
               count is_dust_read_event d1 = count is_led_on_ok_event d1).
    { destruct Hs as [[Hr E]|[[Hr E]|E]]; rewrite E; do 2 eexists;
        (split; [reflexivity|]).
      - destruct r1; try discriminate Hr; split; reflexivity.
      - destruct r2; try discriminate Hr; split; reflexivity.
      - split; reflexivity. }
    destruct Hd1 as (x & d1 & E1 & Hon & Hrd). rewrite E1.
    fold (next x).
    destruct (IH (next x) (h ++ d1)) as (vl & d2 & E2 & Hon2 & Hrd2 & Hcnt).
    { rewrite Hc. apply to_uint8_range. }
    rewrite E2. exists vl, (d1 ++ d2). rewrite app_assoc.
    split; [reflexivity|]. rewrite !count_app, Hon, Hon2, Hrd, Hrd2.
    split; [reflexivity|]. split; [reflexivity|].
    rewrite Hcnt, Hc, Nat2Z.inj_succ.
    unfold to_uint8. rewrite Zplus_mod_idemp_l. f_equal. lia.
Qed.

(** X3: a dust batch always makes its 16 sample attempts: whatever the pin
    writes report, [READ_DUST_CONCENTRATION] switches the LED on 16 times,
    reads the ADC once for each of those writes that succeeded and for no
    other, and leaves the sample counter at 16.  A failed sample does not
    end the batch early. *)
Theorem dust_batch_takes_16_samples (env : Env) (v : Vars) (h : Trace) :
  exists v' d,
    case_READ_DUST_CONCENTRATION env v h = (Running v', h ++ d) /\
    count is_led_on_event d = 16%nat /\
    count is_dust_read_event d = count is_led_on_ok_event d /\
    (count is_dust_read_event d <= 16)%nat /\
    dust_sensor_sample_count v' = dust_sensor_max_sample.
Proof.
  destruct (case_READ_DUST_CONCENTRATION_spec env v h)
    as (vl & d & El & _ & _ & Hcases).
  destruct (dust_sample_loop_counts env (Z.to_nat dust_sensor_max_sample)
              (dust_batch_start v) h) as (vl' & d' & El' & Hon & Hrd & Hcnt).
  { cbn. lia. }
  rewrite El in El'. injection El' as <- Hd.
  apply app_inv_head in Hd. subst d'.
  change (to_uint8 (dust_sensor_sample_count (dust_batch_start v)
                    + Z.of_nat (Z.to_nat dust_sensor_max_sample)))
    with dust_sensor_max_sample in Hcnt.
  assert (Hle : (count is_led_on_ok_event d <= count is_led_on_event d)%nat).
  { apply count_le. intros [] He; try discriminate He.
    cbn [is_led_on_ok_event is_led_on_event] in *.
    apply andb_prop in He as [He _]. exact He. }
  cbv zeta in Hcases.
  assert (Hdb : forall t, (t = store_trace_ok (NUM_OF_SENSORS + 1)
                                 (dust_density (dust_mean vl)) \/
                           store_failure_trace (NUM_OF_SENSORS + 1)
                                 (dust_density (dust_mean vl)) t) ->
                count is_led_on_event t = 0%nat /\
                count is_dust_read_event t = 0%nat /\
                count is_led_on_ok_event t = 0%nat).
  { intros t [-> | [-> | [-> | ->]]]; repeat split. }
  destruct Hcases as [E|(df & Hdf & E)]; rewrite E; do 2 eexists;
    (rewrite <- app_assoc; split; [reflexivity|]);
    rewrite !count_app.
  - destruct (Hdb _ (or_introl eq_refl)) as (H1 & H2 & H3).
    rewrite H1, H2, H3, !Nat.add_0_r, Hon.
    split; [reflexivity|]. split; [exact Hrd|]. split; [|exact Hcnt].
    rewrite Hrd. rewrite Hon in Hle. exact Hle.
  - destruct (Hdb _ (or_intror Hdf)) as (H1 & H2 & H3).
    rewrite H1, H2, H3, !Nat.add_0_r, Hon.
    split; [reflexivity|]. split; [exact Hrd|]. split; [|exact Hcnt].
    rewrite Hrd. rewrite Hon in Hle. exact Hle.
Qed.

(** ** Start-up *)

Lemma search_other_sensors_S (env : Env) (fuel : nat) (v : Vars) :
  search_other_sensors env (S fuel) v
  = bind (mraa_uart_ow_rom_search env CONTINUE_WITH_PREV_SEARCH)
      (fun a =>
         let v := set_addr_row (set_mraa_ret_val v (fst a)) (sen_count v)
                               (snd a) in
         if mraa_result_eqb MRAA_ERROR_UART_OW_NO_DEVICES (mraa_ret_val v)
         then bind mraa_uart_ow_stop (fun _ => ret None)
         else
           let v := set_sen_count v (to_uint8 (sen_count v + 1)) in
           if negb (NUM_OF_SENSORS =? sen_count v)
           then search_other_sensors env fuel v
           else ret (Some v)).
Proof. reflexivity. Qed.

Ltac startup_reduce :=
  cbn [fst snd negb mraa_result_eqb mraa_ret_val sen_count set_sen_count
       set_addr_row set_ds18b20_addr set_mraa_ret_val initial_vars app];
  cbv beta iota.

Ltac startup_pick :=
  lazymatch goal with
  | |- _ \/ _ => first [solve [left; startup_pick] | solve [right; startup_pick]]
  | |- exists _, _ => eexists; startup_pick
  | |- _ /\ _ =>
      first [solve [split; startup_pick]
            | solve [split; [|startup_pick]; startup_pick]]
  | |- _ <> _ => discriminate
  | |- _ = _ => reflexivity
  | _ => cbv zeta; startup_pick
  end.

(** Every way through the start-up, with the trace it leaves. *)
Lemma main_startup_cases (env : Env) :
  let i0 := Ev_uart_ow_init 0 true in
  main_startup env [] = (Exited 1, [Ev_uart_ow_init 0 false]) \/
  (exists r,
     r <> MRAA_SUCCESS /\
     main_startup env []
     = (Exited 1, [i0; Ev_uart_ow_reset r; Ev_uart_ow_stop])) \/
  (exists rom1,
     main_startup env []
     = (Exited 1,
        [i0; Ev_uart_ow_reset MRAA_SUCCESS;
         Ev_uart_ow_rom_search NEW_SEARCH MRAA_ERROR_UART_OW_NO_DEVICES rom1;
         Ev_uart_ow_stop])) \/
  (exists r1 rom1 r2 rom2,
     r1 <> MRAA_ERROR_UART_OW_NO_DEVICES /\
     let pre := [i0; Ev_uart_ow_reset MRAA_SUCCESS;
                 Ev_uart_ow_rom_search NEW_SEARCH r1 rom1;
                 Ev_uart_ow_rom_search CONTINUE_WITH_PREV_SEARCH r2 rom2] in
     ((r2 = MRAA_ERROR_UART_OW_NO_DEVICES \/
       r2 = MRAA_ERROR_UART_OW_DATA_ERROR) /\
      main_startup env [] = (Exited 1, pre ++ [Ev_uart_ow_stop])) \/
     (r2 <> MRAA_ERROR_UART_OW_NO_DEVICES /\
      r2 <> MRAA_ERROR_UART_OW_DATA_ERROR /\
      (main_startup env []
       = (Exited 1,
          pre ++ [Ev_gpio_init dust_ir_led_pin false; Ev_uart_ow_stop]) \/
       (exists r,
          r <> MRAA_SUCCESS /\
          main_startup env []
          = (Exited 1,
             pre ++ [Ev_gpio_init dust_ir_led_pin true;
                     Ev_gpio_dir dust_ir_led_pin r;
                     Ev_gpio_close dust_ir_led_pin; Ev_uart_ow_stop])) \/
       main_startup env []
       = (Exited 1,
          pre ++ [Ev_gpio_init dust_ir_led_pin true;
                  Ev_gpio_dir dust_ir_led_pin MRAA_SUCCESS;
                  Ev_aio_init dust_aio_in false;
                  Ev_gpio_close dust_ir_led_pin; Ev_uart_ow_stop]) \/
       main_startup env []
       = (Exited 1,
          pre ++ [Ev_gpio_init dust_ir_led_pin true;
                  Ev_gpio_dir dust_ir_led_pin MRAA_SUCCESS;
                  Ev_aio_init dust_aio_in true; Ev_aio_init hsm_aio_in false;
                  Ev_gpio_close dust_ir_led_pin; Ev_aio_close dust_aio_in;
                  Ev_uart_ow_stop]) \/
       exists v,
         main_startup env []
         = (Running v,
            pre ++ [Ev_gpio_init dust_ir_led_pin true;
                    Ev_gpio_dir dust_ir_led_pin MRAA_SUCCESS;
                    Ev_aio_init dust_aio_in true;
                    Ev_aio_init hsm_aio_in true]) /\
         state_index v = NONE /\ sen_count v = 0 /\
         ds18b20_addr v = [rom1; rom2]))).
Proof.
  intros i0. subst i0.
  unfold main_startup, bind, mraa_uart_ow_init, mraa_uart_ow_reset,
    mraa_uart_ow_rom_search, mraa_uart_ow_stop, ask, emit, ret.
  change 256%nat with (S 255). change (NUM_OF_SENSORS >? 1) with true.
  destruct (env_uart_ow_init env []); startup_reduce; [|startup_pick].
  destruct (env_uart_ow_reset env _); startup_reduce; try startup_pick.
  destruct (env_uart_ow_rom_search env _ NEW_SEARCH) as [r1 rom1].
  destruct r1; startup_reduce; try startup_pick.
  all: rewrite search_other_sensors_S;
    unfold bind, mraa_uart_ow_rom_search, mraa_uart_ow_stop, ask, emit, ret;
    startup_reduce;
    destruct (env_uart_ow_rom_search env _ CONTINUE_WITH_PREV_SEARCH)
      as [r2 rom2];
    destruct r2; startup_reduce; try startup_pick.
  all: change (to_uint8 (to_uint8 (0 + 1) + 1)) with 2;
    change (negb (NUM_OF_SENSORS =? 2)) with false; cbv iota;
    unfold main_after_search, main_open_pins, bind, mraa_gpio_init,
      mraa_gpio_dir, mraa_aio_init, mraa_gpio_close, mraa_aio_close,
      mraa_uart_ow_stop, ask, emit, ret;
    startup_reduce;
    (destruct (env_gpio_init env _ _); startup_reduce; [|startup_pick]);
    (destruct (env_gpio_dir env _ _); startup_reduce; try startup_pick);
    (destruct (env_aio_init env _ dust_aio_in); startup_reduce;
     [|startup_pick]);
    (destruct (env_aio_init env _ hsm_aio_in); startup_reduce;
     startup_pick).
Qed.

(** X4: whenever the start-up gives up, [main] returns 1 and has given back
    exactly the handles it had obtained: the released handles are a
    permutation of the opened ones, and if anything was opened the last
    call is the stop of the one-wire UART. *)
Theorem startup_exit_releases_handles
  (env : Env) (code : Z) (h : Trace) :
  main_startup env [] = (Exited code, h) ->
  code = 1 /\
  Permutation (released h) (opened h) /\
  (opened h <> [] -> last h (Ev_sleep 0) = Ev_uart_ow_stop).
Proof.
  intros H.
  pose proof (main_startup_cases env) as C. cbv zeta in C.
  destruct C as [E|[(r & _ & E)|[(rom1 & E)|(r1 & rom1 & r2 & rom2 & _ & C)]]];
    [rewrite E in H; injection H as <- <-; cbn; repeat split; auto;
     intros []; reflexivity .. |].
  destruct C as [(_ & E)|(_ & _ & [E|[(r & _ & E)|[E|[E|(v & E & _)]]]])];
    rewrite E in H; try discriminate H; injection H as <- <-;
    cbn [app opened released last]; (split; [reflexivity|]);
    (split; [|reflexivity]).
  - apply Permutation_refl.
  - apply Permutation_refl.
  - apply perm_swap.
  - apply perm_swap.
  - apply Permutation_sym.
    apply (Permutation_cons_append
             [H_gpio dust_ir_led_pin; H_aio dust_aio_in] H_uart).
Qed.

Lemma startup_exit_releases_handles_witness :
  let h := snd (main_startup env_hsm_missing []) in
  main_startup env_hsm_missing [] = (Exited 1, h) /\
  released h = [H_gpio dust_ir_led_pin; H_aio dust_aio_in; H_uart] /\
  Permutation (released h) (opened h).
Proof.
  intros h.
  assert (E : main_startup env_hsm_missing [] = (Exited 1, h))
    by (vm_compute; reflexivity).
  split; [exact E|]. split; [vm_compute; reflexivity|].
  exact (proj1 (proj2 (startup_exit_releases_handles _ _ _ E))).
Defined.

(** X5: when the start-up enters the loop it has made exactly two ROM
    searches, a new one and one that continues it, and the probe table
    holds the two ROM codes they returned, in that order; the reset
    succeeded, neither search reported an empty bus, the second reported
    no data error, all four handles are open and none was released; the
    machine starts in state [NONE] with the probe index at 0. *)
Theorem startup_enters_loop (env : Env) (v : Vars) (h : Trace) :
  main_startup env [] = (Running v, h) ->
  exists r1 rom1 r2 rom2,
    h = [Ev_uart_ow_init 0 true; Ev_uart_ow_reset MRAA_SUCCESS;
         Ev_uart_ow_rom_search NEW_SEARCH r1 rom1;
         Ev_uart_ow_rom_search CONTINUE_WITH_PREV_SEARCH r2 rom2;
         Ev_gpio_init dust_ir_led_pin true;
         Ev_gpio_dir dust_ir_led_pin MRAA_SUCCESS;
         Ev_aio_init dust_aio_in true; Ev_aio_init hsm_aio_in true] /\
    r1 <> MRAA_ERROR_UART_OW_NO_DEVICES /\
    r2 <> MRAA_ERROR_UART_OW_NO_DEVICES /\
    r2 <> MRAA_ERROR_UART_OW_DATA_ERROR /\
    ds18b20_addr v = [rom1; rom2] /\
    state_index v = NONE /\ sen_count v = 0 /\
    opened h = [H_uart; H_gpio dust_ir_led_pin; H_aio dust_aio_in;
                H_aio hsm_aio_in] /\
    released h = [].
Proof.
  intros H.
  pose proof (main_startup_cases env) as C. cbv zeta in C.
  destruct C as [E|[(r & _ & E)|[(rom1 & E)|(r1 & rom1 & r2 & rom2 & N1 & C)]]];
    try (rewrite E in H; discriminate H).
  destruct C as [(_ & E)|(N2 & N3 & [E|[(r & _ & E)|[E|[E|(v' & E & Hs & Hc & Ha)]]]])];
    try (rewrite E in H; discriminate H).
  rewrite E in H. injection H as <- <-.
  exists r1, rom1, r2, rom2. repeat (split; [assumption || reflexivity|]).
  reflexivity.
Qed.

Lemma startup_enters_loop_witness :
  let r := main_startup (env_of_rig rig_ok) [] in
  r = (Running (vars_of (fst r)), snd r) /\
  ds18b20_addr (vars_of (fst r)) = [rom_A; rom_B].
Proof.
  intros r.
  assert (E : r = (Running (vars_of (fst r)), snd r))
    by (vm_compute; reflexivity).
  split; [exact E|].
  destruct (startup_enters_loop _ _ _ E)
    as (r1 & rom1 & r2 & rom2 & Eh & _ & _ & _ & Ea & _).
  rewrite Ea. 
  assert (Eh' : snd r = [Ev_uart_ow_init 0 true; Ev_uart_ow_reset MRAA_SUCCESS;
         Ev_uart_ow_rom_search NEW_SEARCH MRAA_SUCCESS rom_A;
         Ev_uart_ow_rom_search CONTINUE_WITH_PREV_SEARCH MRAA_SUCCESS rom_B;
         Ev_gpio_init dust_ir_led_pin true;
         Ev_gpio_dir dust_ir_led_pin MRAA_SUCCESS;
         Ev_aio_init dust_aio_in true; Ev_aio_init hsm_aio_in true])
    by (vm_compute; reflexivity).
  rewrite Eh' in Eh. injection Eh as _ <- _ <-. reflexivity.
Defined.

(** ** Invariants of the loop *)

Lemma trace_ok_nil : trace_ok [].
Proof. split; [constructor|reflexivity]. Qed.

Lemma trace_ok_app (a b : Trace) : trace_ok a -> trace_ok b -> trace_ok (a ++ b).
Proof.
  intros [Ha1 Ha2] [Hb1 Hb2]. split.
  - rewrite db_inserts_app. apply Forall_app. auto.
  - rewrite !count_app. lia.
Qed.

Lemma trace_ok_quiet (d : Trace) :
  forallb (fun e => negb (is_db_event e)) d = true -> trace_ok d.
Proof.
  induction d as [|e d IH]; [intros _; apply trace_ok_nil|].
  cbn [forallb]. intros H. apply andb_prop in H as [He Hd].
  destruct (IH Hd) as [H1 H2].
  destruct e; try discriminate He; (split; [exact H1|exact H2]).
Qed.

Lemma sampling_quiet (d : Trace) :
  forallb is_sampling_event d = true ->
  forallb (fun e => negb (is_db_event e)) d = true.
Proof.
  induction d as [|e d IH]; [reflexivity|].
  cbn [forallb]. intros H. apply andb_prop in H as [He Hd].
  rewrite (IH Hd). destruct e; try discriminate He; reflexivity.
Qed.

Lemma read_bytes_quiet (d : Trace) :
  forallb is_read_byte_event d = true ->
  forallb (fun e => negb (is_db_event e)) d = true.
Proof.
  induction d as [|e d IH]; [reflexivity|].
  cbn [forallb]. intros H. apply andb_prop in H as [He Hd].
  rewrite (IH Hd). destruct e; try discriminate He; reflexivity.
Qed.

Lemma store_trace_ok_ok (sen_id : Z) (sen_val : c_float) :
  1 <= sen_id <= NUM_OF_SENSORS + 2 ->
  trace_ok (store_trace_ok sen_id sen_val).
Proof.
  intros H. split; [|reflexivity].
  cbn [db_inserts store_trace_ok]. constructor; [exact H|constructor].
Qed.

Lemma store_failure_trace_ok (sen_id : Z) (sen_val : c_float) (d : Trace) :
  1 <= sen_id <= NUM_OF_SENSORS + 2 ->
  store_failure_trace sen_id sen_val d -> trace_ok d.
Proof.
  intros H [-> | [-> | ->]]; (split; [|reflexivity]);
    cbn [db_inserts store_trace_open_failed store_trace_malloc_failed
         store_trace_exec_failed];
    repeat (constructor; [exact H|]); constructor.
Qed.

Lemma main_loop_body_NONE (env : Env) (v : Vars) :
  state_index v = NONE ->
  main_loop_body env v = ret (Running (set_state_index v START_CONV)).
Proof. unfold main_loop_body. intros ->. reflexivity. Qed.

Lemma state_index_cases (v : Vars) :
  state_index v = NONE \/ state_index v = START_CONV \/
  state_index v = WAIT_TILL_CONV_FINISHED \/ state_index v = READ_TEMP \/
  state_index v = READ_DUST_CONCENTRATION \/ state_index v = READ_HUMIDITY \/
  state_index v = WAIT \/
  (state_index v < NONE \/ WAIT < state_index v).
Proof.
  unfold NONE, START_CONV, WAIT_TILL_CONV_FINISHED, READ_TEMP,
    READ_DUST_CONCENTRATION, READ_HUMIDITY, WAIT. lia.
Qed.

Ltac unfold_states :=
  unfold NONE, START_CONV, WAIT_TILL_CONV_FINISHED, READ_TEMP,
    READ_DUST_CONCENTRATION, READ_HUMIDITY, WAIT, NUM_OF_SENSORS in *.

Ltac index_ok Hlen :=
  split; [exact Hlen|];
  cbn [state_index sen_count ds18b20_addr set_state_index set_sen_count
       set_temp set_humidity set_acc_dust_concentration after_dust_batch];
  unfold_states; lia.

(** One pass keeps the probe index within the table, leaves the table as
    it is, and adds a well-formed stretch of trace. *)
Lemma main_step_keeps (env : Env) (v : Vars) (h : Trace) :
  probe_index_ok v ->
  exists c d,
    main_step env (Running v) h = (c, h ++ d) /\
    control_ok c /\
    table_of c = Some (ds18b20_addr v) /\
    trace_ok d.
Proof.
  intros (Hlen & Hidx & Hzero).
  destruct (state_index_cases v) as [Hs|[Hs|[Hs|[Hs|[Hs|[Hs|[Hs|Hs]]]]]]].
  - cbn [main_step]. rewrite (main_loop_body_NONE env v Hs). unfold ret.
    exists (Running (set_state_index v START_CONV)), [].
    rewrite app_nil_r. split; [reflexivity|]. split; [index_ok Hlen|].
    split; [reflexivity|apply trace_ok_nil].
  - rewrite (main_step_START_CONV env v h Hs). do 2 eexists.
    split; [reflexivity|]. split; [index_ok Hlen|].
    split; [reflexivity|]. apply trace_ok_quiet. reflexivity.
  - rewrite (main_step_WAIT_TILL_CONV_FINISHED env v h Hs). do 2 eexists.
    split; [reflexivity|]. split; [index_ok Hlen|].
    split; [reflexivity|]. apply trace_ok_quiet. reflexivity.
  - cbn [main_step]. rewrite (main_loop_body_READ_TEMP env v Hs).
    assert (Hsc : 0 <= sen_count v < 2) by (unfold_states; lia).
    assert (Hn : to_uint8 (sen_count v + 1) = sen_count v + 1)
      by (unfold to_uint8; apply Z.mod_small; lia).
    destruct (case_READ_TEMP_spec env v h)
      as (sp & d & _ & _ & _ & Hd & Hcases).
    cbv zeta in Hcases. rewrite Hn in Hcases.
    assert (Hq : trace_ok (Ev_uart_ow_command CMD_READ_SCRATCHPAD
                             (addr_row (ds18b20_addr v) (sen_count v)) :: d)).
    { apply trace_ok_quiet. cbn [forallb is_db_event negb andb].
      apply read_bytes_quiet, Hd. }
    assert (Hid : 1 <= sen_count v + 1 <= NUM_OF_SENSORS + 2)
      by (unfold NUM_OF_SENSORS; lia).
    destruct Hcases as [[_ E]|[(_ & df & Hdf & E)|[_ E]]]; rewrite E.
    + do 2 eexists. split; [reflexivity|]. split; [index_ok Hlen|].
      split; [reflexivity|exact Hq].
    + exists (Running (set_state_index
                (set_temp (set_sen_count v (sen_count v + 1))
                   (temp_scale (temp_adc_val sp))) (WAIT + 1))),
             ((Ev_uart_ow_command CMD_READ_SCRATCHPAD
                 (addr_row (ds18b20_addr v) (sen_count v)) :: d) ++ df).
      split; [rewrite <- app_assoc; reflexivity|].
      split; [index_ok Hlen|]. split; [reflexivity|].
      apply trace_ok_app; [exact Hq|].
      apply (store_failure_trace_ok _ _ _ Hid Hdf).
    + exists (Running (after_read_temp v (temp_scale (temp_adc_val sp)))),
             ((Ev_uart_ow_command CMD_READ_SCRATCHPAD
                 (addr_row (ds18b20_addr v) (sen_count v)) :: d)
              ++ store_trace_ok (sen_count v + 1)
                   (temp_scale (temp_adc_val sp))).
      split; [rewrite <- app_assoc; reflexivity|].
      unfold after_read_temp.
      cbn [sen_count set_temp set_sen_count]. rewrite Hn.
      split; [|split].
      * destruct (Z.geb_spec (sen_count v + 1) NUM_OF_SENSORS) as [Hge|Hlt];
          index_ok Hlen.
      * destruct (sen_count v + 1 >=? NUM_OF_SENSORS); reflexivity.
      * apply trace_ok_app; [exact Hq|]. apply store_trace_ok_ok, Hid.
  - cbn [main_step]. rewrite (main_loop_body_READ_DUST_CONCENTRATION env v Hs).
    assert (Hsc : sen_count v = 0) by (unfold_states; lia).
    destruct (case_READ_DUST_CONCENTRATION_spec env v h)
      as (vl & d & _ & Hd & Hfr & Hcases).
    cbv zeta in Hcases.
    destruct Hfr as (_ & Hc & Ha & _).
    change (sen_count (dust_batch_start v)) with (sen_count v) in Hc.
    change (ds18b20_addr (dust_batch_start v)) with (ds18b20_addr v) in Ha.
    assert (Hlen' : length (ds18b20_addr vl) = Z.to_nat NUM_OF_SENSORS)
      by (rewrite Ha; exact Hlen).
    assert (Hq : trace_ok d) by (apply trace_ok_quiet, sampling_quiet, Hd).
    assert (Hid : 1 <= NUM_OF_SENSORS + 1 <= NUM_OF_SENSORS + 2)
      by (unfold NUM_OF_SENSORS; lia).
    destruct Hcases as [E|(df & Hdf & E)]; rewrite E;
      rewrite <- app_assoc; do 2 eexists; (split; [reflexivity|]).
    + split; [index_ok Hlen'|].
      split; [cbn; rewrite Ha; reflexivity|].
      apply trace_ok_app; [exact Hq|]. apply store_trace_ok_ok, Hid.
    + split; [index_ok Hlen'|].
      split; [cbn; rewrite Ha; reflexivity|].
      apply trace_ok_app; [exact Hq|].
      apply (store_failure_trace_ok _ _ _ Hid Hdf).
  - cbn [main_step]. rewrite (main_loop_body_READ_HUMIDITY env v Hs).
    assert (Hsc : sen_count v = 0) by (unfold_states; lia).
    assert (Hid : 1 <= NUM_OF_SENSORS + 2 <= NUM_OF_SENSORS + 2)
      by (unfold NUM_OF_SENSORS; lia).
    destruct (case_READ_HUMIDITY_spec env v h) as [E|(df & Hdf & E)];
      rewrite E; rewrite <- app_assoc; do 2 eexists;
      (split; [reflexivity|]).
    + split; [index_ok Hlen|]. split; [reflexivity|].
      apply (trace_ok_app [_]); [apply trace_ok_quiet; reflexivity|].
      apply store_trace_ok_ok, Hid.
    + split; [index_ok Hlen|]. split; [reflexivity|].
      apply (trace_ok_app [_]); [apply trace_ok_quiet; reflexivity|].
      apply (store_failure_trace_ok _ _ _ Hid Hdf).
  - rewrite (main_step_WAIT env v h Hs). do 2 eexists.
    split; [reflexivity|]. split; [index_ok Hlen|].
    split; [reflexivity|]. apply trace_ok_quiet. reflexivity.
  - rewrite (main_step_default env v h Hs). do 2 eexists.
    split; [reflexivity|]. split; [exact I|].
    split; [reflexivity|]. apply trace_ok_quiet. reflexivity.
Qed.

Lemma main_steps_keep (env : Env) (n : nat) :
  forall c h,
    control_ok c ->
    exists c' d,
      main_steps env n c h = (c', h ++ d) /\
      control_ok c' /\
      (forall t, table_of c = Some t -> table_of c' = Some t) /\
      trace_ok d.
Proof.
  induction n as [|n IH]; intros c h Hc.
  - exists c, []. cbn. rewrite app_nil_r.
    split; [reflexivity|]. split; [exact Hc|]. split; [auto|apply trace_ok_nil].
  - rewrite main_steps_S. destruct c as [v|v|code].
    + destruct (main_step_keeps env v h Hc) as (c1 & d1 & E1 & Hc1 & Ht1 & Hd1).
      rewrite E1.
      destruct (IH c1 (h ++ d1) Hc1) as (c2 & d2 & E2 & Hc2 & Ht2 & Hd2).
      rewrite E2. exists c2, (d1 ++ d2). rewrite app_assoc.
      split; [reflexivity|]. split; [exact Hc2|]. split.
      * intros t Ht. cbn [table_of] in Ht. injection Ht as <-.
        apply Ht2, Ht1.
      * apply trace_ok_app; assumption.
    + cbn [main_step]. unfold ret.
      destruct (IH (Spinning v) h I) as (c2 & d2 & E2 & Hc2 & Ht2 & Hd2).
      rewrite E2. exists c2, d2. auto.
    + cbn [main_step]. unfold ret.
      destruct (IH (Exited code) h I) as (c2 & d2 & E2 & Hc2 & Ht2 & Hd2).
      rewrite E2. exists c2, d2. auto.
Qed.

Lemma main_startup_keeps (env : Env) :
  exists c h,
    main_startup env [] = (c, h) /\ control_ok c /\ trace_ok h.
Proof.
  pose proof (main_startup_cases env) as C. cbv zeta in C.
  destruct C as [E|[(r & _ & E)|[(rom1 & E)|(r1 & rom1 & r2 & rom2 & _ & C)]]];
    [rewrite E; do 2 eexists; (split; [reflexivity|]);
     (split; [exact I|apply trace_ok_quiet; reflexivity]) .. |].
  destruct C as [(_ & E)|(_ & _ & [E|[(r & _ & E)|[E|[E|(v & E & Hs & Hc & Ha)]]]])];
    rewrite E; do 2 eexists; (split; [reflexivity|]);
    (split; [|apply trace_ok_quiet; reflexivity]); try exact I.
  split; [rewrite Ha; reflexivity|]. rewrite Hs, Hc.
  unfold_states. lia.
Qed.

Lemma main_keeps (env : Env) (n : nat) :
  exists c h,
    main env n [] = (c, h) /\ control_ok c /\ trace_ok h /\
    forall v0 h0, main_startup env [] = (Running v0, h0) ->
                  table_of c = Some (ds18b20_addr v0).
Proof.
  unfold main, bind.
  destruct (main_startup_keeps env) as (c0 & h0 & E0 & Hc0 & Hh0).
  rewrite E0.
  destruct (main_steps_keep env n c0 h0 Hc0) as (c & d & E & Hc & Ht & Hd).
  rewrite E. exists c, (h0 ++ d).
  split; [reflexivity|]. split; [exact Hc|].
  split; [apply trace_ok_app; assumption|].
  intros v0' h0' E'. injection E' as E' _.
  apply Ht. rewrite E'. reflexivity.
Qed.

(** X6: the probe index never leaves the probe table.  In every state the
    program reaches in the loop, the table has its [NUM_OF_SENSORS] rows
    and, in the states of the enumeration, [sen_count] is below
    [NUM_OF_SENSORS] (it is 0 from [READ_DUST_CONCENTRATION] to [WAIT]);
    so [ds18b20_addr[sen_count]] in [START_CONV] and [READ_TEMP] is a row
    of the table. *)
Theorem probe_index_within_table
  (env : Env) (n : nat) (v : Vars) (h : Trace) :
  main env n [] = (Running v, h) ->
  length (ds18b20_addr v) = Z.to_nat NUM_OF_SENSORS /\
  (NONE <= state_index v <= WAIT -> 0 <= sen_count v < NUM_OF_SENSORS) /\
  (READ_DUST_CONCENTRATION <= state_index v <= WAIT -> sen_count v = 0) /\
  (state_index v = START_CONV \/ state_index v = READ_TEMP ->
   exists rom,
     nth_error (ds18b20_addr v) (Z.to_nat (sen_count v)) = Some rom /\
     addr_row (ds18b20_addr v) (sen_count v) = rom).
Proof.
  intros H.
  destruct (main_keeps env n) as (c & h' & E & Hc & _).
  rewrite E in H. injection H as -> ->.
  destruct Hc as (Hlen & Hidx & Hzero).
  split; [exact Hlen|]. split; [exact Hidx|]. split; [exact Hzero|].
  intros Hs.
  assert (Hsc : 0 <= sen_count v < NUM_OF_SENSORS)
    by (apply Hidx; destruct Hs as [-> | ->]; cbv; split; discriminate).
  assert (Hlt : (Z.to_nat (sen_count v) < length (ds18b20_addr v))%nat)
    by (rewrite Hlen; apply Z2Nat.inj_lt; lia).
  exists (addr_row (ds18b20_addr v) (sen_count v)).
  split; [|reflexivity].
  unfold addr_row. apply nth_error_nth'. exact Hlt.
Qed.

Lemma probe_index_within_table_witness :
  let r := main (env_of_rig rig_ok) 6 [] in
  r = (Running (vars_of (fst r)), snd r) /\
  state_index (vars_of (fst r)) = READ_TEMP /\
  sen_count (vars_of (fst r)) = 1 /\
  nth_error (ds18b20_addr (vars_of (fst r))) 1 = Some rom_B.
Proof.
  intros r.
  assert (E : r = (Running (vars_of (fst r)), snd r))
    by (vm_compute; reflexivity).
  assert (Hs : state_index (vars_of (fst r)) = READ_TEMP)
    by (vm_compute; reflexivity).
  assert (Hc : sen_count (vars_of (fst r)) = 1) by (vm_compute; reflexivity).
  split; [exact E|]. split; [exact Hs|]. split; [exact Hc|].
  destruct (probe_index_within_table _ _ _ _ E) as (_ & _ & _ & Hrow).
  destruct (Hrow (or_intror Hs)) as (rom & Hn & Hr).
  rewrite Hc in Hn. change (Z.to_nat 1) with 1%nat in Hn. rewrite Hn.
  f_equal. rewrite <- Hr, Hc. vm_compute. reflexivity.
Defined.

(** X7: the probe table is written by the start-up only: whatever the loop
    does afterwards, for however long, the table still holds the ROM codes
    the enumeration stored. *)
Theorem probe_table_is_never_rewritten
  (env : Env) (v0 : Vars) (h0 : Trace) (n : nat) :
  main_startup env [] = (Running v0, h0) ->
  table_of (fst (main env n [])) = Some (ds18b20_addr v0).
Proof.
  intros H. destruct (main_keeps env n) as (c & h & E & _ & _ & Ht).
  rewrite E. cbn [fst]. apply (Ht v0 h0 H).
Qed.

Lemma probe_table_is_never_rewritten_witness :
  let r := main_startup (env_of_rig rig_ok) [] in
  r = (Running (vars_of (fst r)), snd r) /\
  table_of (fst (main (env_of_rig rig_ok) 40 [])) = Some [rom_A; rom_B].
Proof.
  intros r.
  assert (E : r = (Running (vars_of (fst r)), snd r))
    by (vm_compute; reflexivity).
  split; [exact E|].
  rewrite (probe_table_is_never_rewritten _ _ _ 40 E).
  vm_compute. reflexivity.
Defined.

(** X8: nothing but a sensor id is ever written: in every environment and
    after any number of passes, every INSERT the program has executed,
    successful or not, carries an id between 1 and [NUM_OF_SENSORS + 2]. *)
Theorem inserted_ids_are_sensor_ids (env : Env) (n : nat) :
  Forall (fun p => 1 <= fst p <= NUM_OF_SENSORS + 2)
         (db_inserts (snd (main env n []))).
Proof.
  destruct (main_keeps env n) as (c & h & E & _ & [Hids _] & _).
  rewrite E. exact Hids.
Qed.

(** ** One probe, and a store that fails *)

Lemma read_scratchpad_bytes (env : Env) (n : nat) :
  forall h, exists bs,
    length bs = n /\
    read_scratchpad env n h
    = (map to_uint8 bs, h ++ map Ev_uart_ow_read_byte bs).
Proof.
  induction n as [|n IH]; intros h.
  - exists []. cbn. rewrite app_nil_r. auto.
  - cbn [read_scratchpad].
    unfold bind, mraa_uart_ow_read_byte, ask, ret.
    destruct (IH (h ++ [Ev_uart_ow_read_byte (env_uart_ow_read_byte env h)]))
      as (bs & Hlen & E).
    rewrite E. exists (env_uart_ow_read_byte env h :: bs).
    cbn [length map]. rewrite <- app_assoc. split; [lia|reflexivity].
Qed.

(** X10: the three passes spent on a probe: the start-conversion command, a
    sleep of one second, the read-scratchpad command to the same ROM code,
    then exactly 9 byte reads and after them only calls of the store.  If
    an INSERT is executed in these passes, the CRC of those 9 bytes
    matched, its id is the probe index plus one and its value is the decode
    of those 9 bytes; if the CRC did not match, the store is not called. *)
Theorem probe_is_converted_then_read (env : Env) (v : Vars) (h : Trace) :
  state_index v = START_CONV ->
  let a := addr_row (ds18b20_addr v) (sen_count v) in
  exists bs rest,
    length bs = 9%nat /\
    snd (main_steps env 3 (Running v) h)
    = h ++ [Ev_uart_ow_command CMD_START_TEMP_CONV a; Ev_sleep 1;
            Ev_uart_ow_command CMD_READ_SCRATCHPAD a]
        ++ map Ev_uart_ow_read_byte bs ++ rest /\
    forallb is_db_event rest = true /\
    let sp := map to_uint8 bs in
    (forall sen_id x r,
       In (Ev_sqlite3_exec sen_id x r) rest ->
       mraa_uart_ow_crc8 env sp DS18B20_ADDR_LEN = nth 8 sp 0 /\
       sen_id = to_uint8 (sen_count v + 1) /\
       x = temp_scale (temp_adc_val sp)) /\
    (mraa_uart_ow_crc8 env sp DS18B20_ADDR_LEN <> nth 8 sp 0 -> rest = []).
Proof.
  intros Hs a.
  rewrite main_steps_S, (main_step_START_CONV env v h Hs).
  rewrite main_steps_S, main_step_WAIT_TILL_CONV_FINISHED by reflexivity.
  rewrite main_steps_S. cbn [main_step main_steps].
  set (v2 := set_state_index (set_state_index v WAIT_TILL_CONV_FINISHED)
                             READ_TEMP).
  rewrite (main_loop_body_READ_TEMP env v2 eq_refl).
  fold a. set (h2 := (h ++ _) ++ _).
  destruct (case_READ_TEMP_spec env v2 h2)
    as (sp & d & Er & _ & _ & _ & Hcases).
  change (ds18b20_addr v2) with (ds18b20_addr v) in Er, Hcases.
  change (sen_count v2) with (sen_count v) in Er, Hcases.
  fold a in Er, Hcases. cbv zeta in Hcases.
  destruct (read_scratchpad_bytes env (Z.to_nat ds18b20_scratchpad_len)
              (h2 ++ [Ev_uart_ow_command CMD_READ_SCRATCHPAD a]))
    as (bs & Hlen & Eb).
  rewrite Eb in Er. injection Er as Esp Ed.
  apply app_inv_head in Ed. subst sp d.
  assert (Hpre : forall t,
    h2 ++ Ev_uart_ow_command CMD_READ_SCRATCHPAD a
          :: map Ev_uart_ow_read_byte bs ++ t
    = h ++ [Ev_uart_ow_command CMD_START_TEMP_CONV a; Ev_sleep 1;
            Ev_uart_ow_command CMD_READ_SCRATCHPAD a]
        ++ map Ev_uart_ow_read_byte bs ++ t).
  { intros t. subst h2. rewrite <- !app_assoc. reflexivity. }
  exists bs.
  destruct Hcases as [[Hbad E]|[(Hok & df & Hdf & E)|[Hok E]]]; rewrite E;
    unfold bind, ret; cbn [snd].
  - exists []. split; [exact Hlen|]. rewrite <- Hpre, app_nil_r.
    split; [reflexivity|]. split; [reflexivity|].
    cbv zeta. split; [intros ? ? ? []|auto].
  - exists df. split; [exact Hlen|]. rewrite <- Hpre.
    split; [rewrite <- app_assoc; reflexivity|].
    unfold store_failure_trace in Hdf.
    destruct Hdf as [-> | [-> | ->]]; (split; [reflexivity|]); cbv zeta;
      (split; [|intros Hbad; destruct (Hbad Hok)]);
      intros sen_id x r Hin; cbn [In store_trace_open_failed
        store_trace_malloc_failed store_trace_exec_failed] in Hin;
      repeat (destruct Hin as [Hin|Hin]; [try discriminate Hin|]);
      try contradiction.
    injection Hin as <- <- _. auto.
  - eexists. split; [exact Hlen|]. rewrite <- Hpre.
    split; [rewrite <- app_assoc; reflexivity|].
    split; [reflexivity|]. cbv zeta.
    split; [|intros Hbad; destruct (Hbad Hok)].
    intros sen_id x r Hin. cbn [In store_trace_ok] in Hin.
    repeat (destruct Hin as [Hin|Hin]; [try discriminate Hin|]);
      try contradiction.
    injection Hin as <- <- _. auto.
Qed.

Lemma probe_is_converted_then_read_witness :
  let env := env_of_rig rig_ok in
  let start := main env 1 [] in
  let v := vars_of (fst start) in
  state_index v = START_CONV /\
  exists bs rest,
    length bs = 9%nat /\
    snd (main_steps env 3 (Running v) (snd start))
    = snd start
      ++ [Ev_uart_ow_command CMD_START_TEMP_CONV rom_A; Ev_sleep 1;
          Ev_uart_ow_command CMD_READ_SCRATCHPAD rom_A]
      ++ map Ev_uart_ow_read_byte bs ++ rest.
Proof.
  intros env start v.
  assert (Hs : state_index v = START_CONV) by (vm_compute; reflexivity).
  split; [exact Hs|].
  destruct (probe_is_converted_then_read env v (snd start) Hs)
    as (bs & rest & Hlen & E & _).
  exists bs, rest. split; [exact Hlen|]. exact E.
Defined.

Lemma quiet_no_failed_db (d : Trace) :
  forallb (fun e => negb (is_db_event e)) d = true ->
  existsb is_failed_db_event d = false.
Proof.
  induction d as [|e d IH]; [reflexivity|].
  cbn [forallb existsb]. intros H. apply andb_prop in H as [He Hd].
  rewrite (IH Hd). destruct e; try discriminate He; reflexivity.
Qed.

Lemma store_failure_has_failed_event (sen_id : Z) (sen_val : c_float)
  (d : Trace) :
  store_failure_trace sen_id sen_val d -> existsb is_failed_db_event d = true.
Proof. intros [-> | [-> | ->]]; reflexivity. Qed.

(** X11: a store that fails stops the program.  In [READ_TEMP],
    [READ_DUST_CONCENTRATION] and [READ_HUMIDITY] alike, when a call of
    the persistence layer made in the pass reports a failure (the open, the
    [malloc] or the INSERT), the pass sets the machine for the default
    case, and from the next pass on the program spins with its handles
    released: the trace never grows again, so nothing more is read or
    stored.  In the dust and humidity passes this is the only way to the
    default case. *)
Theorem failed_store_halts (env : Env) (v : Vars) (h : Trace) :
  state_index v = READ_TEMP \/ state_index v = READ_DUST_CONCENTRATION \/
  state_index v = READ_HUMIDITY ->
  exists c d,
    main_step env (Running v) h = (c, h ++ d) /\
    (existsb is_failed_db_event d = true ->
     faulted c /\
     forall n,
       main_steps env (S (S n)) (Running v) h
       = (Spinning (vars_of c), (h ++ d) ++ fault_trace)) /\
    (state_index v <> READ_TEMP ->
     existsb is_failed_db_event d = false -> ~ faulted c).
Proof.
  assert (Hhalt : forall v' d,
            main_step env (Running v) h
            = (Running (set_state_index v' (WAIT + 1)), h ++ d) ->
            faulted (Running (set_state_index v' (WAIT + 1))) /\
            forall n,
              main_steps env (S (S n)) (Running v) h
              = (Spinning (set_state_index v' (WAIT + 1)),
                 (h ++ d) ++ fault_trace)).
  { intros v' d E. split; [eexists; split; reflexivity|].
    intros n. rewrite main_steps_S, E.
    apply main_steps_default. right. reflexivity. }
  assert (Hnf : forall v', state_index v' <> WAIT + 1 ->
                           ~ faulted (Running v')).
  { intros v' Hne (v'' & E & Hs). injection E as <-. contradiction. }
  intros [Hs|[Hs|Hs]].
  - cbn [main_step]. rewrite (main_loop_body_READ_TEMP env v Hs).
    assert (Estep : main_step env (Running v) h = case_READ_TEMP env v h).
    { cbn [main_step]. rewrite (main_loop_body_READ_TEMP env v Hs).
      reflexivity. }
    destruct (case_READ_TEMP_spec env v h)
      as (sp & d & _ & _ & _ & Hd & Hcases).
    cbv zeta in Hcases.
    assert (Hq : existsb is_failed_db_event
                   (Ev_uart_ow_command CMD_READ_SCRATCHPAD
                      (addr_row (ds18b20_addr v) (sen_count v)) :: d) = false).
    { apply quiet_no_failed_db. cbn [forallb is_db_event negb andb].
      apply read_bytes_quiet, Hd. }
    destruct Hcases as [[_ E]|[(_ & df & Hdf & E)|[_ E]]]; rewrite E.
    + do 2 eexists. split; [reflexivity|]. split.
      * rewrite Hq. discriminate.
      * intros Hne. destruct (Hne Hs).
    + eexists. exists ((Ev_uart_ow_command CMD_READ_SCRATCHPAD
                          (addr_row (ds18b20_addr v) (sen_count v)) :: d)
                       ++ df).
      split; [rewrite <- app_assoc; reflexivity|]. split.
      * intros _. apply Hhalt. rewrite Estep, E, <- app_assoc. reflexivity.
      * intros Hne. destruct (Hne Hs).
    + eexists. exists ((Ev_uart_ow_command CMD_READ_SCRATCHPAD
                          (addr_row (ds18b20_addr v) (sen_count v)) :: d)
                       ++ store_trace_ok (to_uint8 (sen_count v + 1))
                            (temp_scale (temp_adc_val sp))).
      split; [rewrite <- app_assoc; reflexivity|]. split.
      * rewrite existsb_app, Hq. cbn. discriminate.
      * intros Hne. destruct (Hne Hs).
  - assert (Estep : main_step env (Running v) h
                    = case_READ_DUST_CONCENTRATION env v h).
    { cbn [main_step].
      rewrite (main_loop_body_READ_DUST_CONCENTRATION env v Hs). reflexivity. }
    rewrite Estep.
    destruct (case_READ_DUST_CONCENTRATION_spec env v h)
      as (vl & d & _ & Hd & _ & Hcases).
    cbv zeta in Hcases.
    pose proof (quiet_no_failed_db d (sampling_quiet d Hd)) as Hq.
    destruct Hcases as [E|(df & Hdf & E)]; rewrite E; rewrite <- app_assoc;
      do 2 eexists; (split; [reflexivity|]).
    + split.
      * rewrite existsb_app, Hq. cbn. discriminate.
      * intros _ _. apply Hnf. cbn. discriminate.
    + split.
      * intros _. apply Hhalt. rewrite Estep, E, <- app_assoc. reflexivity.
      * intros _ H. rewrite existsb_app, Hq,
          (store_failure_has_failed_event _ _ _ Hdf) in H. discriminate H.
  - assert (Estep : main_step env (Running v) h = case_READ_HUMIDITY env v h).
    { cbn [main_step]. rewrite (main_loop_body_READ_HUMIDITY env v Hs).
      reflexivity. }
    rewrite Estep.
    destruct (case_READ_HUMIDITY_spec env v h) as [E|(df & Hdf & E)];
      rewrite E; rewrite <- app_assoc; do 2 eexists;
      (split; [reflexivity|]).
    + split.
      * cbn. discriminate.
      * intros _ _. apply Hnf. cbn. discriminate.
    + split.
      * intros _. apply Hhalt. rewrite Estep, E, <- app_assoc. reflexivity.
      * intros _ H. cbn [app existsb is_failed_db_event orb] in H.
        rewrite (store_failure_has_failed_event _ _ _ Hdf) in H.
        discriminate H.
Qed.

Lemma failed_store_halts_witness :
  let env := env_of_rig rig_db_fail in
  let start := main env 3 [] in
  let v := vars_of (fst start) in
  state_index v = READ_TEMP /\
  (exists vs h', main_steps env 50 (Running v) (snd start) = (Spinning vs, h')) /\
  db_inserts (snd (main_steps env 50 (Running v) (snd start)))
  = [(1, temp_scale 400)].
Proof.
  intros env start v.
  assert (Hs : state_index v = READ_TEMP) by (vm_compute; reflexivity).
  split; [exact Hs|].
  destruct (failed_store_halts env v (snd start) (or_introl Hs))
    as (c & d & E & Hfail & _).
  assert (Hd : existsb is_failed_db_event d = true).
  { assert (E' : snd (main_step env (Running v) (snd start))
                 = snd start ++ d) by (rewrite E; reflexivity).
    assert (Hall : existsb is_failed_db_event
                     (skipn (length (snd start))
                        (snd (main_step env (Running v) (snd start))))
                   = true) by (vm_compute; reflexivity).
    rewrite E', skipn_app, skipn_all, Nat.sub_diag in Hall. exact Hall. }
  destruct (Hfail Hd) as [_ Hn].
  split.
  - do 2 eexists. apply (Hn 48%nat).
  - vm_compute. reflexivity.
Defined.

(** ** The shape of the humidity curve *)

Lemma humidity_shape_all :
  humidity_shape_from (Z.to_nat 1023) 0 (humidity_of_count 0) = true.
Proof. vm_cast_no_check (eq_refl true). Qed.

Lemma humidity_shape_from_O (raw : Z) (x : c_float) :
  humidity_shape_from 0 raw x = humidity_sign_check raw x && true.
Proof. reflexivity. Qed.

Lemma humidity_shape_from_S (n : nat) (raw : Z) (x : c_float) :
  humidity_shape_from (S n) raw x
  = humidity_sign_check raw x
    && (f_lt x (humidity_of_count (raw + 1))
        && humidity_shape_from n (raw + 1) (humidity_of_count (raw + 1))).
Proof. reflexivity. Qed.

Lemma humidity_shape_from_spec (n : nat) :
  forall raw0 x,
    x = humidity_of_count raw0 ->
    humidity_shape_from n raw0 x = true ->
    forall raw,
      raw0 <= raw <= raw0 + Z.of_nat n ->
      humidity_sign_check raw (humidity_of_count raw) = true /\
      (raw < raw0 + Z.of_nat n ->
       f_lt (humidity_of_count raw) (humidity_of_count (raw + 1)) = true).
Proof.
  induction n as [|n IH]; intros raw0 x Hx H raw Hr.
  - rewrite humidity_shape_from_O in H.
    apply andb_prop in H as [Hsign _].
    assert (raw = raw0) by lia. subst raw x. split; [exact Hsign|lia].
  - rewrite humidity_shape_from_S in H.
    apply andb_prop in H as [Hsign H]. apply andb_prop in H as [Hlt Hrest].
    destruct (Z.eq_dec raw raw0) as [->|Hne].
    + subst x. split; [exact Hsign|]. intros _. exact Hlt.
    + destruct (IH (raw0 + 1) _ eq_refl Hrest raw ltac:(lia)) as [Hs Hm].
      split; [exact Hs|]. intros Hb. apply Hm. lia.
Qed.

Lemma humidity_sign_check_eq (raw : Z) (x : c_float) :
  humidity_sign_check raw x
  = Bool.eqb (f_lt (f64_of_f32 x) d_0_0) (raw <=? 58)
    && Bool.eqb (f_gt (f64_of_f32 x) (f64_of_Z 100)) (725 <=? raw).
Proof. reflexivity. Qed.

Lemma humidity_of_count_eq (raw : Z) :
  humidity_of_count raw = hsm_curve (adc_voltage raw).
Proof. reflexivity. Qed.

(** X12: the humidity is not clamped to a percentage.  Over the ADC counts
    0..1023 the value returned grows strictly with the count; it is
    negative exactly for the counts up to 58 and exceeds 100 exactly for
    the counts from 725 on, and it is returned, and then stored, as it
    is. *)
Theorem humidity_is_not_clamped (raw : Z) :
  0 <= raw <= 1023 ->
  (raw < 1023 ->
   f_lt (hsm_curve (adc_voltage raw)) (hsm_curve (adc_voltage (raw + 1)))
   = true) /\
  (f_lt (f64_of_f32 (hsm_curve (adc_voltage raw))) d_0_0 = true
   <-> raw <= 58) /\
  (f_gt (f64_of_f32 (hsm_curve (adc_voltage raw))) (f64_of_Z 100) = true
   <-> 725 <= raw) /\
  forall (env : Env) (h : Trace),
    to_uint16 (env_aio_read env h hsm_aio_in) = raw ->
    fst (hsm_read_humidity_float env h) = hsm_curve (adc_voltage raw).
Proof.
  intros Hr.
  pose proof (humidity_shape_from_spec _ _ _ eq_refl humidity_shape_all raw)
    as H.
  rewrite Z2Nat.id in H by lia. specialize (H ltac:(lia)).
  destruct H as [Hsign Hmono].
  rewrite humidity_sign_check_eq in Hsign.
  rewrite !humidity_of_count_eq in Hsign, Hmono.
  apply andb_prop in Hsign as [Hneg H100].
  apply Bool.eqb_prop in Hneg, H100.
  split; [intros Hlt; apply Hmono; lia|].
  split; [rewrite Hneg; apply Z.leb_le|].
  split; [rewrite H100; apply Z.leb_le|].
  intros env h Hraw.
  unfold hsm_read_humidity_float, bind, mraa_aio_read, ask, ret.
  cbn [fst]. rewrite Hraw. reflexivity.
Qed.

Lemma humidity_is_not_clamped_witness :
  0 <= 30 <= 1023 /\
  f_lt (f64_of_f32 (hsm_curve (adc_voltage 30))) d_0_0 = true.
Proof.
  assert (H : 0 <= 30 <= 1023) by lia.
  split; [exact H|].
  apply (proj1 (proj2 (humidity_is_not_clamped 30 H))). lia.
Defined.

(** ** The decode as a map *)

Lemma twos_complement16_inj (a b : Z) :
  0 <= a < 65536 -> 0 <= b < 65536 ->
  twos_complement16 a = twos_complement16 b -> a = b.
Proof.
  unfold twos_complement16. intros Ha Hb.
  destruct (Z.ltb_spec a 32768), (Z.ltb_spec b 32768); lia.
Qed.

Lemma temp_adc_val_bytes (lsb msb : Z) :
  0 <= lsb < 256 -> 0 <= msb < 256 ->
  temp_adc_val [lsb; msb] = twos_complement16 (lsb + 256 * msb).
Proof.
  intros Hl Hm. pose proof (decode_bytes_ok lsb msb Hl Hm) as H.
  unfold decode_bytes_check in H. apply andb_prop in H as [_ H].
  apply Z.eqb_eq in H. exact H.
Qed.

(** X13: the two data bytes and the decoded count determine each other: two
    scratchpads decode to the same count only if their bytes 0 and 1 are
    the same, the count always fits 16 signed bits, and every count
    [k] of that range is the decode of the bytes of its two's-complement
    representation ([k mod 256] and [(k / 256) mod 256]); the temperature
    stored for it is exactly [k / 16], so distinct byte pairs give
    distinct temperatures between -2048 and 2047.9375 degrees. *)
Theorem temp_adc_val_is_a_bijection (lsb msb lsb' msb' : Z) :
  0 <= lsb < 256 -> 0 <= msb < 256 ->
  0 <= lsb' < 256 -> 0 <= msb' < 256 ->
  -32768 <= temp_adc_val [lsb; msb] < 32768 /\
  (temp_adc_val [lsb; msb] = temp_adc_val [lsb'; msb'] ->
   lsb = lsb' /\ msb = msb') /\
  (let k := temp_adc_val [lsb; msb] in
   lsb = k mod 256 /\ msb = (k / 256) mod 256) /\
  ((SF2Q (temp_scale (temp_adc_val [lsb; msb]))
    == SF2Q (temp_scale (temp_adc_val [lsb'; msb'])))%Q ->
   lsb = lsb' /\ msb = msb') /\
  (- (2048 # 1) <= SF2Q (temp_scale (temp_adc_val [lsb; msb])))%Q /\
  (SF2Q (temp_scale (temp_adc_val [lsb; msb])) <= 20479375 # 10000)%Q.
Proof.
  intros Hl Hm Hl' Hm'.
  rewrite (temp_adc_val_bytes lsb msb Hl Hm).
  rewrite (temp_adc_val_bytes lsb' msb' Hl' Hm').
  assert (Hf : 0 <= lsb + 256 * msb < 65536) by lia.
  assert (Hf' : 0 <= lsb' + 256 * msb' < 65536) by lia.
  pose proof (twos_complement16_range _ Hf) as Hr.
  pose proof (twos_complement16_range _ Hf') as Hr'.
  assert (Hinj : twos_complement16 (lsb + 256 * msb)
                 = twos_complement16 (lsb' + 256 * msb') ->
                 lsb = lsb' /\ msb = msb').
  { intros H. apply twos_complement16_inj in H; lia. }
  destruct (temp_scale_exact _ Hr) as [_ Hq].
  destruct (temp_scale_exact _ Hr') as [_ Hq'].
  split; [exact Hr|]. split; [exact Hinj|]. split.
  { cbv zeta. unfold twos_complement16.
    destruct (Z.ltb_spec (lsb + 256 * msb) 32768);
      split; Z.div_mod_to_equations; lia. }
  split.
  { rewrite Hq, Hq'. intros H. apply Hinj.
    apply Qmult_inj_r in H; [|discriminate].
    unfold Qeq in H. cbn [Qnum Qden inject_Z] in H. lia. }
  rewrite Hq. split.
  - unfold Qle. cbn [Qnum Qden inject_Z Qmult Qopp]. lia.
  - unfold Qle. cbn [Qnum Qden inject_Z Qmult Qopp]. lia.
Qed.

Lemma temp_adc_val_is_a_bijection_witness :
  0 <= 0x90 < 256 /\ 0 <= 0xFC < 256 /\
  temp_adc_val [0x90; 0xFC] mod 256 = 0x90 /\
  (temp_adc_val [0x90; 0xFC] / 256) mod 256 = 0xFC.
Proof.
  assert (H1 : 0 <= 0x90 < 256) by lia.
  assert (H2 : 0 <= 0xFC < 256) by lia.
  split; [exact H1|]. split; [exact H2|].
  destruct (temp_adc_val_is_a_bijection 0x90 0xFC 0x90 0xFC H1 H2 H1 H2)
    as (_ & _ & [Ea Eb] & _).
  split; [symmetry; exact Ea|symmetry; exact Eb].
Defined.

(** ** Handles over a whole run *)

Lemma no_handle_event_app (a b : Trace) :
  forallb (fun e => negb (is_handle_event e)) (a ++ b)
  = forallb (fun e => negb (is_handle_event e)) a
    && forallb (fun e => negb (is_handle_event e)) b.
Proof. apply forallb_app. Qed.

Lemma no_handle_event_opened (d : Trace) :
  forallb (fun e => negb (is_handle_event e)) d = true ->
  forall h, opened (h ++ d) = opened h /\ released (h ++ d) = released h.
Proof.
  intros Hd h. induction h as [|e h [IH1 IH2]].
  - cbn [app]. induction d as [|e d IH]; [split; reflexivity|].
    cbn [forallb] in Hd. apply andb_prop in Hd as [He Hd].
    destruct (IH Hd) as [I1 I2].
    destruct e; try discriminate He; cbn [opened released]; auto.
  - cbn [app]. destruct e as [dev []| | | | | |pin []| | | |pin []| | | | | | | | | |];
      cbn [opened released]; rewrite ?IH1, ?IH2; split; reflexivity.
Qed.

Lemma sampling_no_handle (d : Trace) :
  forallb is_sampling_event d = true ->
  forallb (fun e => negb (is_handle_event e)) d = true.
Proof.
  induction d as [|e d IH]; [reflexivity|].
  cbn [forallb]. intros H. apply andb_prop in H as [He Hd].
  rewrite (IH Hd). destruct e; try discriminate He; reflexivity.
Qed.

Lemma read_bytes_no_handle (d : Trace) :
  forallb is_read_byte_event d = true ->
  forallb (fun e => negb (is_handle_event e)) d = true.
Proof.
  induction d as [|e d IH]; [reflexivity|].
  cbn [forallb]. intros H. apply andb_prop in H as [He Hd].
  rewrite (IH Hd). destruct e; try discriminate He; reflexivity.
Qed.

Lemma store_no_handle (sen_id : Z) (sen_val : c_float) (d : Trace) :
  d = store_trace_ok sen_id sen_val \/ store_failure_trace sen_id sen_val d ->
  forallb (fun e => negb (is_handle_event e)) d = true.
Proof. intros [-> | [-> | [-> | ->]]]; reflexivity. Qed.

(** A pass of the loop either stays in the loop and touches no handle, or
    is the pass of the default case. *)
Lemma main_step_handles (env : Env) (v : Vars) (h : Trace) :
  exists c d,
    main_step env (Running v) h = (c, h ++ d) /\
    (((exists v', c = Running v') /\
      forallb (fun e => negb (is_handle_event e)) d = true) \/
     (c = Spinning v /\ d = fault_trace)).
Proof.
  destruct (state_index_cases v) as [Hs|[Hs|[Hs|[Hs|[Hs|[Hs|[Hs|Hs]]]]]]].
  - cbn [main_step]. rewrite (main_loop_body_NONE env v Hs). unfold ret.
    do 2 eexists. rewrite app_nil_r. split; [reflexivity|].
    left. split; [eexists; reflexivity|reflexivity].
  - rewrite (main_step_START_CONV env v h Hs). do 2 eexists.
    split; [reflexivity|]. left. split; [eexists; reflexivity|reflexivity].
  - rewrite (main_step_WAIT_TILL_CONV_FINISHED env v h Hs). do 2 eexists.
    split; [reflexivity|]. left. split; [eexists; reflexivity|reflexivity].
  - cbn [main_step]. rewrite (main_loop_body_READ_TEMP env v Hs).
    destruct (case_READ_TEMP_spec env v h)
      as (sp & d & _ & _ & _ & Hd & Hcases).
    cbv zeta in Hcases.
    pose proof (read_bytes_no_handle d Hd) as Hq.
    destruct Hcases as [[_ E]|[(_ & df & Hdf & E)|[_ E]]]; rewrite E.
    + do 2 eexists. split; [reflexivity|]. left.
      split; [eexists; reflexivity|]. cbn [forallb is_handle_event negb andb].
      exact Hq.
    + eexists. exists ((Ev_uart_ow_command CMD_READ_SCRATCHPAD
                          (addr_row (ds18b20_addr v) (sen_count v)) :: d)
                       ++ df).
      split; [rewrite <- app_assoc; reflexivity|]. left.
      split; [eexists; reflexivity|].
      rewrite no_handle_event_app. cbn [forallb is_handle_event negb andb].
      rewrite Hq, (store_no_handle _ _ df (or_intror Hdf)). reflexivity.
    + eexists. exists ((Ev_uart_ow_command CMD_READ_SCRATCHPAD
                          (addr_row (ds18b20_addr v) (sen_count v)) :: d)
                       ++ store_trace_ok (to_uint8 (sen_count v + 1))
                            (temp_scale (temp_adc_val sp))).
      split; [rewrite <- app_assoc; reflexivity|]. left.
      split; [eexists; reflexivity|].
      rewrite no_handle_event_app. cbn [forallb is_handle_event negb andb].
      rewrite Hq. reflexivity.
  - cbn [main_step]. rewrite (main_loop_body_READ_DUST_CONCENTRATION env v Hs).
    destruct (case_READ_DUST_CONCENTRATION_spec env v h)
      as (vl & d & _ & Hd & _ & Hcases).
    cbv zeta in Hcases.
    pose proof (sampling_no_handle d Hd) as Hq.
    destruct Hcases as [E|(df & Hdf & E)]; rewrite E; rewrite <- app_assoc;
      do 2 eexists; (split; [reflexivity|]); left;
      (split; [eexists; reflexivity|]); rewrite no_handle_event_app, Hq.
    + reflexivity.
    + rewrite (store_no_handle _ _ df (or_intror Hdf)). reflexivity.
  - cbn [main_step]. rewrite (main_loop_body_READ_HUMIDITY env v Hs).
    destruct (case_READ_HUMIDITY_spec env v h) as [E|(df & Hdf & E)];
      rewrite E; rewrite <- app_assoc; do 2 eexists;
      (split; [reflexivity|]); left; (split; [eexists; reflexivity|]).
    + reflexivity.
    + cbn [app forallb is_handle_event negb andb].
      apply (store_no_handle _ _ df (or_intror Hdf)).
  - rewrite (main_step_WAIT env v h Hs). do 2 eexists.
    split; [reflexivity|]. left. split; [eexists; reflexivity|reflexivity].
  - rewrite (main_step_default env v h Hs). do 2 eexists.
    split; [reflexivity|]. right. split; reflexivity.
Qed.

Lemma main_steps_handles (env : Env) (n : nat) :
  forall v h, exists c d,
    main_steps env n (Running v) h = (c, h ++ d) /\
    (((exists v', c = Running v') /\
      forallb (fun e => negb (is_handle_event e)) d = true) \/
     (exists v' d', c = Spinning v' /\ d = d' ++ fault_trace /\
        forallb (fun e => negb (is_handle_event e)) d' = true)).
Proof.
  induction n as [|n IH]; intros v h.
  - exists (Running v), []. cbn. rewrite app_nil_r.
    split; [reflexivity|]. left. split; [eexists; reflexivity|reflexivity].
  - rewrite main_steps_S.
    destruct (main_step_handles env v h) as (c1 & d1 & E1 & Hc1).
    rewrite E1. destruct Hc1 as [[(v1 & ->) Hq1]|[-> ->]].
    + destruct (IH v1 (h ++ d1)) as (c2 & d2 & E2 & Hc2).
      rewrite E2. exists c2, (d1 ++ d2). rewrite app_assoc.
      split; [reflexivity|].
      destruct Hc2 as [[Hr Hq2]|(v2 & d2' & -> & -> & Hq2)].
      * left. split; [exact Hr|]. rewrite no_handle_event_app, Hq1, Hq2.
        reflexivity.
      * right. exists v2, (d1 ++ d2'). split; [reflexivity|].
        split; [rewrite app_assoc; reflexivity|].
        rewrite no_handle_event_app, Hq1, Hq2. reflexivity.
    + rewrite main_steps_stuck by discriminate.
      exists (Spinning v), fault_trace. split; [reflexivity|].
      right. exists v, []. repeat split.
Qed.

Lemma startup_handles (env : Env) (c : Control) (h : Trace) :
  main_startup env [] = (c, h) ->
  match c with
  | Running _ => opened h = handles_opened /\ released h = []
  | Spinning _ => False
  | Exited code => code = 1 /\ Permutation (released h) (opened h)
  end.
Proof.
  intros H.
  pose proof (main_startup_cases env) as C. cbv zeta in C.
  destruct C as [E|[(r & _ & E)|[(rom1 & E)|(r1 & rom1 & r2 & rom2 & _ & C)]]];
    [rewrite E in H; injection H as <- <-; cbn [opened released];
     split; [reflexivity|apply Permutation_refl] .. |].
  destruct C as [(_ & E)|(_ & _ & [E|[(r & _ & E)|[E|[E|(v & E & _)]]]])];
    rewrite E in H; injection H as <- <-; cbn [app opened released];
    (split; [reflexivity|]).
  - apply Permutation_refl.
  - apply Permutation_refl.
  - apply perm_swap.
  - apply perm_swap.
  - apply Permutation_sym.
    apply (Permutation_cons_append
             [H_gpio dust_ir_led_pin; H_aio dust_aio_in] H_uart).
  - reflexivity.
Qed.

(** X14: handles are given back once, at the end, and not used afterwards.
    At every point of every run: while the program is in the loop it holds
    its four handles and has released none; once it spins it has released
    each of the four exactly once, in the calls that end its trace; and
    if it has returned, it returned 1 with every handle it had opened
    released. *)
Theorem handles_are_released_once
  (env : Env) (n : nat) (c : Control) (h : Trace) :
  main env n [] = (c, h) ->
  match c with
  | Running _ => opened h = handles_opened /\ released h = []
  | Spinning _ =>
      opened h = handles_opened /\ released h = handles_released /\
      exists h1, h = h1 ++ fault_trace /\ released h1 = []
  | Exited code => code = 1 /\ Permutation (released h) (opened h)
  end.
Proof.
  unfold main, bind. intros H.
  destruct (main_startup env []) as [c0 h0] eqn:E0.
  pose proof (startup_handles env c0 h0 E0) as Hs.
  destruct c0 as [v0|v0|code0].
  - destruct Hs as [Ho Hr].
    destruct (main_steps_handles env n v0 h0) as (c' & d & E & Hc).
    rewrite E in H. injection H as <- <-.
    destruct Hc as [[(v' & ->) Hq]|(v' & d' & -> & -> & Hq)].
    + destruct (no_handle_event_opened d Hq h0) as [H1 H2].
      rewrite H1, H2. auto.
    + destruct (no_handle_event_opened d' Hq h0) as [H1 H2].
      rewrite app_assoc.
      assert (Hf : forall t, opened (t ++ fault_trace) = opened t /\
                            released (t ++ fault_trace)
                            = released t ++ handles_released).
      { intros t. induction t as [|e t [I1 I2]]; [split; reflexivity|].
        cbn [app].
        destruct e as [dev []| | | | | |pin []| | | |pin []| | | | | | | | | |];
          cbn [opened released app]; rewrite ?I1, ?I2; split; reflexivity. }
      destruct (Hf (h0 ++ d')) as [F1 F2]. rewrite F1, F2, H1, H2, Hr, Ho.
      split; [reflexivity|]. split; [reflexivity|].
      exists (h0 ++ d'). split; [reflexivity|]. rewrite H2. exact Hr.
  - destruct Hs.
  - rewrite main_steps_stuck in H by discriminate. injection H as <- <-.
    exact Hs.
Qed.

Lemma handles_are_released_once_witness :
  let r := main (env_of_rig rig_crc_bad) 9 [] in
  r = (Spinning (vars_of (fst r)), snd r) /\
  released (snd r) = handles_released.
Proof.
  intros r.
  assert (E : r = (Spinning (vars_of (fst r)), snd r))
    by (vm_compute; reflexivity).
  split; [exact E|].
  exact (proj1 (proj2 (handles_are_released_once _ _ _ _ E))).
Defined.

(** ** The voltage of a count *)

Lemma adc_voltage_all : range_all adc_voltage_check (Z.to_nat 1024) 0 = true.
Proof. vm_cast_no_check (eq_refl true). Qed.

Lemma adc_voltage_check_eq (raw : Z) :
  adc_voltage_check raw
  = f_le (f64_of_f32 (adc_voltage raw)) d_5_0
    && (if raw <? 1023 then f_lt (adc_voltage raw) (adc_voltage (raw + 1))
        else true).
Proof. reflexivity. Qed.

(** X15: the voltage computed from a 10-bit ADC count, for the dust sample
    and for the humidity alike, grows strictly with the count, from exactly
    0.0 at count 0 to exactly 5.0 at count 1023, so it never exceeds 5.0;
    it is what a successful dust sample returns. *)
Theorem adc_voltage_range (raw : Z) :
  0 <= raw <= 1023 ->
  f_ge (f64_of_f32 (adc_voltage raw)) d_0_0 = true /\
  f_le (f64_of_f32 (adc_voltage raw)) d_5_0 = true /\
  (raw < 1023 -> f_lt (adc_voltage raw) (adc_voltage (raw + 1)) = true) /\
  adc_voltage 0 = S754_zero false /\
  adc_voltage 1023 = f32_of_Z 5.
Proof.
  intros Hr.
  pose proof (range_all_spec _ _ _ adc_voltage_all raw) as H.
  rewrite Z2Nat.id in H by lia. specialize (H ltac:(lia)).
  rewrite adc_voltage_check_eq in H.
  apply andb_prop in H as [Hle Hlt].
  split; [apply is_nonneg_ge_zero, f64_of_f32_nonneg, adc_voltage_nonneg; lia|].
  split; [exact Hle|]. split.
  - intros Hb. apply Z.ltb_lt in Hb. rewrite Hb in Hlt. exact Hlt.
  - split; vm_compute; reflexivity.
Qed.

Lemma adc_voltage_range_witness :
  0 <= 300 <= 1023 /\
  f_le (f64_of_f32 (adc_voltage 300)) d_5_0 = true.
Proof.
  assert (H : 0 <= 300 <= 1023) by lia.
  split; [exact H|]. exact (proj1 (proj2 (adc_voltage_range 300 H))).
Defined.

(* ================================================================== *)
(** * What is read, what is stored, and the statements written for it *)

(** ** The trace of a complete cycle *)

Section CycleTraces.

Variable env : Env.

Lemma humidity_value_eq (raw : Z) :
  humidity_value raw = hsm_curve (adc_voltage (to_uint16 raw)).
Proof. reflexivity. Qed.

Lemma quiet_milestones (d : Trace) :
  forallb (fun e => match e with
                    | Ev_uart_ow_command _ _ | Ev_sqlite3_exec _ _ _ => false
                    | _ => true
                    end) d = true ->
  milestones d = [] /\ db_inserts d = [].
Proof.
  induction d as [|e d IH]; [split; reflexivity|].
  cbn [forallb]. intros H. apply andb_prop in H as [He Hd].
  destruct e; try discriminate He; cbn [milestones db_inserts]; auto.
Qed.

Lemma read_bytes_trace_quiet (bs : list Z) :
  milestones (map Ev_uart_ow_read_byte bs) = [] /\
  db_inserts (map Ev_uart_ow_read_byte bs) = [].
Proof. apply quiet_milestones. induction bs; [reflexivity|exact IHbs]. Qed.

Lemma batch_trace_quiet (ss : list Sample) :
  milestones (batch_trace ss) = [] /\ db_inserts (batch_trace ss) = [].
Proof.
  apply quiet_milestones. unfold batch_trace.
  induction ss as [|s ss IH]; [reflexivity|].
  cbn [map concat]. rewrite forallb_app, IH, andb_true_r.
  destruct s; reflexivity.
Qed.

Lemma probe_trace_milestones (rom : list Z) (sen_id : Z) (bs : list Z) :
  milestones (probe_trace rom sen_id bs)
  = [Ms_command CMD_START_TEMP_CONV rom;
     Ms_command CMD_READ_SCRATCHPAD rom; Ms_insert sen_id] /\
  db_inserts (probe_trace rom sen_id bs) = [(sen_id, probe_value bs)].
Proof.
  unfold probe_trace. cbn [app milestones db_inserts].
  rewrite milestones_app, db_inserts_app.
  destruct (read_bytes_trace_quiet bs) as [-> ->]. split; reflexivity.
Qed.

Lemma cycle_trace_milestones (a : list (list Z)) (c : Cycle) :
  milestones (cycle_trace a c) = cycle_milestones a /\
  db_inserts (cycle_trace a c) = cycle_inserts c.
Proof.
  unfold cycle_trace.
  rewrite !milestones_app, !db_inserts_app.
  destruct (probe_trace_milestones (addr_row a 0) 1 (cy_probe1 c)) as [-> ->].
  destruct (probe_trace_milestones (addr_row a 1) 2 (cy_probe2 c)) as [-> ->].
  destruct (batch_trace_quiet (cy_dust c)) as [-> ->].
  split; reflexivity.
Qed.

(** The three passes spent on one probe, with the bytes they read. *)
Lemma probe_passes_trace (v : Vars) (h : Trace) :
  state_index v = START_CONV ->
  let a := addr_row (ds18b20_addr v) (sen_count v) in
  let n := to_uint8 (sen_count v + 1) in
  exists c h3,
    main_steps env 3 (Running v) h = (c, h3) /\
    (faulted c \/
     exists bs,
       crc_matches env bs /\
       c = Running (after_read_temp (set_state_index v READ_TEMP)
                                    (probe_value bs)) /\
       h3 = h ++ probe_trace a n bs).
Proof.
  intros Hs a n.
  rewrite main_steps_S, (main_step_START_CONV env v h Hs).
  rewrite main_steps_S, main_step_WAIT_TILL_CONV_FINISHED by reflexivity.
  rewrite main_steps_S. cbn [main_step main_steps].
  set (v2 := set_state_index (set_state_index v WAIT_TILL_CONV_FINISHED)
                             READ_TEMP).
  rewrite (main_loop_body_READ_TEMP env v2 eq_refl).
  fold a. set (h2 := (h ++ _) ++ _).
  destruct (case_READ_TEMP_spec env v2 h2)
    as (sp & d & Er & _ & _ & _ & Hcases).
  change (ds18b20_addr v2) with (ds18b20_addr v) in Er, Hcases.
  change (sen_count v2) with (sen_count v) in Er, Hcases.
  fold a n in Er, Hcases. cbv zeta in Hcases.
  destruct (read_scratchpad_bytes env (Z.to_nat ds18b20_scratchpad_len)
              (h2 ++ [Ev_uart_ow_command CMD_READ_SCRATCHPAD a]))
    as (bs & Hlen & Eb).
  rewrite Eb in Er. injection Er as Hsp Hd.
  apply app_inv_head in Hd. subst sp d.
  destruct Hcases as [[_ E]|[(_ & df & _ & E)|[Hcrc E]]];
    rewrite E; unfold bind, ret; do 2 eexists; (split; [reflexivity|]).
  - left. eexists. split; reflexivity.
  - left. eexists. split; reflexivity.
  - right. exists bs. split; [split; [exact Hlen|exact Hcrc]|].
    split; [reflexivity|].
    subst h2. unfold probe_trace. rewrite <- !app_assoc. reflexivity.
Qed.

Lemma sample_value_nonneg (s : Sample) : is_nonneg_SF (sample_value s) = true.
Proof.
  destruct s; cbn [sample_value]; try reflexivity.
  apply adc_voltage_nonneg, to_uint16_range.
Qed.

(** One call of the sampler is one [Sample]. *)
Lemma gp2y_sample (h : Trace) :
  exists s,
    sample_ok s = true /\
    gp2y_read_dust_output_voltage_float env h
    = (sample_value s, h ++ sample_trace s).
Proof.
  destruct (gp2y_shapes env h) as (r1 & raw & r2 & [[Hr E]|[[Hr E]|E]]).
  - exists (Smp_on_failed r1). cbn [sample_ok]. rewrite Hr. auto.
  - exists (Smp_off_failed raw r2). cbn [sample_ok]. rewrite Hr. auto.
  - exists (Smp_read raw). auto.
Qed.

Lemma dust_sample_loop_samples (n : nat) :
  forall v h, exists ss vl,
    length ss = n /\ forallb sample_ok ss = true /\
    dust_sample_loop env n v h = (vl, h ++ batch_trace ss) /\
    acc_dust_concentration vl = batch_sum (acc_dust_concentration v) ss.
Proof.
  induction n as [|n IH]; intros v h.
  - exists [], v. cbn. rewrite app_nil_r. auto.
  - cbn [dust_sample_loop]. unfold bind.
    destruct (gp2y_sample h) as (s & Hok & E). rewrite E.
    destruct (dust_accumulate_frame v _ (sample_value_nonneg s)) as [_ Hacc].
    set (v1 := set_dust_sensor_sample_count _ _).
    destruct (IH v1 (h ++ sample_trace s)) as (ss & vl & Hlen & Hoks & El & Hl).
    exists (s :: ss), vl. cbn [length forallb]. rewrite Hok, Hoks.
    split; [lia|]. split; [reflexivity|]. split.
    + rewrite El. unfold batch_trace. cbn [map concat].
      rewrite app_assoc. reflexivity.
    + rewrite Hl. subst v1. cbn [batch_sum fold_left].
      change (acc_dust_concentration
                (set_dust_sensor_sample_count ?x ?y))
        with (acc_dust_concentration x).
      rewrite Hacc. reflexivity.
Qed.

(** [READ_DUST_CONCENTRATION] with the samples it took: the mean of the
    batch goes through [dust_density] and the result is what the store is
    called with. *)
Lemma case_READ_DUST_CONCENTRATION_trace (v : Vars) (h : Trace) :
  exists ss vl,
    length ss = 16%nat /\ forallb sample_ok ss = true /\
    dust_mean vl = batch_mean ss /\
    batch_frame (dust_batch_start v) vl /\
    (case_READ_DUST_CONCENTRATION env v h
     = (Running (set_state_index (after_dust_batch vl) READ_HUMIDITY),
        h ++ batch_trace ss
          ++ store_trace_ok (NUM_OF_SENSORS + 1) (dust_value ss))
     \/
     exists df, store_failure_trace (NUM_OF_SENSORS + 1) (dust_value ss) df /\
       case_READ_DUST_CONCENTRATION env v h
       = (Running (set_state_index (after_dust_batch vl) (WAIT + 1)),
          h ++ batch_trace ss ++ df)).
Proof.
  destruct (case_READ_DUST_CONCENTRATION_spec env v h)
    as (vl & d & El & _ & Hfr & Hcases).
  destruct (dust_sample_loop_samples (Z.to_nat dust_sensor_max_sample)
              (dust_batch_start v) h) as (ss & vl' & Hlen & Hok & El' & Hacc).
  rewrite El in El'. injection El' as <- Hd. apply app_inv_head in Hd.
  subst d.
  assert (Hmean : dust_mean vl = batch_mean ss).
  { unfold dust_mean, batch_mean. rewrite Hacc. reflexivity. }
  exists ss, vl. split; [exact Hlen|]. split; [exact Hok|].
  split; [exact Hmean|]. split; [exact Hfr|].
  cbv zeta in Hcases. unfold dust_value. rewrite <- Hmean.
  destruct Hcases as [E|(df & Hdf & E)].
  - left. rewrite E. rewrite <- app_assoc. reflexivity.
  - right. exists df. split; [exact Hdf|]. rewrite E.
    rewrite <- app_assoc. reflexivity.
Qed.

Lemma dust_pass_trace (v : Vars) (h : Trace) :
  state_index v = READ_DUST_CONCENTRATION ->
  exists c h',
    main_step env (Running v) h = (c, h') /\
    (faulted c \/
     exists v' ss,
       length ss = 16%nat /\ forallb sample_ok ss = true /\
       c = Running v' /\ state_index v' = READ_HUMIDITY /\
       sen_count v' = sen_count v /\ ds18b20_addr v' = ds18b20_addr v /\
       h' = h ++ batch_trace ss
              ++ store_trace_ok (NUM_OF_SENSORS + 1) (dust_value ss)).
Proof.
  intros Hs. cbn [main_step].
  rewrite (main_loop_body_READ_DUST_CONCENTRATION env v Hs).
  destruct (case_READ_DUST_CONCENTRATION_trace v h)
    as (ss & vl & Hlen & Hok & _ & Hfr & Hcases).
  destruct Hfr as (_ & Hsc & Ha & _).
  destruct Hcases as [E|(df & _ & E)]; rewrite E; do 2 eexists;
    (split; [reflexivity|]).
  - right. exists (set_state_index (after_dust_batch vl) READ_HUMIDITY), ss.
    split; [exact Hlen|]. split; [exact Hok|].
    split; [reflexivity|]. split; [reflexivity|].
    split; [exact Hsc|]. split; [exact Ha|]. reflexivity.
  - left. eexists. split; reflexivity.
Qed.

Lemma humidity_pass_trace (v : Vars) (h : Trace) :
  state_index v = READ_HUMIDITY ->
  exists c h',
    main_step env (Running v) h = (c, h') /\
    (faulted c \/
     exists v' raw,
       raw = env_aio_read env h hsm_aio_in /\
       c = Running v' /\ state_index v' = WAIT /\
       sen_count v' = sen_count v /\ ds18b20_addr v' = ds18b20_addr v /\
       h' = h ++ Ev_aio_read hsm_aio_in raw
              :: store_trace_ok (NUM_OF_SENSORS + 2) (humidity_value raw)).
Proof.
  intros Hs. cbn [main_step].
  rewrite (main_loop_body_READ_HUMIDITY env v Hs).
  pose proof (case_READ_HUMIDITY_spec env v h) as C. cbv zeta in C.
  rewrite <- (humidity_value_eq (env_aio_read env h hsm_aio_in)) in C.
  set (raw := env_aio_read env h hsm_aio_in) in *.
  set (hum := humidity_value raw) in *.
  destruct C as [E|(df & _ & E)]; rewrite E; do 2 eexists;
    (split; [reflexivity|]).
  - right. exists (set_state_index (set_humidity v hum) WAIT), raw.
    split; [reflexivity|]. split; [reflexivity|]. split; [reflexivity|].
    split; [reflexivity|]. split; [reflexivity|].
    rewrite <- app_assoc. reflexivity.
  - left. eexists. split; reflexivity.
Qed.

(** One cycle from [START_CONV] with the probe index at 0: either it is
    cut short and the program spins, or it is back where it started and
    its trace is the trace of a complete cycle. *)
Lemma one_cycle_trace (v : Vars) (h : Trace) :
  state_index v = START_CONV -> sen_count v = 0 ->
  exists c h9,
    main_steps env cycle_steps (Running v) h = (c, h9) /\
    ((exists v', c = Spinning v') \/
     exists v' cy,
       cycle_complete env cy /\
       c = Running v' /\ state_index v' = START_CONV /\ sen_count v' = 0 /\
       ds18b20_addr v' = ds18b20_addr v /\
       h9 = h ++ cycle_trace (ds18b20_addr v) cy).
Proof.
  intros Hs Hc.
  change cycle_steps with (3 + (3 + (1 + (1 + 1))))%nat.
  rewrite main_steps_add.
  destruct (probe_passes_trace v h Hs) as (c3 & h3 & E3 & [Hf|Hok]);
    rewrite E3.
  { destruct (faulted_spins env 5 c3 h3 Hf) as (vf & hf & Ef).
    exists (Spinning vf), hf. split; [exact Ef|]. left. eauto. }
  destruct Hok as (bs1 & Hcrc1 & -> & ->).
  rewrite Hc.
  destruct (after_read_temp_first (set_state_index v READ_TEMP)
              (probe_value bs1) Hc) as (Hs3 & Hc3 & Ha3).
  set (v3 := after_read_temp (set_state_index v READ_TEMP) (probe_value bs1))
    in *.
  rewrite main_steps_add.
  match goal with
  | |- context [main_steps env 3 (Running v3) ?t] => set (h3 := t)
  end.
  destruct (probe_passes_trace v3 h3 Hs3) as (c6 & h6 & E6 & [Hf|Hok]);
    rewrite E6.
  { destruct (faulted_spins env 2 c6 h6 Hf) as (vf & hf & Ef).
    exists (Spinning vf), hf. split; [exact Ef|]. left. eauto. }
  destruct Hok as (bs2 & Hcrc2 & -> & ->).
  rewrite Hc3, Ha3.
  change (ds18b20_addr (set_state_index v READ_TEMP)) with (ds18b20_addr v).
  destruct (after_read_temp_second (set_state_index v3 READ_TEMP)
              (probe_value bs2) Hc3) as (Hs6 & Hc6 & Ha6).
  set (v6 := after_read_temp (set_state_index v3 READ_TEMP) (probe_value bs2))
    in *.
  rewrite main_steps_add. cbn [main_steps]. unfold bind at 1, ret at 1.
  match goal with
  | |- context [main_step env (Running v6) ?t] => set (h6 := t)
  end.
  destruct (dust_pass_trace v6 h6 Hs6) as (c7 & h7 & E7 & [Hf|Hok]);
    rewrite E7.
  { destruct (faulted_spins env 1 c7 h7 Hf) as (vf & hf & Ef).
    exists (Spinning vf), hf. split; [exact Ef|]. left. eauto. }
  destruct Hok as (v7 & ss & Hlen & Hoks & -> & Hs7 & Hc7 & Ha7 & ->).
  rewrite main_steps_add. cbn [main_steps]. unfold bind at 1, ret at 1.
  match goal with
  | |- context [main_step env (Running v7) ?t] => set (h7 := t)
  end.
  destruct (humidity_pass_trace v7 h7 Hs7) as (c8 & h8 & E8 & [Hf|Hok]);
    rewrite E8.
  { destruct (faulted_spins env 0 c8 h8 Hf) as (vf & hf & Ef).
    exists (Spinning vf), hf. split; [exact Ef|]. left. eauto. }
  destruct Hok as (v8 & raw & _ & -> & Hs8 & Hc8 & Ha8 & ->).
  unfold bind, ret.
  match goal with
  | |- context [main_step env (Running v8) ?t] =>
      rewrite (main_step_WAIT env v8 t Hs8)
  end.
  do 2 eexists. split; [reflexivity|]. right.
  exists (set_state_index v8 START_CONV),
         {| cy_probe1 := bs1; cy_probe2 := bs2; cy_dust := ss;
            cy_humidity := raw |}.
  split; [unfold cycle_complete; cbn [cy_probe1 cy_probe2 cy_dust]; auto|].
  split; [reflexivity|]. split; [reflexivity|].
  split.
  { change (sen_count (set_state_index v8 START_CONV)) with (sen_count v8).
    congruence. }
  split.
  { change (ds18b20_addr (set_state_index v8 START_CONV))
      with (ds18b20_addr v8).
    change (ds18b20_addr (set_state_index v3 READ_TEMP))
      with (ds18b20_addr v3) in Ha6.
    change (ds18b20_addr (set_state_index v READ_TEMP))
      with (ds18b20_addr v) in Ha3.
    congruence. }
  subst h7 h6 h3. unfold cycle_trace.
  cbn [cy_probe1 cy_probe2 cy_dust cy_humidity].
  change (to_uint8 (0 + 1)) with 1. change (to_uint8 (1 + 1)) with 2.
  rewrite <- !app_assoc. cbn [app]. reflexivity.
Qed.

End CycleTraces.

(** ** Order of the persisted readings *)

(** C5: in every run of complete cycles with the 2 configured probes (a run
    of [k] cycles that is still in the loop afterwards, so that no read and
    no store failed), the trace is that of [k] complete cycles: in each, the
    first enumerated probe is converted and read and its decoded
    temperature inserted under id 1, the second likewise under id 2, then
    sixteen dust samples are taken and the density of their mean inserted
    under id N+1, then the humidity ADC is read once and the humidity of
    that count inserted under id N+2.  So each cycle hands SQLite exactly
    one insert per sensor, ids in the order 1, 2, 3, 4, each with the value
    computed from what that sensor answered in that cycle; nothing is
    interleaved or reordered, and every cycle repeats the same mapping. *)
Theorem cycle_insert_order
  (env : Env) (k : nat) (v v' : Vars) (h h' : Trace) :
  state_index v = START_CONV ->
  sen_count v = 0 ->
  main_steps env (k * cycle_steps) (Running v) h = (Running v', h') ->
  state_index v' = START_CONV /\
  sen_count v' = 0 /\
  ds18b20_addr v' = ds18b20_addr v /\
  exists cs,
    length cs = k /\
    Forall (cycle_complete env) cs /\
    let d := concat (map (cycle_trace (ds18b20_addr v)) cs) in
    h' = h ++ d /\
    db_inserts d = concat (map cycle_inserts cs) /\
    milestones d = concat (repeat (cycle_milestones (ds18b20_addr v)) k) /\
    map fst (db_inserts d) = concat (repeat [1; 2; 3; 4] k).
Proof.
  revert v h. induction k as [|k IH]; intros v h Hs Hc Hrun.
  - cbn in Hrun. injection Hrun as <- <-.
    repeat (split; [assumption || reflexivity|]).
    exists []. cbn. rewrite app_nil_r. repeat split. constructor.
  - change (S k * cycle_steps)%nat with (cycle_steps + k * cycle_steps)%nat
      in Hrun.
    rewrite main_steps_add in Hrun.
    destruct (one_cycle_trace env v h Hs Hc) as (c & h9 & E & Hcases).
    rewrite E in Hrun.
    destruct Hcases
      as [(vs & ->)|(v1 & cy & Hcy & -> & Hs1 & Hc1 & Ha1 & ->)].
    { rewrite main_steps_stuck in Hrun by discriminate. discriminate Hrun. }
    destruct (IH v1 _ Hs1 Hc1 Hrun)
      as (Hs' & Hc' & Ha' & cs & Hlen & Hall & Hd & Hi & Hm & Hf).
    cbv zeta in Hd, Hi, Hm, Hf. rewrite Ha1 in Hd, Hi, Hm, Hf.
    repeat (split; [congruence|]).
    exists (cy :: cs). cbn [length map concat repeat].
    split; [lia|]. split; [constructor; assumption|].
    destruct (cycle_trace_milestones (ds18b20_addr v) cy) as [Hm1 Hi1].
    cbv zeta.
    split; [rewrite Hd, app_assoc; reflexivity|].
    rewrite db_inserts_app, milestones_app, map_app, Hf, Hm1, Hi1, Hi, Hm.
    repeat split.
Qed.

Lemma cycle_insert_order_witness :
  let env := env_of_rig rig_ok in
  let start := main env 1 [] in
  let stop := main_steps env (2 * cycle_steps) (fst start) (snd start) in
  state_index (vars_of (fst start)) = START_CONV /\
  sen_count (vars_of (fst start)) = 0 /\
  fst stop = Running (vars_of (fst stop)) /\
  map fst (db_inserts (skipn (length (snd start)) (snd stop)))
  = [1; 2; 3; 4; 1; 2; 3; 4].
Proof.
  intros env start stop.
  assert (Hs : state_index (vars_of (fst start)) = START_CONV)
    by (vm_compute; reflexivity).
  assert (Hc : sen_count (vars_of (fst start)) = 0)
    by (vm_compute; reflexivity).
  assert (Hrun : main_steps env (2 * cycle_steps)
                   (Running (vars_of (fst start))) (snd start)
                 = (Running (vars_of (fst stop)), snd stop))
    by (vm_compute; reflexivity).
  pose proof (cycle_insert_order env 2 _ _ _ _ Hs Hc Hrun) as H.
  destruct H as (_ & _ & _ & cs & _ & _ & Hd & _ & _ & Hi).
  split; [exact Hs|].
  split; [exact Hc|].
  split; [vm_compute; reflexivity|].
  rewrite Hd.
  rewrite skipn_app, skipn_all, Nat.sub_diag.
  exact Hi.
Defined.

(** ** Magnitude of rounded results *)

(** The binary digits of a mantissa against the powers of two. *)
Lemma digits2_pos_spec (p : positive) :
  2 ^ (Zpos (digits2_pos p) - 1) <= Zpos p < 2 ^ Zpos (digits2_pos p).
Proof.
  induction p as [p IH|p IH|]; cbn [digits2_pos]; [| |cbn; lia];
    rewrite Pos2Z.inj_succ;
    replace (Z.succ (Zpos (digits2_pos p)) - 1)
      with (Z.succ (Zpos (digits2_pos p) - 1)) by lia;
    rewrite !Z.pow_succ_r by lia; lia.
Qed.

Lemma Zdigits2_nonneg (m : Z) : 0 <= Zdigits2 m.
Proof. destruct m; cbn; lia. Qed.

Lemma Zdigits2_bound (m : Z) : Z.abs m < 2 ^ Zdigits2 m.
Proof.
  destruct m as [|p|p]; cbn [Zdigits2 Z.abs]; [cbn; lia| |];
    apply digits2_pos_spec.
Qed.

Lemma Zdigits2_le (m k : Z) : 0 <= k -> Z.abs m < 2 ^ k -> Zdigits2 m <= k.
Proof.
  intros Hk Hm.
  destruct m as [|p|p]; cbn [Zdigits2 Z.abs] in *; [exact Hk| |];
    pose proof (digits2_pos_spec p) as [Hlo _];
    assert (H : 2 ^ (Zpos (digits2_pos p) - 1) < 2 ^ k) by lia;
    apply Z.pow_lt_mono_r_iff in H; lia.
Qed.

Lemma shr_1_digits (mrs : shr_record) :
  0 <= shr_m mrs ->
  0 <= shr_m (shr_1 mrs) /\
  Zdigits2 (shr_m (shr_1 mrs)) = Z.max 0 (Zdigits2 (shr_m mrs) - 1).
Proof.
  destruct mrs as [m r s]. cbn [shr_m]. intros Hm.
  destruct m as [|[p|p|]|p]; cbn [shr_1 shr_m Zdigits2 digits2_pos];
    try lia; rewrite ?Pos2Z.inj_succ; lia.
Qed.

Lemma iter_shr_1_digits (p : positive) :
  forall mrs d,
    0 <= shr_m mrs -> Zdigits2 (shr_m mrs) = Z.max 0 d ->
    0 <= shr_m (iter_pos shr_1 p mrs) /\
    Zdigits2 (shr_m (iter_pos shr_1 p mrs)) = Z.max 0 (d - Zpos p).
Proof.
  assert (Hstep : forall mrs d,
             0 <= shr_m mrs -> Zdigits2 (shr_m mrs) = Z.max 0 d ->
             0 <= shr_m (shr_1 mrs) /\
             Zdigits2 (shr_m (shr_1 mrs)) = Z.max 0 (d - 1)).
  { intros mrs d H0 Hd. destruct (shr_1_digits mrs H0) as [H1 H2].
    split; [exact H1|]. rewrite H2, Hd. lia. }
  induction p as [p IH|p IH|]; intros mrs d H0 Hd; cbn [iter_pos].
  - destruct (Hstep mrs d H0 Hd) as [H1 H2].
    destruct (IH _ _ H1 H2) as [H3 H4].
    destruct (IH _ _ H3 H4) as [H5 H6].
    split; [exact H5|]. rewrite H6. f_equal. lia.
  - destruct (IH _ _ H0 Hd) as [H3 H4].
    destruct (IH _ _ H3 H4) as [H5 H6].
    split; [exact H5|]. rewrite H6. f_equal. lia.
  - apply Hstep; assumption.
Qed.

Section Magnitude.

Variables prec emax : Z.
Hypothesis Hprec : 0 < prec.

Lemma shr_record_of_loc_m (m : Z) (l : location) :
  shr_m (shr_record_of_loc m l) = m.
Proof. destruct l as [|[]]; reflexivity. Qed.

(** After the shift to the exponent of the format the mantissa has at most
    [prec] digits, and the magnitude has not grown. *)
Lemma shr_fexp_digits (m e : Z) (l : location) :
  0 <= m ->
  let r := shr_fexp prec emax m e l in
  0 <= shr_m (fst r) /\
  Zdigits2 (shr_m (fst r)) <= prec /\
  Zdigits2 (shr_m (fst r)) + snd r
  <= Z.max (Zdigits2 m + e) (emin prec emax).
Proof.
  intros Hm. unfold shr_fexp, shr, fexp.
  pose proof (Zdigits2_nonneg m) as Hd.
  set (d := Zdigits2 m) in *.
  destruct (Z.max (d + e - prec) (emin prec emax) - e) as [|p|p] eqn:Ek;
    cbn [fst snd]; rewrite ?shr_record_of_loc_m.
  - fold d. lia.
  - destruct (iter_shr_1_digits p (shr_record_of_loc m l) d) as [H1 H2].
    + rewrite shr_record_of_loc_m. exact Hm.
    + rewrite shr_record_of_loc_m. fold d. lia.
    + split; [exact H1|]. rewrite H2. lia.
  - fold d. lia.
Qed.

Lemma round_nearest_even_digits (m : Z) (l : location) :
  0 <= m ->
  0 <= round_nearest_even m l /\
  Zdigits2 (round_nearest_even m l) <= Zdigits2 m + 1.
Proof.
  intros Hm. split; [apply round_nearest_even_nonneg, Hm|].
  pose proof (Zdigits2_bound m) as Hb.
  pose proof (Zdigits2_nonneg m) as Hd.
  assert (Hm1 : Zdigits2 (m + 1) <= Zdigits2 m + 1).
  { apply Zdigits2_le; [lia|]. rewrite Z.pow_add_r by lia.
    change (2 ^ 1) with 2. lia. }
  unfold round_nearest_even.
  destruct l as [|[]]; try destruct (Z.even m); lia.
Qed.

(** A finite result of the rounding has at most [prec] digits and a
    magnitude at most one above that of what was rounded. *)
Lemma binary_round_aux_digits (s : bool) (m e : Z) (l : location)
  (s' : bool) (m' : positive) (e' : Z) :
  0 <= m ->
  binary_round_aux prec emax s m e l = S754_finite s' m' e' ->
  Zpos (digits2_pos m') <= prec /\
  Zpos (digits2_pos m') + e'
  <= Z.max (Zdigits2 m + e) (emin prec emax) + 1.
Proof.
  intros Hm. unfold binary_round_aux.
  pose proof (shr_fexp_digits m e l Hm) as H1. cbv zeta in H1.
  destruct (shr_fexp prec emax m e l) as [mrs1 e1]. cbn [fst snd] in H1.
  destruct H1 as (H10 & _ & H12).
  destruct (round_nearest_even_digits (shr_m mrs1) (loc_of_shr_record mrs1)
              H10) as [Hr0 Hr1].
  pose proof (shr_fexp_digits _ e1 loc_Exact Hr0) as H2. cbv zeta in H2.
  destruct (shr_fexp prec emax
              (round_nearest_even (shr_m mrs1) (loc_of_shr_record mrs1)) e1
              loc_Exact) as [mrs2 e2].
  cbn [fst snd] in H2. destruct H2 as (_ & H21 & H22).
  destruct (shr_m mrs2) as [|p|p]; try discriminate.
  destruct (e2 <=? emax - prec); try discriminate.
  intros E. injection E as _ <- <-. cbn [Zdigits2] in H21, H22. lia.
Qed.

Lemma iter_xO_digits (d : positive) (m : positive) :
  Zpos (digits2_pos (Pos.iter xO m d)) = Zpos (digits2_pos m) + Zpos d.
Proof.
  revert m. induction d as [|d IH] using Pos.peano_ind; intros m.
  - cbn [Pos.iter digits2_pos]. rewrite Pos2Z.inj_succ. lia.
  - rewrite Pos.iter_succ. cbn [digits2_pos].
    rewrite !Pos2Z.inj_succ, IH. lia.
Qed.

Lemma shl_align_digits (mx : positive) (ex ex' : Z) :
  Zpos (digits2_pos (fst (shl_align mx ex ex'))) + snd (shl_align mx ex ex')
  = Zpos (digits2_pos mx) + ex.
Proof.
  unfold shl_align. destruct (ex' - ex) as [|d|d] eqn:E; cbn [fst snd];
    try reflexivity.
  rewrite iter_xO_digits. lia.
Qed.

Lemma binary_normalize_digits (m e : Z) (sz : bool)
  (s' : bool) (m' : positive) (e' : Z) :
  binary_normalize prec emax m e sz = S754_finite s' m' e' ->
  Zpos (digits2_pos m') <= prec /\
  Zpos (digits2_pos m') + e'
  <= Z.max (Zdigits2 m + e) (emin prec emax) + 1.
Proof.
  destruct m as [|p|p]; cbn [binary_normalize]; try discriminate;
    unfold binary_round;
    pose proof (shl_align_digits p e
                  (fexp prec emax (Zpos (digits2_pos p) + e))) as Ha;
    destruct (shl_align p e _) as [mz ez]; cbn [fst snd] in Ha;
    intros E; apply binary_round_aux_digits in E; try lia;
    cbn [Zdigits2] in *; lia.
Qed.

End Magnitude.

(** ** Which statements fit the buffer *)

Lemma decimal_digits_from_le (fuel : nat) :
  forall n k, 1 <= k -> n < 10 ^ k -> decimal_digits_from fuel n <= k.
Proof.
  induction fuel as [|fuel IH]; intros n k Hk Hn; cbn [decimal_digits_from];
    [exact Hk|].
  destruct (Z.ltb_spec n 10) as [Hlt|Hge]; [exact Hk|].
  assert (Hk2 : 2 <= k).
  { destruct (Z.eq_dec k 1) as [->|]; [change (10 ^ 1) with 10 in Hn|]; lia. }
  assert (H : decimal_digits_from fuel (n / 10) <= k - 1).
  { apply IH; [lia|]. apply Z.div_lt_upper_bound; [lia|].
    rewrite <- Z.pow_succ_r by lia. replace (Z.succ (k - 1)) with k by lia.
    exact Hn. }
  lia.
Qed.

Lemma round_half_even_le (n : Z) (d : positive) (b : Z) :
  0 <= n -> n <= b * Zpos d -> round_half_even n d <= b.
Proof.
  intros Hn Hb. unfold round_half_even.
  pose proof (Z.div_mod n (Zpos d) ltac:(lia)) as Hdm.
  pose proof (Z.mod_pos_bound n (Zpos d) ltac:(lia)) as Hr.
  assert (Hup : n mod Zpos d > 0 -> n / Zpos d + 1 <= b) by nia.
  assert (Hq : n / Zpos d <= b) by nia.
  destruct (Z.compare_spec (2 * (n mod Zpos d)) (Zpos d)) as [E|E|E];
    [destruct (Z.even (n / Zpos d))| |]; try lia; apply Hup; lia.
Qed.

Lemma hundredths_le (x : c_float) (b : Z) :
  (Qabs (SF2Q x) <= inject_Z b)%Q -> hundredths x <= 100 * b.
Proof.
  unfold hundredths. destruct (SF2Q x) as [n d]. cbn [Qnum Qden].
  unfold Qle, Qabs, inject_Z. cbn [Qnum Qden]. intros H.
  apply round_half_even_le; lia.
Qed.

(** A finite value below [10 ^ k] in magnitude is printed in at most
    [k + 4] characters. *)
Lemma printf_f2_length_le (x : c_float) (b k : Z) :
  is_finite_SF x = true -> 1 <= k -> b < 10 ^ k ->
  (Qabs (SF2Q x) <= inject_Z b)%Q ->
  printf_f2_length x <= k + 4.
Proof.
  intros Hf Hk Hb Hx.
  pose proof (hundredths_le x b Hx) as Hh.
  assert (Hd : decimal_digits (hundredths x / 100) <= k).
  { apply decimal_digits_from_le; [exact Hk|].
    apply Z.div_lt_upper_bound; lia. }
  destruct x as [s|s| |s m e]; try discriminate Hf;
    cbn [printf_f2_length]; destruct s; lia.
Qed.

Lemma SF2Q_bound (s : bool) (m : positive) (e k : Z) :
  0 <= k -> Zpos (digits2_pos m) + e <= k ->
  (Qabs (SF2Q (S754_finite s m e)) <= inject_Z (2 ^ k))%Q.
Proof.
  intros Hk Hd. cbn [SF2Q].
  assert (Hm : Qabs (inject_Z (cond_Zopp s (Zpos m))) = inject_Z (Zpos m))
    by (destruct s; reflexivity).
  assert (Hp : (Qabs (2 ^ e) == 2 ^ e)%Q)
    by (apply Qabs_pos, Qpower_0_le; discriminate).
  assert (Habs : (Qabs (inject_Z (cond_Zopp s (Zpos m)) * 2 ^ e)
                  == inject_Z (Zpos m) * inject_Z 2 ^ e)%Q).
  { rewrite Qabs_Qmult, Hm, Hp. reflexivity. }
  assert (Hpow : (inject_Z (2 ^ k) == inject_Z 2 ^ k)%Q)
    by (apply Zpower_Qpower, Hk).
  assert (Hmd : (inject_Z (Zpos m) <= inject_Z 2 ^ Zpos (digits2_pos m))%Q).
  { assert (Hz : (inject_Z (2 ^ Zpos (digits2_pos m))
                  == inject_Z 2 ^ Zpos (digits2_pos m))%Q)
      by (apply Zpower_Qpower; lia).
    rewrite <- Hz. rewrite <- Zle_Qle.
    pose proof (digits2_pos_spec m). lia. }
  assert (Hplus : (inject_Z 2 ^ (Zpos (digits2_pos m) + e)
                   == inject_Z 2 ^ Zpos (digits2_pos m) * inject_Z 2 ^ e)%Q)
    by (apply Qpower_plus; discriminate).
  rewrite Habs, Hpow.
  apply Qle_trans with (inject_Z 2 ^ Zpos (digits2_pos m) * inject_Z 2 ^ e)%Q.
  - apply Qmult_le_compat_r; [exact Hmd|apply Qpower_0_le; discriminate].
  - rewrite <- Hplus.
    apply Qpower_le_compat_l; [exact Hd|discriminate].
Qed.

Lemma small_SF_length (x : c_float) : small_SF x -> printf_f2_length x <= 5.
Proof.
  destruct x as [s|s| |s m e]; cbn [small_SF]; intros H.
  - apply (printf_f2_length_le _ 0 1); try reflexivity; try lia.
    cbn. discriminate.
  - cbn. destruct s; lia.
  - cbn. lia.
  - apply (printf_f2_length_le _ (2 ^ 3) 1); try reflexivity; try lia.
    apply SF2Q_bound; [lia|exact H].
Qed.

Lemma query_fits_length (sen_id : Z) (sen_val : c_float) :
  1 <= sen_id <= 9 -> printf_f2_length sen_val <= 8 ->
  query_fits sen_id sen_val = true.
Proof.
  intros Hid Hlen. unfold query_fits, query_length, printf_d_length.
  assert (Hd : decimal_digits (Z.abs sen_id) = 1).
  { unfold decimal_digits.
    destruct (Z.to_nat (Z.log2 (Z.abs sen_id))); cbn [decimal_digits_from];
      [reflexivity|].
    destruct (Z.ltb_spec (Z.abs sen_id) 10); [reflexivity|lia]. }
  rewrite Hd. destruct (Z.ltb_spec sen_id 0); [lia|].
  apply Z.leb_le. cbn [String.length query_before_id query_before_val
                        query_after_val]. 
  unfold QUERY_BUFFER_SIZE. lia.
Qed.

(** *** The temperature of a probe *)

Lemma probe_value_fits (sen_id : Z) (sp : list Z) :
  1 <= sen_id <= 9 -> Forall (fun b => 0 <= b < 256) sp ->
  query_fits sen_id (temp_scale (temp_adc_val sp)) = true.
Proof.
  intros Hid Hsp. apply query_fits_length; [exact Hid|].
  assert (Hr : -32768 <= temp_adc_val sp < 32768).
  { destruct (temp_adc_val_two_bytes sp) as (_ & _ & ->).
    pose proof (nth_byte_range sp 0 Hsp) as H0.
    pose proof (nth_byte_range sp 1 Hsp) as H1.
    pose proof (decode_bytes_ok _ _ H0 H1) as H.
    unfold decode_bytes_check in H.
    apply andb_prop in H as [_ H]. apply Z.eqb_eq in H. rewrite H.
    apply twos_complement16_range. lia. }
  destruct (temp_scale_exact _ Hr) as [Hf Hq].
  apply (printf_f2_length_le _ 2048 4); [exact Hf|lia|reflexivity|].
  rewrite Hq. unfold Qle, Qabs, Qmult, inject_Z. cbn [Qnum Qden].
  lia.
Qed.

(** *** The density of a dust batch *)

Lemma SFdiv_core_digits (prec emax : Z) (m1 m2 : positive) (e1 e2 : Z) :
  0 < prec ->
  let r := SFdiv_core_binary prec emax (Zpos m1) e1 (Zpos m2) e2 in
  0 <= fst (fst r) /\
  Zdigits2 (fst (fst r)) + snd (fst r)
  <= Z.max (Zpos (digits2_pos m1) + e1 - (Zpos (digits2_pos m2) + e2) + 1)
           (emin prec emax).
Proof.
  intros Hprec. unfold SFdiv_core_binary. cbn [Zdigits2].
  set (d1 := Zpos (digits2_pos m1)). set (d2 := Zpos (digits2_pos m2)).
  set (e' := Z.min (fexp prec emax (d1 + e1 - (d2 + e2))) (e1 - e2)).
  set (s := e1 - e2 - e').
  set (m' := match s with Z0 => Zpos m1 | Zpos _ => Z.shiftl (Zpos m1) s
                     | Zneg _ => 0 end).
  assert (Hs : 0 <= s) by (subst s e'; lia).
  assert (Hm' : m' = Zpos m1 * 2 ^ s).
  { subst m'. destruct s as [|p|p] eqn:Es; [cbn; lia| |lia].
    rewrite Z.shiftl_mul_pow2 by lia. reflexivity. }
  pose proof (digits2_pos_spec m1) as [_ H1]. fold d1 in H1.
  pose proof (digits2_pos_spec m2) as [H2 _]. fold d2 in H2.
  assert (Hd1 : 1 <= d1) by (subst d1; lia).
  assert (Hd2 : 1 <= d2) by (subst d2; lia).
  assert (Hm'b : 0 <= m' < 2 ^ (d1 + s)).
  { rewrite Hm', Z.pow_add_r by lia.
    pose proof (Z.pow_pos_nonneg 2 s ltac:(lia) Hs). nia. }
  pose proof (Z.div_mod m' (Zpos m2) ltac:(lia)) as Hdm.
  pose proof (Z.mod_pos_bound m' (Zpos m2) ltac:(lia)) as Hr.
  assert (Hq0 : 0 <= m' / Zpos m2) by (apply Z.div_pos; lia).
  unfold Z.div, Z.modulo in *.
  destruct (Z.div_eucl m' (Zpos m2)) as [q r]. cbn [fst snd].
  split; [exact Hq0|].
  assert (He' : e' <= Z.max (d1 + e1 - (d2 + e2) + 1) (emin prec emax)).
  { subst e'. unfold fexp. lia. }
  destruct (Z_lt_le_dec (d1 + s - d2 + 1) 0) as [Hneg|Hpos].
  - (* the quotient is 0 *)
    assert (Hq : q = 0).
    { assert (Hlt : m' < Zpos m2).
      { apply Z.lt_le_trans with (2 ^ (d1 + s)); [lia|].
        apply Z.le_trans with (2 ^ (d2 - 1)); [|exact H2].
        apply Z.pow_le_mono_r; lia. }
      nia. }
    rewrite Hq. cbn [Zdigits2]. lia.
  - assert (Hq : Zdigits2 q <= d1 + s - d2 + 1).
    { apply Zdigits2_le; [exact Hpos|].
      rewrite Z.abs_eq by exact Hq0.
      assert (Hpow : 2 ^ (d1 + s) = 2 ^ (d1 + s - d2 + 1) * 2 ^ (d2 - 1)).
      { rewrite <- Z.pow_add_r by lia. f_equal. lia. }
      pose proof (Z.pow_pos_nonneg 2 (d1 + s - d2 + 1) ltac:(lia) Hpos).
      nia. }
    subst s. lia.
Qed.

Lemma d_5_8_eq : d_5_8 = S754_finite false 6530219459687219 (-50).
Proof. vm_compute. reflexivity. Qed.

Lemma f64_of_f32_digits (x : c_float) (s : bool) (m : positive) (e : Z) :
  f64_of_f32 x = S754_finite s m e -> Zpos (digits2_pos m) <= 53.
Proof.
  destruct x as [sx|sx| |sx mx ex]; cbn [f64_of_f32]; try discriminate.
  intros E. apply binary_normalize_digits in E; lia.
Qed.

(** The middle branch of the dust curve stays below 8. *)
Lemma dust_middle_small (m : c_float) :
  let a := f64_of_f32 m in
  f_gt a d_0_6 = true -> f_le a d_3_5 = true ->
  small_SF (f32_of_f64 (f64_div (f64_sub a d_0_6) d_5_8)).
Proof.
  intros a Hgt Hle.
  pose proof (f64_of_f32_digits m) as Hdig. fold a in Hdig.
  apply f_gt_compare in Hgt. apply f_le_compare in Hle.
  rewrite d_0_6_eq in *. rewrite d_3_5_eq in Hle. rewrite d_5_8_eq.
  destruct a as [sa|sa| |sa ma ea].
  - destruct sa; discriminate Hgt.
  - destruct sa; cbn in Hle; destruct Hle; discriminate.
  - discriminate Hgt.
  - specialize (Hdig sa ma ea eq_refl).
    assert (Hsa : sa = false).
    { destruct sa; [discriminate Hgt|reflexivity]. }
    subst sa. cbn [SFcompare] in Hgt, Hle.
    assert (He : -53 <= ea <= -51).
    { destruct (Z.compare_spec ea (-53)), (Z.compare_spec ea (-51));
        try lia; try discriminate Hgt; destruct Hle; discriminate. }
    (* the difference *)
    unfold f64_sub, SFsub. cbn [cond_Zopp].
    replace (Z.min ea (-53)) with (-53) by lia.
    pose proof (shl_align_digits ma ea (-53)) as Ha.
    assert (Hsnd : snd (shl_align ma ea (-53)) = -53).
    { unfold shl_align. destruct (-53 - ea) as [|p|p] eqn:E; cbn [snd]; lia. }
    rewrite Hsnd in Ha.
    set (A := fst (shl_align ma ea (-53))) in *.
    change (fst (shl_align 5404319552844595 (-53) (-53)))
      with 5404319552844595%positive.
    set (D := Zpos A - 5404319552844595).
    assert (HD : Zdigits2 D <= 55).
    { apply Zdigits2_le; [lia|].
      pose proof (digits2_pos_spec A) as [_ HA].
      assert (HA' : 2 ^ Zpos (digits2_pos A) <= 2 ^ 55)
        by (apply Z.pow_le_mono_r; lia).
      subst D. change (2 ^ 55) with 36028797018963968 in *. lia. }
    destruct (binary_normalize 53 1024 D (-53) false) as [s1|s1| |s1 m1 e1]
      eqn:E1;
      [destruct s1; exact I | destruct s1; exact I | exact I | ].
    + apply (binary_normalize_digits 53 1024 ltac:(lia)) in E1.
      destruct E1 as [H1a H1b]. unfold emin in H1b.
      (* the quotient *)
      unfold f64_div, SFdiv.
      pose proof (SFdiv_core_digits 53 1024 m1 6530219459687219 e1 (-50)
                    ltac:(lia)) as Hq.
      cbv zeta in Hq.
      destruct (SFdiv_core_binary 53 1024 (Zpos m1) e1
                  (Zpos 6530219459687219) (-50)) as [[mz ez] lz].
      cbn [fst snd] in Hq. destruct Hq as [Hq0 Hq1].
      change (Zpos (digits2_pos 6530219459687219)) with 53 in Hq1.
      unfold emin in Hq1.
      destruct (binary_round_aux 53 1024 (xorb s1 false) mz ez lz)
        as [s2|s2| |s2 m2 e2] eqn:E2; try exact I.
      apply (binary_round_aux_digits 53 1024 ltac:(lia)) in E2; [|exact Hq0].
      destruct E2 as [H2a H2b]. unfold emin in H2b.
      (* the conversion to float *)
      cbn [f32_of_f64].
      destruct (binary_normalize 24 128 (cond_Zopp s2 (Zpos m2)) e2 s2)
        as [s3|s3| |s3 m3 e3] eqn:E3; try exact I.
      apply (binary_normalize_digits 24 128 ltac:(lia)) in E3.
      destruct E3 as [_ H3]. unfold emin in H3.
      cbn [small_SF].
      assert (Hz : Zdigits2 (cond_Zopp s2 (Zpos m2)) = Zpos (digits2_pos m2))
        by (destruct s2; reflexivity).
      rewrite Hz in H3. lia.
Qed.

(** The density of a dust batch is printed in at most five characters,
    whatever the mean. *)
Lemma dust_density_fits (m : c_float) :
  query_fits (NUM_OF_SENSORS + 1) (dust_density m) = true.
Proof.
  apply query_fits_length; [unfold NUM_OF_SENSORS; lia|].
  assert (H : printf_f2_length (dust_density m) <= 5); [|lia].
  unfold dust_density.
  destruct (f_le (f64_of_f32 m) d_0_6) eqn:E6;
    [vm_compute; discriminate|].
  destruct (f_gt (f64_of_f32 m) d_0_6 && f_le (f64_of_f32 m) d_3_5) eqn:E;
    [|vm_compute; discriminate].
  apply andb_prop in E as [Hgt Hle].
  apply small_SF_length, dust_middle_small; assumption.
Qed.

(** *** The humidity of a count *)

Lemma humidity_query_all :
  range_all humidity_query_check (Z.to_nat 1024) 0 = true.
Proof. vm_cast_no_check (eq_refl true). Qed.

Lemma humidity_query_check_eq (raw : Z) :
  humidity_query_check raw
  = query_fits (NUM_OF_SENSORS + 2) (hsm_curve (adc_voltage raw)).
Proof. reflexivity. Qed.

Lemma humidity_value_fits (raw : Z) :
  0 <= raw <= 1023 ->
  query_fits (NUM_OF_SENSORS + 2) (humidity_value raw) = true.
Proof.
  intros Hr.
  pose proof (range_all_spec _ _ _ humidity_query_all raw) as H.
  rewrite Z2Nat.id in H by lia. specialize (H ltac:(lia)).
  rewrite humidity_query_check_eq in H.
  rewrite (humidity_value_eq raw). unfold to_uint16.
  rewrite Z.mod_small by lia. exact H.
Qed.

(** ** The breakpoints of the dust curve, for a [float] mean *)

Lemma shr_fexp_id (prec emax m e : Z) (l : location) :
  fexp prec emax (Zdigits2 m + e) <= e ->
  shr_fexp prec emax m e l = (shr_record_of_loc m l, e).
Proof.
  intros H. unfold shr_fexp, shr.
  destruct (fexp prec emax (Zdigits2 m + e) - e) as [|p|p] eqn:E;
    try reflexivity; lia.
Qed.

Lemma valid_binary32_bounds (s : bool) (m : positive) (e : Z) :
  valid_binary 24 128 (S754_finite s m e) = true ->
  Zpos (digits2_pos m) <= 24 /\ -149 <= e <= 104.
Proof.
  cbn [valid_binary]. unfold bounded, canonical_mantissa, fexp, emin.
  intros H. apply andb_prop in H as [H1 H2].
  apply Z.eqb_eq in H1. apply Z.leb_le in H2. lia.
Qed.

(** The promotion of a [float] to [double] is exact: the mantissa is
    shifted to 53 digits. *)
Lemma f64_of_f32_shape (s : bool) (m : positive) (e : Z) :
  valid_binary 24 128 (S754_finite s m e) = true ->
  exists k mz,
    Zpos k = 53 - Zpos (digits2_pos m) /\
    mz = Pos.iter xO m k /\
    Zpos (digits2_pos mz) = 53 /\
    f64_of_f32 (S754_finite s m e) = S754_finite s mz (e - Zpos k).
Proof.
  intros Hv. destruct (valid_binary32_bounds s m e Hv) as [Hd He].
  set (d := Zpos (digits2_pos m)) in *.
  assert (Hk : exists k, Zpos k = 53 - d).
  { exists (Z.to_pos (53 - d)). rewrite Z2Pos.id; lia. }
  destruct Hk as (k & Hk).
  exists k, (Pos.iter xO m k).
  assert (Hdig : Zpos (digits2_pos (Pos.iter xO m k)) = 53).
  { rewrite iter_xO_digits. fold d. lia. }
  split; [exact Hk|]. split; [reflexivity|]. split; [exact Hdig|].
  assert (Hround : binary_round 53 1024 s m e
                   = S754_finite s (Pos.iter xO m k) (e - Zpos k)).
  { unfold binary_round. fold d.
    assert (Hf : fexp 53 1024 (d + e) = e - Zpos k).
    { unfold fexp, emin. lia. }
    rewrite Hf. unfold shl_align.
    replace (e - Zpos k - e) with (Zneg k) by lia.
    unfold binary_round_aux.
    rewrite shr_fexp_id.
    2:{ cbn [Zdigits2]. rewrite Hdig. unfold fexp, emin. lia. }
    cbn [shr_record_of_loc shr_m loc_of_shr_record round_nearest_even].
    rewrite shr_fexp_id.
    2:{ cbn [Zdigits2]. rewrite Hdig. unfold fexp, emin. lia. }
    cbn [shr_record_of_loc shr_m].
    destruct (Z.leb_spec (e - Zpos k) (1024 - 53)); [reflexivity|lia]. }
  cbn [f64_of_f32]. destruct s; cbn [cond_Zopp binary_normalize];
    exact Hround.
Qed.

Lemma iter_xO_value (k m : positive) :
  Zpos (Pos.iter xO m k) = Zpos m * 2 ^ Zpos k.
Proof.
  revert m. induction k as [|k IH] using Pos.peano_ind; intros m.
  - cbn [Pos.iter]. change (2 ^ 1) with 2. lia.
  - rewrite Pos.iter_succ, Pos2Z.inj_xO, IH, Pos2Z.inj_succ,
      Z.pow_succ_r by lia. lia.
Qed.

(** Two mantissas of 53 digits compare as their values do. *)
Lemma f_le_as_integers (m1 m2 : positive) (e1 e2 sh : Z) :
  Zpos (digits2_pos m1) = 53 -> Zpos (digits2_pos m2) = 53 ->
  0 <= e1 + sh -> 0 <= e2 + sh ->
  (f_le (S754_finite false m1 e1) (S754_finite false m2 e2) = true <->
   Zpos m1 * 2 ^ (e1 + sh) <= Zpos m2 * 2 ^ (e2 + sh)).
Proof.
  intros H1 H2 Hs1 Hs2.
  pose proof (digits2_pos_spec m1) as B1. rewrite H1 in B1.
  pose proof (digits2_pos_spec m2) as B2. rewrite H2 in B2.
  change (2 ^ (53 - 1)) with 4503599627370496 in *.
  change (2 ^ 53) with 9007199254740992 in *.
  unfold f_le, SFleb, SFcompare.
  pose proof (Z.pow_pos_nonneg 2 (e1 + sh) ltac:(lia) Hs1) as P1.
  pose proof (Z.pow_pos_nonneg 2 (e2 + sh) ltac:(lia) Hs2) as P2.
  destruct (Z.compare_spec e1 e2) as [->|Hlt|Hgt].
  - rewrite Pos.compare_cont_spec. cbn [Pos.switch_Eq].
    destruct (Pos.compare_spec m1 m2) as [->|Hm|Hm]; split; intros H;
      try reflexivity; try discriminate H; try nia.
  - assert (Hp : 2 ^ (e2 + sh) = 2 ^ (e2 - e1) * 2 ^ (e1 + sh)).
    { rewrite <- Z.pow_add_r by lia. f_equal. lia. }
    assert (Hq : 2 <= 2 ^ (e2 - e1)).
    { change 2 with (2 ^ 1) at 1. apply Z.pow_le_mono_r; lia. }
    split; [intros _|reflexivity]. rewrite Hp. nia.
  - assert (Hp : 2 ^ (e1 + sh) = 2 ^ (e1 - e2) * 2 ^ (e2 + sh)).
    { rewrite <- Z.pow_add_r by lia. f_equal. lia. }
    assert (Hq : 2 <= 2 ^ (e1 - e2)).
    { change 2 with (2 ^ 1) at 1. apply Z.pow_le_mono_r; lia. }
    split; [discriminate|]. rewrite Hp. nia.
Qed.

(** A dyadic value against a fraction, over the integers. *)
Lemma dyadic_le_fraction (z e sh n : Z) (d : positive) :
  0 <= sh -> 0 <= e + sh ->
  ((inject_Z z * 2 ^ e <= n # d)%Q <->
   Zpos d * (z * 2 ^ (e + sh)) <= n * 2 ^ sh).
Proof.
  intros Hsh He.
  assert (Hpos : (0 < inject_Z 2 ^ sh)%Q).
  { assert (H : (inject_Z (2 ^ sh) == inject_Z 2 ^ sh)%Q)
      by (apply Zpower_Qpower, Hsh).
    rewrite <- H. change 0%Q with (inject_Z 0). rewrite <- Zlt_Qlt.
    apply Z.pow_pos_nonneg; lia. }
  assert (Hl : (inject_Z z * 2 ^ e * inject_Z 2 ^ sh
                == inject_Z (z * 2 ^ (e + sh)))%Q).
  { rewrite inject_Z_mult.
    assert (H : (inject_Z (2 ^ (e + sh)) == inject_Z 2 ^ (e + sh))%Q)
      by (apply Zpower_Qpower, He).
    rewrite H.
    assert (H' : (inject_Z 2 ^ (e + sh)
                  == inject_Z 2 ^ e * inject_Z 2 ^ sh)%Q)
      by (apply Qpower_plus; discriminate).
    rewrite H'. change (2 ^ e)%Q with (inject_Z 2 ^ e)%Q. ring. }
  assert (Hr : ((n # d) * inject_Z 2 ^ sh == (n * 2 ^ sh) # d)%Q).
  { assert (H : (inject_Z (2 ^ sh) == inject_Z 2 ^ sh)%Q)
      by (apply Zpower_Qpower, Hsh).
    rewrite <- H. unfold Qeq, Qmult, inject_Z. cbn [Qnum Qden]. lia. }
  rewrite <- (Qmult_le_r _ _ _ Hpos), Hl, Hr.
  unfold Qle, inject_Z. cbn [Qnum Qden]. lia.
Qed.

(** The value of a [float] on the grid of [2 ^ -202], on which the
    [double] literals 0.6 and 3.5 lie as well. *)
Lemma float_breakpoints (s : bool) (m : positive) (e : Z) :
  valid_binary 24 128 (S754_finite s m e) = true ->
  let x := S754_finite s m e in
  (f_le (f64_of_f32 x) d_0_6 = true <-> (SF2Q x <= 6 # 10)%Q) /\
  (f_le (f64_of_f32 x) d_3_5 = true <-> (SF2Q x <= 35 # 10)%Q).
Proof.
  intros Hv x.
  destruct (valid_binary32_bounds s m e Hv) as [Hd He].
  destruct (f64_of_f32_shape s m e Hv) as (k & mz & Hk & Hmz & Hdig & Ea).
  subst x. rewrite Ea, d_0_6_eq, d_3_5_eq.
  pose proof (digits2_pos_spec m) as [_ Hm].
  assert (Hm24 : Zpos m < 2 ^ 24).
  { apply Z.lt_le_trans with (2 ^ Zpos (digits2_pos m)); [exact Hm|].
    apply Z.pow_le_mono_r; lia. }
  change (2 ^ 24) with 16777216 in Hm24.
  cbn [SF2Q].
  rewrite (dyadic_le_fraction _ e 202 6 10) by lia.
  rewrite (dyadic_le_fraction _ e 202 35 10) by lia.
  destruct s; cbn [cond_Zopp].
  - (* a negative value is below both *)
    pose proof (Z.pow_pos_nonneg 2 (e + 202) ltac:(lia) ltac:(lia)) as P.
    split; (split; [intros _; change (2 ^ 202) with
       6427752177035961102167848369364650410088811975131171341205504; nia
                   |intros _; reflexivity]).
  - rewrite (f_le_as_integers mz 5404319552844595 (e - Zpos k) (-53) 202)
      by (try reflexivity; try assumption; lia).
    rewrite (f_le_as_integers mz 7881299347898368 (e - Zpos k) (-51) 202)
      by (try reflexivity; try assumption; lia).
    assert (HN : Zpos mz * 2 ^ (e - Zpos k + 202) = Zpos m * 2 ^ (e + 202)).
    { rewrite Hmz, iter_xO_value, <- Z.mul_assoc, <- Z.pow_add_r by lia.
      do 2 f_equal. lia. }
    rewrite HN.
    set (N := Zpos m * 2 ^ (e + 202)).
    change (2 ^ (-53 + 202)) with 713623846352979940529142984724747568191373312.
    change (2 ^ (-51 + 202))
      with 2854495385411919762116571938898990272765493248.
    change (2 ^ 202)
      with 6427752177035961102167848369364650410088811975131171341205504.
    split; [|lia].
    split; [lia|]. intros HQ.
    destruct (Z_lt_le_dec e (-24)) as [Hlo|Hhi].
    + (* below 2 ^ -1 *)
      assert (Hp : 2 ^ (e + 202) <= 2 ^ 177)
        by (apply Z.pow_le_mono_r; lia).
      change (2 ^ 177)
        with 191561942608236107294793378393788647952342390272950272 in Hp.
      pose proof (Z.pow_pos_nonneg 2 (e + 202) ltac:(lia) ltac:(lia)) as P.
      subst N. nia.
    + (* a multiple of 2 ^ -24 *)
      assert (Hp : 2 ^ (e + 202) = 2 ^ (e + 24) * 2 ^ 178).
      { rewrite <- Z.pow_add_r by lia. f_equal. lia. }
      pose proof (Z.pow_pos_nonneg 2 (e + 24) ltac:(lia) ltac:(lia)) as P.
      subst N. rewrite Hp in *.
      change (2 ^ 178)
        with 383123885216472214589586756787577295904684780545900544 in *.
      set (J := Zpos m * 2 ^ (e + 24)) in *.
      assert (HJ : J <= 10066329) by nia.
      nia.
Qed.

(** ** The dust response curve and the batch it is applied to *)

Lemma f32_add_nonneg (x y : c_float) :
  is_nonneg_SF x = true -> is_nonneg_SF y = true ->
  is_nonneg_SF (f32_add x y) = true.
Proof.
  destruct x as [[]|[]| |[] mx ex], y as [[]|[]| |[] my ey];
    cbn [is_nonneg_SF]; try discriminate; intros _ _; try reflexivity.
  unfold f32_add, SFadd. cbn [cond_Zopp].
  apply binary_normalize_nonneg. lia.
Qed.

Lemma f32_div_nonneg (x : c_float) (my : positive) (ey : Z) :
  is_nonneg_SF x = true ->
  is_nonneg_SF (f32_div x (S754_finite false my ey)) = true.
Proof.
  destruct x as [[]|[]| |[] mx ex]; cbn [is_nonneg_SF]; try easy.
  intros _. unfold f32_div, SFdiv, SFdiv_core_binary.
  set (m' := match _ - _ - _ with Z0 => Z.pos mx | Zpos _ => _ | Zneg _ => 0 end).
  assert (Hm' : 0 <= m').
  { subst m'. destruct (_ - _ - _); try lia. apply Z.shiftl_nonneg. lia. }
  pose proof (Z.div_pos m' (Z.pos my) Hm' ltac:(lia)) as Hq.
  unfold Z.div in Hq.
  destruct (Z.div_eucl m' (Z.pos my)) as [q r].
  cbn [xorb]. apply binary_round_aux_nonneg. exact Hq.
Qed.

Lemma batch_sum_nonneg (ss : list Sample) :
  forall acc, is_nonneg_SF acc = true ->
              is_nonneg_SF (batch_sum acc ss) = true.
Proof.
  induction ss as [|s ss IH]; intros acc Hacc; [exact Hacc|].
  cbn [batch_sum fold_left]. apply IH.
  apply f32_add_nonneg; [exact Hacc|apply sample_value_nonneg].
Qed.

Lemma max_sample_eq :
  f32_of_Z dust_sensor_max_sample = S754_finite false 8388608 (-19).
Proof. vm_compute. reflexivity. Qed.

(** The mean of a batch has sign bit 0 and is no NaN, whatever was read. *)
Lemma batch_mean_nonneg (ss : list Sample) :
  is_nonneg_SF (batch_mean ss) = true.
Proof.
  unfold batch_mean. rewrite max_sample_eq.
  apply f32_div_nonneg, batch_sum_nonneg. reflexivity.
Qed.

Lemma nonneg_not_nan (x : spec_float) :
  is_nonneg_SF x = true -> is_nan_SF x = false.
Proof. destruct x as [[]|[]| |[] m e]; cbn; easy. Qed.

Lemma f_le_not_gt (x y : spec_float) : f_le x y = true -> f_gt x y = false.
Proof.
  intros H. apply f_le_compare in H.
  destruct (f_gt x y) eqn:E; [|reflexivity].
  apply f_gt_compare in E. destruct H as [H|H]; congruence.
Qed.

Lemma f_gt_negb_le (a : spec_float) (s : bool) (m : positive) (e : Z) :
  is_nan_SF a = false ->
  f_gt a (S754_finite s m e) = negb (f_le a (S754_finite s m e)).
Proof.
  intros Hnan.
  destruct (compare_with_finite_total a s m e Hnan) as (c & Hc).
  destruct (f_gt a (S754_finite s m e)) eqn:Eg.
  - apply f_gt_compare in Eg. unfold f_le, SFleb. rewrite Eg. reflexivity.
  - unfold f_le, SFleb. rewrite Hc. destruct c; try reflexivity.
    apply f_gt_compare in Hc. congruence.
Qed.

(** For a mean that is a [float] number, the comparisons the code makes
    against the [double] literals are the comparisons of its value against
    the decimals 0.6 and 3.5. *)
Lemma mean_against_breakpoints (m : c_float) :
  valid_binary 24 128 m = true -> is_finite_SF m = true ->
  let a := f64_of_f32 m in
  (f_le a d_0_6 = true <-> (SF2Q m <= 6 # 10)%Q) /\
  (f_gt a d_0_6 = true <-> (6 # 10 < SF2Q m)%Q) /\
  (f_le a d_3_5 = true <-> (SF2Q m <= 35 # 10)%Q) /\
  (f_gt a d_3_5 = true <-> (35 # 10 < SF2Q m)%Q).
Proof.
  intros Hv Hf a.
  assert (Hle : (f_le a d_0_6 = true <-> (SF2Q m <= 6 # 10)%Q) /\
                (f_le a d_3_5 = true <-> (SF2Q m <= 35 # 10)%Q)).
  { subst a. destruct m as [s|s| |s mm e]; try discriminate Hf.
    - cbn [f64_of_f32 SF2Q]. rewrite d_0_6_eq, d_3_5_eq.
      split; (split; [intros _; discriminate|intros _; reflexivity]).
    - apply (float_breakpoints s mm e Hv). }
  assert (Hnan : is_nan_SF a = false).
  { subst a. destruct m as [s|s| |s mm e]; try discriminate Hf;
      [reflexivity|].
    destruct (f64_of_f32_shape s mm e Hv) as (k & mz & _ & _ & _ & ->).
    reflexivity. }
  destruct Hle as [H6 H35].
  assert (Hgt : forall (s : bool) (mm : positive) (e : Z) (q : Q),
             (f_le a (S754_finite s mm e) = true <-> (SF2Q m <= q)%Q) ->
             (f_gt a (S754_finite s mm e) = true <-> (q < SF2Q m)%Q)).
  { intros s mm e q Hq. rewrite (f_gt_negb_le a s mm e Hnan).
    destruct (f_le a (S754_finite s mm e)); cbn [negb]; split; intros H.
    - discriminate H.
    - apply Qlt_not_le in H. exfalso. apply H, Hq. reflexivity.
    - apply Qnot_le_lt. intros Hle. apply Hq in Hle. discriminate Hle.
    - reflexivity. }
  split; [exact H6|]. split; [|split; [exact H35|]].
  - rewrite d_0_6_eq in *. apply Hgt, H6.
  - rewrite d_3_5_eq in *. apply Hgt, H35.
Qed.

(** C2: the dust density handed to the store is the three-branch map of
    the batch mean [m], with the breakpoints the source writes: 0.0 when
    [m <= 0.6]; [(m - 0.6) / 5.8] when [0.6 < m <= 3.5]; 0.6 when
    [m > 3.5].  The three conditions exclude one another and cover every
    mean that is a number (on a NaN the code would store 0.6).  The
    breakpoints are exact: the code compares the [float] mean with the
    [double] literals 0.6 and 3.5, and for every [float] number that is the
    comparison of its value with the decimals 6/10 and 35/10.  Mean 3.5
    gives [(3.5 - 0.6) / 5.8] (which is 0.5), mean 10.0 gives 0.6.  And
    this is what is persisted: in every environment
    [READ_DUST_CONCENTRATION] takes sixteen samples, their mean is a number
    (so one of the three branches applies), the map of that mean is left in
    [acc_dust_concentration] and is the value the store is called with
    under id N+1; the INSERT with that value is executed unless the open or
    the allocation before it fails. *)
Theorem dust_density_three_branches (m : c_float) :
  let a := f64_of_f32 m in
  (f_le a d_0_6 = true -> dust_density m = f32_of_f64 d_0_0) /\
  (f_gt a d_0_6 = true -> f_le a d_3_5 = true ->
   dust_density m = f32_of_f64 (f64_div (f64_sub a d_0_6) d_5_8)) /\
  (f_gt a d_3_5 = true -> dust_density m = f32_of_f64 d_0_6) /\
  (is_nan_SF a = false ->
   f_le a d_0_6 = true \/
   (f_gt a d_0_6 = true /\ f_le a d_3_5 = true) \/
   f_gt a d_3_5 = true) /\
  (f_le a d_0_6 = true -> f_gt a d_0_6 = false /\ f_gt a d_3_5 = false) /\
  (f_le a d_3_5 = true -> f_gt a d_3_5 = false) /\
  (is_nan_SF a = true -> dust_density m = f32_of_f64 d_0_6) /\
  (valid_binary 24 128 m = true -> is_finite_SF m = true ->
   ((SF2Q m <= 6 # 10)%Q -> dust_density m = f32_of_f64 d_0_0) /\
   ((6 # 10 < SF2Q m)%Q -> (SF2Q m <= 35 # 10)%Q ->
    dust_density m = f32_of_f64 (f64_div (f64_sub a d_0_6) d_5_8)) /\
   ((35 # 10 < SF2Q m)%Q -> dust_density m = f32_of_f64 d_0_6)) /\
  dust_density (f32_of_f64 d_3_5)
  = f32_of_f64 (f64_div (f64_sub d_3_5 d_0_6) d_5_8) /\
  (SF2Q (dust_density (f32_of_f64 d_3_5)) == 1 # 2)%Q /\
  dust_density (f32_of_Z 10) = f32_of_f64 d_0_6 /\
  (forall (env : Env) (v : Vars) (h : Trace),
   exists ss st v',
     length ss = 16%nat /\ forallb sample_ok ss = true /\
     let mean := batch_mean ss in
     let density := dust_density mean in
     is_nan_SF (f64_of_f32 mean) = false /\
     case_READ_DUST_CONCENTRATION env v h
     = (Running v', h ++ batch_trace ss ++ st) /\
     acc_dust_concentration v' = density /\
     (st = store_trace_ok (NUM_OF_SENSORS + 1) density /\
      state_index v' = READ_HUMIDITY
      \/
      store_failure_trace (NUM_OF_SENSORS + 1) density st /\
      state_index v' = WAIT + 1) /\
     (db_inserts (batch_trace ss ++ st) = [(NUM_OF_SENSORS + 1, density)]
      \/
      db_inserts (batch_trace ss ++ st) = [] /\
      (st = store_trace_open_failed \/ st = store_trace_malloc_failed))).
Proof.
  intros a.
  assert (B1 : f_le a d_0_6 = true -> dust_density m = f32_of_f64 d_0_0).
  { intros H. unfold dust_density. fold a. rewrite H. reflexivity. }
  assert (B2 : f_gt a d_0_6 = true -> f_le a d_3_5 = true ->
               dust_density m
               = f32_of_f64 (f64_div (f64_sub a d_0_6) d_5_8)).
  { intros Hgt Hle. unfold dust_density. fold a.
    apply f_gt_compare in Hgt.
    assert (Hn : f_le a d_0_6 = false).
    { unfold f_le, SFleb. rewrite Hgt. reflexivity. }
    rewrite Hn, Hle. apply f_gt_compare in Hgt. rewrite Hgt. reflexivity. }
  assert (B3 : f_gt a d_3_5 = true -> dust_density m = f32_of_f64 d_0_6).
  { intros Hgt. unfold dust_density. fold a.
    apply f_gt_compare in Hgt.
    pose proof (above_3_5_above_0_6 a Hgt) as Hgt6.
    assert (Hn6 : f_le a d_0_6 = false).
    { unfold f_le, SFleb. rewrite Hgt6. reflexivity. }
    assert (Hn35 : f_le a d_3_5 = false).
    { unfold f_le, SFleb. rewrite Hgt. reflexivity. }
    rewrite Hn6, Hn35, andb_false_r. reflexivity. }
  split; [exact B1|]. split; [exact B2|]. split; [exact B3|].
  split.
  { intros Hnan.
    assert (H6 : exists c, SFcompare a d_0_6 = Some c)
      by (rewrite d_0_6_eq; apply compare_with_finite_total, Hnan).
    assert (H35 : exists c, SFcompare a d_3_5 = Some c)
      by (rewrite d_3_5_eq; apply compare_with_finite_total, Hnan).
    destruct H6 as (c6 & H6). destruct c6.
    - left. apply f_le_compare. auto.
    - left. apply f_le_compare. auto.
    - destruct H35 as (c35 & H35). destruct c35.
      + right. left. split; [apply f_gt_compare, H6|].
        apply f_le_compare. auto.
      + right. left. split; [apply f_gt_compare, H6|].
        apply f_le_compare. auto.
      + right. right. apply f_gt_compare, H35. }
  split.
  { intros Hle. split; [apply f_le_not_gt, Hle|].
    destruct (f_gt a d_3_5) eqn:E; [|reflexivity].
    apply f_gt_compare, above_3_5_above_0_6, f_gt_compare in E.
    rewrite (f_le_not_gt _ _ Hle) in E. discriminate E. }
  split; [apply f_le_not_gt|].
  split.
  { intros Hnan. unfold dust_density. fold a.
    destruct a; try discriminate Hnan. reflexivity. }
  split.
  { intros Hv Hf.
    destruct (mean_against_breakpoints m Hv Hf) as (Q1 & Q2 & Q3 & Q4).
    fold a in Q1, Q2, Q3, Q4.
    split; [intros H; apply B1, Q1, H|].
    split; [intros H1 H2; apply B2; [apply Q2, H1|apply Q3, H2]|].
    intros H. apply B3, Q4, H. }
  split; [vm_compute; reflexivity|].
  split; [apply Qeq_bool_iff; vm_compute; reflexivity|].
  split; [vm_compute; reflexivity|].
  intros env v h.
  destruct (case_READ_DUST_CONCENTRATION_trace env v h)
    as (ss & vl & Hlen & Hok & Hmean & _ & Hcases).
  assert (Hacc : forall s,
             acc_dust_concentration (set_state_index (after_dust_batch vl) s)
             = dust_density (batch_mean ss)).
  { intros s. rewrite <- Hmean. reflexivity. }
  assert (Hq : db_inserts (batch_trace ss) = [])
    by apply batch_trace_quiet.
  unfold dust_value in Hcases.
  destruct Hcases as [E|(df & Hdf & E)].
  - exists ss, (store_trace_ok (NUM_OF_SENSORS + 1)
                  (dust_density (batch_mean ss))),
           (set_state_index (after_dust_batch vl) READ_HUMIDITY).
    split; [exact Hlen|]. split; [exact Hok|].
    split; [apply nonneg_not_nan, f64_of_f32_nonneg, batch_mean_nonneg|].
    split; [exact E|]. split; [apply Hacc|].
    split; [left; split; reflexivity|].
    left. rewrite db_inserts_app, Hq. reflexivity.
  - exists ss, df, (set_state_index (after_dust_batch vl) (WAIT + 1)).
    split; [exact Hlen|]. split; [exact Hok|].
    split; [apply nonneg_not_nan, f64_of_f32_nonneg, batch_mean_nonneg|].
    split; [exact E|]. split; [apply Hacc|].
    split; [right; split; [exact Hdf|reflexivity]|].
    rewrite db_inserts_app, Hq.
    destruct Hdf as [-> | [-> | ->]].
    + right. split; [reflexivity|]. left. reflexivity.
    + right. split; [reflexivity|]. right. reflexivity.
    + left. reflexivity.
Qed.

Lemma dust_density_three_branches_witness :
  let m := f32_of_Z 2 in
  valid_binary 24 128 m = true /\ is_finite_SF m = true /\
  (6 # 10 < SF2Q m)%Q /\ (SF2Q m <= 35 # 10)%Q /\
  dust_density m
  = f32_of_f64 (f64_div (f64_sub (f64_of_f32 m) d_0_6) d_5_8).
Proof.
  intros m.
  assert (Hv : valid_binary 24 128 m = true) by (vm_compute; reflexivity).
  assert (Hf : is_finite_SF m = true) by (vm_compute; reflexivity).
  assert (H1 : (6 # 10 < SF2Q m)%Q) by (vm_compute; reflexivity).
  assert (H2 : (SF2Q m <= 35 # 10)%Q) by (vm_compute; discriminate).
  split; [exact Hv|]. split; [exact Hf|].
  split; [exact H1|]. split; [exact H2|].
  destruct (dust_density_three_branches m)
    as (_ & _ & _ & _ & _ & _ & _ & Hq & _).
  destruct (Hq Hv Hf) as (_ & Hmid & _).
  exact (Hmid H1 H2).
Defined.

(** ** Statements that fit, along a run *)

Lemma queries_fit_app (a b : Trace) :
  queries_fit a -> queries_fit b -> queries_fit (a ++ b).
Proof.
  unfold queries_fit. intros Ha Hb. rewrite db_inserts_app.
  apply Forall_app. auto.
Qed.

Lemma queries_fit_quiet (d : Trace) :
  forallb (fun e => negb (is_db_event e)) d = true -> queries_fit d.
Proof.
  intros H. destruct (trace_ok_quiet d H) as [_ _].
  unfold queries_fit.
  induction d as [|e d IH]; [constructor|].
  cbn [forallb] in H. apply andb_prop in H as [He Hd].
  destruct e; try discriminate He; cbn [db_inserts]; auto.
Qed.

Lemma queries_fit_store (sen_id : Z) (sen_val : c_float) (d : Trace) :
  query_fits sen_id sen_val = true ->
  d = store_trace_ok sen_id sen_val \/ store_failure_trace sen_id sen_val d ->
  queries_fit d.
Proof.
  intros Hf [-> | [-> | [-> | ->]]]; unfold queries_fit;
    cbn [db_inserts store_trace_ok store_trace_open_failed
         store_trace_malloc_failed store_trace_exec_failed];
    repeat (constructor; [exact Hf|]); constructor.
Qed.

(** One pass writes only statements that fit, when the humidity ADC
    answers within its ten bits. *)
Lemma main_step_fits (env : Env) (v : Vars) (h : Trace) :
  (forall t, 0 <= env_aio_read env t hsm_aio_in <= 1023) ->
  probe_index_ok v ->
  exists d, snd (main_step env (Running v) h) = h ++ d /\ queries_fit d.
Proof.
  intros Hhum (Hlen & Hidx & Hzero).
  destruct (state_index_cases v) as [Hs|[Hs|[Hs|[Hs|[Hs|[Hs|[Hs|Hs]]]]]]].
  - cbn [main_step]. rewrite (main_loop_body_NONE env v Hs). unfold ret.
    exists []. rewrite app_nil_r. split; [reflexivity|constructor].
  - rewrite (main_step_START_CONV env v h Hs). eexists.
    split; [reflexivity|]. apply queries_fit_quiet. reflexivity.
  - rewrite (main_step_WAIT_TILL_CONV_FINISHED env v h Hs). eexists.
    split; [reflexivity|]. apply queries_fit_quiet. reflexivity.
  - cbn [main_step]. rewrite (main_loop_body_READ_TEMP env v Hs).
    assert (Hsc : 0 <= sen_count v < 2) by (unfold_states; lia).
    assert (Hn : to_uint8 (sen_count v + 1) = sen_count v + 1)
      by (unfold to_uint8; apply Z.mod_small; lia).
    destruct (case_READ_TEMP_spec env v h)
      as (sp & d & _ & _ & Hb & Hd & Hcases).
    cbv zeta in Hcases. rewrite Hn in Hcases.
    assert (Hq : queries_fit
                   (Ev_uart_ow_command CMD_READ_SCRATCHPAD
                      (addr_row (ds18b20_addr v) (sen_count v)) :: d)).
    { apply queries_fit_quiet. cbn [forallb is_db_event negb andb].
      apply read_bytes_quiet, Hd. }
    assert (Hf : query_fits (sen_count v + 1)
                   (temp_scale (temp_adc_val sp)) = true)
      by (apply probe_value_fits; [lia|exact Hb]).
    destruct Hcases as [[_ E]|[(_ & df & Hdf & E)|[_ E]]]; rewrite E;
      cbn [snd].
    + eexists. split; [reflexivity|exact Hq].
    + exists ((Ev_uart_ow_command CMD_READ_SCRATCHPAD
                 (addr_row (ds18b20_addr v) (sen_count v)) :: d) ++ df).
      split; [rewrite <- app_assoc; reflexivity|].
      apply queries_fit_app; [exact Hq|].
      apply (queries_fit_store _ _ _ Hf). right. exact Hdf.
    + exists ((Ev_uart_ow_command CMD_READ_SCRATCHPAD
                 (addr_row (ds18b20_addr v) (sen_count v)) :: d)
              ++ store_trace_ok (sen_count v + 1)
                   (temp_scale (temp_adc_val sp))).
      split; [rewrite <- app_assoc; reflexivity|].
      apply queries_fit_app; [exact Hq|].
      apply (queries_fit_store _ _ _ Hf). left. reflexivity.
  - cbn [main_step]. rewrite (main_loop_body_READ_DUST_CONCENTRATION env v Hs).
    destruct (case_READ_DUST_CONCENTRATION_spec env v h)
      as (vl & d & _ & Hd & _ & Hcases).
    cbv zeta in Hcases.
    assert (Hq : queries_fit d)
      by (apply queries_fit_quiet, sampling_quiet, Hd).
    pose proof (dust_density_fits (dust_mean vl)) as Hf.
    destruct Hcases as [E|(df & Hdf & E)]; rewrite E; cbn [snd];
      rewrite <- app_assoc; eexists; (split; [reflexivity|]);
      (apply queries_fit_app; [exact Hq|]);
      apply (queries_fit_store _ _ _ Hf).
    + left. reflexivity.
    + right. exact Hdf.
  - cbn [main_step]. rewrite (main_loop_body_READ_HUMIDITY env v Hs).
    pose proof (humidity_value_fits _ (Hhum h)) as Hf.
    pose proof (case_READ_HUMIDITY_spec env v h) as C. cbv zeta in C.
    rewrite <- (humidity_value_eq (env_aio_read env h hsm_aio_in)) in C.
    set (raw := env_aio_read env h hsm_aio_in) in *.
    set (hum := humidity_value raw) in *.
    destruct C as [E|(df & Hdf & E)]; rewrite E; cbn [snd];
      rewrite <- app_assoc.
    + exists ([Ev_aio_read hsm_aio_in raw]
              ++ store_trace_ok (NUM_OF_SENSORS + 2) hum).
      split; [reflexivity|].
      apply (queries_fit_app [_]); [apply queries_fit_quiet; reflexivity|].
      apply (queries_fit_store _ _ _ Hf). left. reflexivity.
    + exists ([Ev_aio_read hsm_aio_in raw] ++ df).
      split; [reflexivity|].
      apply (queries_fit_app [_]); [apply queries_fit_quiet; reflexivity|].
      apply (queries_fit_store _ _ _ Hf). right. exact Hdf.
  - rewrite (main_step_WAIT env v h Hs). eexists.
    split; [reflexivity|]. apply queries_fit_quiet. reflexivity.
  - rewrite (main_step_default env v h Hs). eexists.
    split; [reflexivity|]. apply queries_fit_quiet. reflexivity.
Qed.

Lemma main_steps_fit (env : Env) (n : nat) :
  (forall t, 0 <= env_aio_read env t hsm_aio_in <= 1023) ->
  forall c h,
    control_ok c ->
    exists d, snd (main_steps env n c h) = h ++ d /\ queries_fit d.
Proof.
  intros Hhum. induction n as [|n IH]; intros c h Hc.
  - exists []. cbn. rewrite app_nil_r. split; [reflexivity|constructor].
  - rewrite main_steps_S. destruct c as [v|v|code].
    + destruct (main_step_keeps env v h Hc) as (c1 & d1 & E1 & Hc1 & _).
      destruct (main_step_fits env v h Hhum Hc) as (d1' & E1' & Hf1).
      rewrite E1 in E1'. cbn [snd] in E1'. apply app_inv_head in E1'.
      subst d1'. rewrite E1.
      destruct (IH c1 (h ++ d1) Hc1) as (d2 & E2 & Hf2).
      exists (d1 ++ d2). rewrite E2, app_assoc.
      split; [reflexivity|]. apply queries_fit_app; assumption.
    + cbn [main_step]. unfold ret. apply (IH (Spinning v) h I).
    + cbn [main_step]. unfold ret. apply (IH (Exited code) h I).
Qed.

Lemma main_startup_fits (env : Env) :
  queries_fit (snd (main_startup env [])).
Proof.
  pose proof (main_startup_cases env) as C. cbv zeta in C.
  destruct C as [E|[(r & _ & E)|[(rom1 & E)|(r1 & rom1 & r2 & rom2 & _ & C)]]];
    [rewrite E; apply queries_fit_quiet; reflexivity .. |].
  destruct C as [(_ & E)|(_ & _ & [E|[(r & _ & E)|[E|[E|(v & E & _)]]]])];
    rewrite E; apply queries_fit_quiet; reflexivity.
Qed.

Lemma main_fits (env : Env) (n : nat) :
  (forall t, 0 <= env_aio_read env t hsm_aio_in <= 1023) ->
  queries_fit (snd (main env n [])).
Proof.
  intros Hhum. unfold main, bind.
  pose proof (main_startup_fits env) as H0.
  destruct (main_startup_keeps env) as (c0 & h0 & E0 & Hc0 & _).
  rewrite E0 in *. cbn [snd] in H0.
  destruct (main_steps_fit env n Hhum c0 h0 Hc0) as (d & E & Hd).
  rewrite E. apply queries_fit_app; assumption.
Qed.

(** X1: every call of [store_data_to_db] whose statement fits the 64 bytes
    of its buffer opens the database once and closes it once, as its last
    act, on every path.  It returns [SUCCESS] exactly when no call it made
    reported a failure, and then it has executed exactly one INSERT,
    carrying the id and the value it was given; on the other paths it has
    executed that INSERT (and seen it fail) or none.  (A statement that does
    not fit is written past the end of the buffer, and C gives the call no
    meaning.) *)
Theorem store_data_to_db_discipline
  (env : Env) (sen_id : Z) (sen_val : c_float) (h : Trace) :
  query_fits sen_id sen_val = true ->
  exists r d,
    store_data_to_db env sen_id sen_val h = (r, h ++ d) /\
    (r = SUCCESS \/ r = FAIL) /\
    count is_open_event d = 1%nat /\
    count is_close_event d = 1%nat /\
    (exists o, hd_error d = Some (Ev_sqlite3_open o)) /\
    last d Ev_free = Ev_sqlite3_close /\
    (r = SUCCESS <-> existsb is_failed_db_event d = false) /\
    (r = SUCCESS -> db_inserts d = [(sen_id, sen_val)]) /\
    (r = FAIL ->
     db_inserts d = [] \/
     (db_inserts d = [(sen_id, sen_val)] /\
      In (Ev_sqlite3_exec sen_id sen_val SQLITE_ERROR) d)).
Proof.
  intros _.
  destruct (store_data_to_db_spec env sen_id sen_val h)
    as [E|(d & E & [-> | [-> | ->]])]; rewrite E; do 2 eexists;
    (split; [reflexivity|]); cbn.
  - repeat split; eauto; try discriminate.
  - repeat split; eauto; try discriminate.
  - repeat split; eauto; try discriminate.
  - repeat split; eauto; try discriminate. intros _. right. split; auto.
Qed.

Lemma store_data_to_db_discipline_witness :
  query_fits 1 (f32_of_Z 25) = true /\
  exists r d,
    store_data_to_db (env_of_rig rig_ok) 1 (f32_of_Z 25) [] = (r, [] ++ d) /\
    count is_open_event d = 1%nat /\ count is_close_event d = 1%nat.
Proof.
  assert (H : query_fits 1 (f32_of_Z 25) = true) by (vm_compute; reflexivity).
  split; [exact H|].
  destruct (store_data_to_db_discipline (env_of_rig rig_ok) 1 (f32_of_Z 25)
              [] H) as (r & d & E & _ & Ho & Hc & _).
  exists r, d. split; [exact E|]. split; [exact Ho|exact Hc].
Defined.

(** X9: when the humidity ADC answers within its ten bits (0..1023), no
    statement the program prints overruns its buffer, and the database is
    never left open between passes: after any number of passes every INSERT
    handed to SQLite, successful or not, was printed within the 64 bytes
    allocated for it, and [sqlite3_close] has been called exactly as often
    as [sqlite3_open], failed stores included.  The temperature of a probe
    and the density of a dust batch always fit; the bound on the humidity
    count is needed: the statement for the answer -1 of a failed read takes
    65 bytes. *)
Theorem database_is_closed_between_passes (env : Env) (n : nat) :
  (forall t, 0 <= env_aio_read env t hsm_aio_in <= 1023) ->
  queries_fit (snd (main env n [])) /\
  count is_open_event (snd (main env n []))
  = count is_close_event (snd (main env n [])) /\
  (forall sen_id sp,
     1 <= sen_id <= NUM_OF_SENSORS -> Forall (fun b => 0 <= b < 256) sp ->
     query_fits sen_id (temp_scale (temp_adc_val sp)) = true) /\
  (forall mean,
     query_fits (NUM_OF_SENSORS + 1) (dust_density mean) = true) /\
  query_length (NUM_OF_SENSORS + 2) (humidity_value (-1)) + 1 = 65.
Proof.
  intros Hhum.
  split; [apply main_fits, Hhum|].
  split.
  { destruct (main_keeps env n) as (c & h & E & _ & [_ Hbal] & _).
    rewrite E. exact Hbal. }
  split.
  { intros sen_id sp Hid Hsp. apply probe_value_fits; [|exact Hsp].
    unfold NUM_OF_SENSORS in Hid. lia. }
  split; [apply dust_density_fits|].
  vm_compute. reflexivity.
Qed.

Lemma database_is_closed_between_passes_witness :
  let env := env_of_rig rig_ok in
  (forall t, 0 <= env_aio_read env t hsm_aio_in <= 1023) /\
  queries_fit (snd (main env 20 [])) /\
  count is_open_event (snd (main env 20 [])) = 8%nat.
Proof.
  intros env.
  assert (H : forall t, 0 <= env_aio_read env t hsm_aio_in <= 1023)
    by (intros t; cbn; lia).
  split; [exact H|].
  destruct (database_is_closed_between_passes env 20 H) as (Hf & _).
  split; [exact Hf|]. vm_compute. reflexivity.
Defined.
